(** * The configuration tree of [cosmos_reason1.policy.config]

    A shallow embedding of [cosmos_reason1/policy/config/__init__.py]: the
    dataclasses of the configuration tree with their defaults and
    [__post_init__] hooks, [Config.from_dict], [Config.validate] and
    [config_hash], followed by the properties established about them.

    Conventions.
    - Python [int] is [Z]; [%] and [//] are [Z.modulo] and [Z.div] (both
      floor towards minus infinity, as Python does) behind a zero check.
    - A Python [float] is carried by its [repr] text: the code never computes
      with floats, it stores them and prints them, and [repr] is injective
      on finite floats.
    - A Python [str] is a [string] whose characters are code points below 256.
    - A Python exception is a value of [exn]; a function that may raise
      returns a [result].
    - Objects mutated in place ([self] in [validate], the mapping handed to
      [from_dict]) are threaded explicitly: the function returns the state
      the object is left in. *)

From Stdlib Require Import ZArith List String Ascii Bool Lia DecimalString.
Import ListNotations.
Open Scope string_scope.
Open Scope Z_scope.

(** ** Exceptions and the result monad *)

(** [AssertionError] and [ValueError] are raised by the code and carry its
    message; the others are raised by the interpreter: [KeyError] carries
    the missing key, [AttributeError] the missing attribute, and the message
    texts of [TypeError] and [ZeroDivisionError] are left out. *)
Inductive exn : Type :=
| AssertionError (msg : string)
| ValueError (msg : string)
| KeyError (key : string)
| AttributeError (attr : string)
| TypeError
| ZeroDivisionError.

Inductive result (A : Type) : Type :=
| Ok (a : A)
| Raise (e : exn).

Arguments Ok {A} a.
Arguments Raise {A} e.

Definition bind {A B : Type} (c : result A) (k : A -> result B) : result B :=
  match c with
  | Ok a => k a
  | Raise e => Raise e
  end.

Notation "x <- c ;; k" := (bind c (fun x => k))
  (at level 61, c at next level, right associativity).
Notation "c ;;; k" := (bind c (fun _ => k))
  (at level 61, right associativity).

(** [assert cond, msg] *)
Definition assert (cond : bool) (msg : string) : result unit :=
  if cond then Ok tt else Raise (AssertionError msg).

Definition is_ok {A : Type} (c : result A) : bool :=
  match c with Ok _ => true | Raise _ => false end.

(** Python's [a % b] and [a // b] on integers. *)
Definition py_mod (a b : Z) : result Z :=
  if b =? 0 then Raise ZeroDivisionError
  else Ok (a mod b).

Definition py_floordiv (a b : Z) : result Z :=
  if b =? 0 then Raise ZeroDivisionError
  else Ok (a / b).

(** The decimal text of an integer. *)
Definition decimal (n : Z) : string := NilZero.string_of_int (Z.to_int n).

(** [sys.get_int_max_str_digits()], as the interpreter starts. *)
Definition int_max_str_digits : Z := 4300.

(** [10 ** 4300], the least integer with more decimal digits than that. *)
Definition int_limit : Z := Eval vm_compute in 10 ^ int_max_str_digits.

(** [n] has at most [int_max_str_digits] decimal digits, its sign apart. *)
Definition int_fits (n : Z) : bool := Z.abs n <? int_limit.

Definition int_limit_message : string :=
  "Exceeds the limit (4300 digits) for integer string conversion; use sys.set_int_max_str_digits() to increase the limit".

(** [str(n)] for an integer, which is also what [repr], an f-string and the
    JSON encoder make of it: the decimal text, refused with [ValueError]
    when it has more digits than the limit. *)
Definition str_of_int (n : Z) : result string :=
  if int_fits n then Ok (decimal n) else Raise (ValueError int_limit_message).

(** ** Leaf types of the schema *)

(** A float, by its [repr]. *)
Record pyfloat : Type := Float { float_repr : string }.

(** [Union[str, List[str]]] *)
Inductive StrOrList : Type :=
| OneStr (s : string)
| StrList (l : list string).

(** [Union[bool, str]] *)
Inductive BoolOrStr : Type :=
| UBool (b : bool)
| UStr (s : string).

(** [Union[float, int]] *)
Inductive FloatOrInt : Type :=
| UFloat (f : pyfloat)
| UInt (n : Z).

(** [x in xs] for a string and a list of strings. *)
Definition str_in (x : string) (xs : list string) : bool :=
  existsb (String.eqb x) xs.

(** Truth value of a [Union[bool, str]]: [False] and the empty string are
    falsy. *)
Definition truthy (v : BoolOrStr) : bool :=
  match v with
  | UBool b => b
  | UStr s => negb (s =? EmptyString)%string
  end.

(** [v in xs] for a [Union[bool, str]] and a list of strings: a [bool] is
    never equal to a [str]. *)
Definition bool_or_str_in (v : BoolOrStr) (xs : list string) : bool :=
  match v with
  | UBool _ => false
  | UStr s => str_in s xs
  end.

(** [str(v)] *)
Definition str_of_bool_or_str (v : BoolOrStr) : string :=
  match v with
  | UBool true => "True"
  | UBool false => "False"
  | UStr s => s
  end.

(** ** The dataclasses

    One module per dataclass: the record [t] has the fields of the class in
    declaration order, [defaults] holds the field defaults, [post_init] is
    the class's [__post_init__] (where it has one) and [new] is the call of
    the constructor without arguments, which fills the defaults, runs the
    default factories and then [__post_init__]. *)

Module SFTDataConfig.
Record t : Type := mk {
  type : string;
  dataset_name : string;
  dataset_subset : option string;
  dataset_revision : option string;
  dataset_train_split : StrOrList;
  dataset_test_split : string;
  dataset_test_size : FloatOrInt;
  enable_dataset_preprocess : bool;
  enable_dataset_cache : bool;
  dataloader_num_workers : Z;
  dataloader_prefetch_factor : option Z;
  enable_validation : bool;
  validation_freq : Z;
  validation_batch_per_replica : Z;
  conversation_column_name : string;
  system_prompt : string;
  max_pixels : Z;
  fps : Z;
  vision_asset_column_name : string
}.

Definition defaults : t := {|
  type := "sft";
  dataset_name := EmptyString;
  dataset_subset := Some EmptyString;
  dataset_revision := Some EmptyString;
  dataset_train_split := StrList [];
  dataset_test_split := "test";
  dataset_test_size := UFloat (Float "0.1");
  enable_dataset_preprocess := false;
  enable_dataset_cache := false;
  dataloader_num_workers := 0;
  dataloader_prefetch_factor := None;
  enable_validation := false;
  validation_freq := 20;
  validation_batch_per_replica := 24;
  conversation_column_name := "conversations";
  system_prompt := EmptyString;
  max_pixels := 320 * 256;
  fps := 2;
  vision_asset_column_name := EmptyString
|}.

Definition set_dataloader (self : t) (workers : Z) (prefetch : option Z) : t :=
  mk (type self) (dataset_name self) (dataset_subset self)
     (dataset_revision self) (dataset_train_split self)
     (dataset_test_split self) (dataset_test_size self)
     (enable_dataset_preprocess self) (enable_dataset_cache self)
     workers prefetch
     (enable_validation self) (validation_freq self)
     (validation_batch_per_replica self) (conversation_column_name self)
     (system_prompt self) (max_pixels self) (fps self)
     (vision_asset_column_name self).

Definition set_dataset_train_split (self : t) (v : StrOrList) : t :=
  mk (type self) (dataset_name self) (dataset_subset self)
     (dataset_revision self) v
     (dataset_test_split self) (dataset_test_size self)
     (enable_dataset_preprocess self) (enable_dataset_cache self)
     (dataloader_num_workers self) (dataloader_prefetch_factor self)
     (enable_validation self) (validation_freq self)
     (validation_batch_per_replica self) (conversation_column_name self)
     (system_prompt self) (max_pixels self) (fps self)
     (vision_asset_column_name self).

Definition post_init (self : t) : result t :=
  if dataloader_num_workers self <=? 0
  then Ok (set_dataloader self 0 None)
  else Ok self.

Definition new : result t := post_init defaults.
End SFTDataConfig.

Module CheckpointConfig.
Record t : Type := mk {
  enable_checkpoint : bool;
  save_freq : Z;
  save_mode : string;
  max_keep : Z;
  export_safetensors : bool;
  upload_hf : bool;
  hf_repo_name : string;
  upload_s3 : BoolOrStr;
  s3_bucket : string;
  s3_prefix : string
}.

Definition defaults : t := {|
  enable_checkpoint := false;
  save_freq := 20;
  save_mode := "async";
  max_keep := 5;
  export_safetensors := true;
  upload_hf := false;
  hf_repo_name := "Comos-Reason1";
  upload_s3 := UBool false;
  s3_bucket := "cosmos-reason1";
  s3_prefix := "outputs"
|}.

Definition post_init (self : t) : result t :=
  if negb (str_in (save_mode self) ["async"; "sync"])
  then Raise (ValueError ("Invalid save_mode: " ++ save_mode self
                          ++ ". Must be one of ['async', 'sync']"))
  else if save_freq self <=? 0
  then got <- str_of_int (save_freq self) ;;
       Raise (ValueError ("save_freq must be greater than 0, got " ++ got))
  else Ok self.

Definition new : result t := post_init defaults.
End CheckpointConfig.

Module OverlongRewardConfig.
Record t : Type := mk {
  enable_overlong_penalty : bool;
  buffer_length : Z;
  penalty_factor : pyfloat
}.

Definition defaults : t := {|
  enable_overlong_penalty := false;
  buffer_length := 4096;
  penalty_factor := Float "1.0"
|}.

Definition new : result t := Ok defaults.
End OverlongRewardConfig.

Module GrpoConfig.
Record t : Type := mk {
  type : string;
  variant : string;
  dataset_name : string;
  dataset_subset : option string;
  dataset_revision : option string;
  dataset_train_split : StrOrList;
  enable_dataset_preprocess : bool;
  enable_dataset_cache : bool;
  dataloader_num_workers : Z;
  dataloader_prefetch_factor : option Z;
  prompt_column_name : string;
  choices_column_name : string;
  response_column_name : string;
  system_prompt : string;
  max_pixels : Z;
  fps : Z;
  vision_asset_column_name : string;
  reward_function : StrOrList;
  temperature : pyfloat;
  epsilon_low : pyfloat;
  epsilon_high : pyfloat;
  overlong_reward : OverlongRewardConfig.t;
  kl_beta : pyfloat;
  mu_iterations : Z;
  mini_batch : Z;
  allowed_outdated_steps : Z
}.

(** The defaults, given the value the [overlong_reward] factory produced. *)
Definition defaults (overlong : OverlongRewardConfig.t) : t := {|
  type := "grpo";
  variant := "grpo";
  dataset_name := EmptyString;
  dataset_subset := Some EmptyString;
  dataset_revision := Some EmptyString;
  dataset_train_split := StrList [];
  enable_dataset_preprocess := false;
  enable_dataset_cache := false;
  dataloader_num_workers := 0;
  dataloader_prefetch_factor := None;
  prompt_column_name := EmptyString;
  choices_column_name := EmptyString;
  response_column_name := EmptyString;
  system_prompt := EmptyString;
  max_pixels := 320 * 256;
  fps := 2;
  vision_asset_column_name := EmptyString;
  reward_function := StrList [];
  temperature := Float "0.9";
  epsilon_low := Float "0.2";
  epsilon_high := Float "0.2";
  overlong_reward := overlong;
  kl_beta := Float "0.0";
  mu_iterations := 1;
  mini_batch := 2;
  allowed_outdated_steps := 10
|}.

Definition set_dataloader (self : t) (workers : Z) (prefetch : option Z) : t :=
  mk (type self) (variant self) (dataset_name self) (dataset_subset self)
     (dataset_revision self) (dataset_train_split self)
     (enable_dataset_preprocess self) (enable_dataset_cache self)
     workers prefetch
     (prompt_column_name self) (choices_column_name self)
     (response_column_name self) (system_prompt self) (max_pixels self)
     (fps self) (vision_asset_column_name self) (reward_function self)
     (temperature self) (epsilon_low self) (epsilon_high self)
     (overlong_reward self) (kl_beta self) (mu_iterations self)
     (mini_batch self) (allowed_outdated_steps self).

Definition set_dataset_train_split (self : t) (v : StrOrList) : t :=
  mk (type self) (variant self) (dataset_name self) (dataset_subset self)
     (dataset_revision self) v
     (enable_dataset_preprocess self) (enable_dataset_cache self)
     (dataloader_num_workers self) (dataloader_prefetch_factor self)
     (prompt_column_name self) (choices_column_name self)
     (response_column_name self) (system_prompt self) (max_pixels self)
     (fps self) (vision_asset_column_name self) (reward_function self)
     (temperature self) (epsilon_low self) (epsilon_high self)
     (overlong_reward self) (kl_beta self) (mu_iterations self)
     (mini_batch self) (allowed_outdated_steps self).

Definition set_reward_function (self : t) (v : StrOrList) : t :=
  mk (type self) (variant self) (dataset_name self) (dataset_subset self)
     (dataset_revision self) (dataset_train_split self)
     (enable_dataset_preprocess self) (enable_dataset_cache self)
     (dataloader_num_workers self) (dataloader_prefetch_factor self)
     (prompt_column_name self) (choices_column_name self)
     (response_column_name self) (system_prompt self) (max_pixels self)
     (fps self) (vision_asset_column_name self) v
     (temperature self) (epsilon_low self) (epsilon_high self)
     (overlong_reward self) (kl_beta self) (mu_iterations self)
     (mini_batch self) (allowed_outdated_steps self).

Definition post_init (self : t) : result t :=
  assert (str_in (variant self) ["grpo"; "dapo"])
         "variant must be one of ['grpo', 'dapo']" ;;;
  if dataloader_num_workers self <=? 0
  then Ok (set_dataloader self 0 None)
  else Ok self.

Definition new : result t :=
  overlong <- OverlongRewardConfig.new ;;
  post_init (defaults overlong).
End GrpoConfig.

Module ProfilerConfig.
Record t : Type := mk {
  enable_profiler : bool;
  active_steps : Z;
  rank_filter : list Z
}.

Definition defaults : t := {|
  enable_profiler := false;
  active_steps := 1;
  rank_filter := []
|}.

Definition new : result t := Ok defaults.
End ProfilerConfig.

(** [Union[SFTDataConfig, GrpoConfig]]: the object stored in
    [TrainingConfig.train_policy], by its class. *)
Inductive TrainPolicy : Type :=
| SFT (p : SFTDataConfig.t)
| Grpo (p : GrpoConfig.t).

Module TrainingConfig.
Record t : Type := mk {
  train_policy : TrainPolicy;
  ckpt : CheckpointConfig.t;
  resume : BoolOrStr;
  epoch : Z;
  output_dir : string;
  timestamp : string;
  epsilon : pyfloat;
  optm_name : string;
  optm_lr : pyfloat;
  optm_impl : string;
  optm_weight_decay : pyfloat;
  optm_betas : pyfloat * pyfloat;
  optm_warmup_steps : Z;
  optm_grad_norm_clip : pyfloat;
  async_tp_enabled : bool;
  compile : bool;
  param_dtype : string;
  fsdp_reduce_dtype : string;
  fsdp_offload : bool;
  fsdp_reshard_after_forward : string;
  train_batch_per_replica : Z;
  sync_weight_interval : Z
}.

(** The defaults, given the values the two default factories produced. *)
Definition defaults (policy : TrainPolicy) (ck : CheckpointConfig.t) : t := {|
  train_policy := policy;
  ckpt := ck;
  resume := UBool false;
  epoch := 1;
  output_dir := "./outputs";
  timestamp := EmptyString;
  epsilon := Float "1e-06";
  optm_name := "AdamW";
  optm_lr := Float "1e-06";
  optm_impl := "fused";
  optm_weight_decay := Float "0.0";
  optm_betas := (Float "0.9", Float "0.999");
  optm_warmup_steps := 20;
  optm_grad_norm_clip := Float "1.0";
  async_tp_enabled := false;
  compile := true;
  param_dtype := "bfloat16";
  fsdp_reduce_dtype := "float32";
  fsdp_offload := false;
  fsdp_reshard_after_forward := "default";
  train_batch_per_replica := 8;
  sync_weight_interval := 1
|}.

Definition set_train_policy (self : t) (v : TrainPolicy) : t :=
  mk v (ckpt self) (resume self) (epoch self) (output_dir self)
     (timestamp self) (epsilon self) (optm_name self) (optm_lr self)
     (optm_impl self) (optm_weight_decay self) (optm_betas self)
     (optm_warmup_steps self) (optm_grad_norm_clip self)
     (async_tp_enabled self) (compile self) (param_dtype self)
     (fsdp_reduce_dtype self) (fsdp_offload self)
     (fsdp_reshard_after_forward self) (train_batch_per_replica self)
     (sync_weight_interval self).

Definition set_ckpt (self : t) (v : CheckpointConfig.t) : t :=
  mk (train_policy self) v (resume self) (epoch self) (output_dir self)
     (timestamp self) (epsilon self) (optm_name self) (optm_lr self)
     (optm_impl self) (optm_weight_decay self) (optm_betas self)
     (optm_warmup_steps self) (optm_grad_norm_clip self)
     (async_tp_enabled self) (compile self) (param_dtype self)
     (fsdp_reduce_dtype self) (fsdp_offload self)
     (fsdp_reshard_after_forward self) (train_batch_per_replica self)
     (sync_weight_interval self).

Definition set_async_tp_enabled (self : t) (v : bool) : t :=
  mk (train_policy self) (ckpt self) (resume self) (epoch self)
     (output_dir self) (timestamp self) (epsilon self) (optm_name self)
     (optm_lr self) (optm_impl self) (optm_weight_decay self)
     (optm_betas self) (optm_warmup_steps self) (optm_grad_norm_clip self)
     v (compile self) (param_dtype self)
     (fsdp_reduce_dtype self) (fsdp_offload self)
     (fsdp_reshard_after_forward self) (train_batch_per_replica self)
     (sync_weight_interval self).

Definition set_compile (self : t) (v : bool) : t :=
  mk (train_policy self) (ckpt self) (resume self) (epoch self)
     (output_dir self) (timestamp self) (epsilon self) (optm_name self)
     (optm_lr self) (optm_impl self) (optm_weight_decay self)
     (optm_betas self) (optm_warmup_steps self) (optm_grad_norm_clip self)
     (async_tp_enabled self) v (param_dtype self)
     (fsdp_reduce_dtype self) (fsdp_offload self)
     (fsdp_reshard_after_forward self) (train_batch_per_replica self)
     (sync_weight_interval self).

Definition set_train_batch_per_replica (self : t) (v : Z) : t :=
  mk (train_policy self) (ckpt self) (resume self) (epoch self)
     (output_dir self) (timestamp self) (epsilon self) (optm_name self)
     (optm_lr self) (optm_impl self) (optm_weight_decay self)
     (optm_betas self) (optm_warmup_steps self) (optm_grad_norm_clip self)
     (async_tp_enabled self) (compile self) (param_dtype self)
     (fsdp_reduce_dtype self) (fsdp_offload self)
     (fsdp_reshard_after_forward self) v
     (sync_weight_interval self).

(** [__post_init__] runs the checkpoint section's hook again and then its
    own check; neither changes [self]. *)
Definition post_init (self : t) : result t :=
  CheckpointConfig.post_init (ckpt self) ;;;
  if async_tp_enabled self && negb (compile self)
  then Raise (ValueError
                "Async tensor parallelism requires torch.compile to be enabled")
  else Ok self.

Definition new : result t :=
  policy <- SFTDataConfig.new ;;
  ck <- CheckpointConfig.new ;;
  post_init (defaults (SFT policy) ck).
End TrainingConfig.

Module ParallelismConfig.
Record t : Type := mk {
  n_init_replicas : Z;
  tp_size : Z;
  cp_size : Z;
  dp_shard_size : Z;
  pp_size : Z;
  pp_micro_batch_size : Z;
  dp_replicate_size : Z;
  cp_rotate_method : string
}.

Definition defaults : t := {|
  n_init_replicas := 1;
  tp_size := 2;
  cp_size := 1;
  dp_shard_size := -1;
  pp_size := 1;
  pp_micro_batch_size := 1;
  dp_replicate_size := 1;
  cp_rotate_method := "allgather"
|}.

Definition new : result t := Ok defaults.
End ParallelismConfig.

(** [RolloutParallelismConfig] subclasses [ParallelismConfig] and redeclares
    seven of its fields with the same types and defaults: its instances have
    the layout of the base class. *)
Module RolloutParallelismConfig.
Definition t : Type := ParallelismConfig.t.

Definition defaults : t :=
  ParallelismConfig.mk 1 2 1 (-1) 1 1 1 "allgather".

Definition new : result t := Ok defaults.
End RolloutParallelismConfig.

Module PolicyConfig.
Record t : Type := mk {
  parallelism : ParallelismConfig.t;
  model_name_or_path : option string;
  model_max_length : Z;
  model_gradient_checkpointing : bool
}.

Definition defaults (par : ParallelismConfig.t) : t := {|
  parallelism := par;
  model_name_or_path := Some "Qwen/Qwen2.5-VL-7B-Instruct";
  model_max_length := 4096;
  model_gradient_checkpointing := true
|}.

Definition set_parallelism (self : t) (v : ParallelismConfig.t) : t :=
  mk v (model_name_or_path self) (model_max_length self)
     (model_gradient_checkpointing self).

Definition new : result t :=
  par <- ParallelismConfig.new ;;
  Ok (defaults par).
End PolicyConfig.

Module SamplingConfig.
Record t : Type := mk {
  temperature : pyfloat;
  top_p : pyfloat;
  top_k : Z;
  repetition_penalty : pyfloat
}.

Definition defaults : t := {|
  temperature := Float "0.9";
  top_p := Float "1.0";
  top_k := 10;
  repetition_penalty := Float "1.0"
|}.

Definition new : result t := Ok defaults.
End SamplingConfig.

Module RolloutConfig.
Record t : Type := mk {
  parallelism : RolloutParallelismConfig.t;
  gpu_memory_utilization : pyfloat;
  enable_chunked_prefill : bool;
  max_response_length : Z;
  n_generation : Z;
  batch_size : Z;
  quantization : string;
  seed : Z;
  sampling_config : SamplingConfig.t
}.

Definition defaults (par : RolloutParallelismConfig.t)
                    (sampling : SamplingConfig.t) : t := {|
  parallelism := par;
  gpu_memory_utilization := Float "0.8";
  enable_chunked_prefill := false;
  max_response_length := 2048;
  n_generation := 16;
  batch_size := 1;
  quantization := "none";
  seed := 42;
  sampling_config := sampling
|}.

(** [__post_init__] replaces a [parallelism] that is a [dict] by the
    dataclass built from it; the field here always holds the dataclass, so
    the hook leaves [self] as it is. *)
Definition post_init (self : t) : result t := Ok self.

Definition new : result t :=
  par <- RolloutParallelismConfig.new ;;
  sampling <- SamplingConfig.new ;;
  post_init (defaults par sampling).
End RolloutConfig.

Module LoggingConfig.
Record t : Type := mk {
  enable_logging : bool;
  project_name : string;
  experiment_name : option string;
  report_mfu : bool
}.

Definition defaults : t := {|
  enable_logging := false;
  project_name := "cosmos_reason1";
  experiment_name := None;
  report_mfu := false
|}.

Definition new : result t := Ok defaults.
End LoggingConfig.

Module Config.
Record t : Type := mk {
  train : TrainingConfig.t;
  rollout : RolloutConfig.t;
  policy : PolicyConfig.t;
  logging : LoggingConfig.t;
  profiler : ProfilerConfig.t;
  redis : string;
  eth_ips : string
}.

Definition defaults (tr : TrainingConfig.t) (ro : RolloutConfig.t)
                    (po : PolicyConfig.t) (lo : LoggingConfig.t)
                    (pr : ProfilerConfig.t) : t := {|
  train := tr;
  rollout := ro;
  policy := po;
  logging := lo;
  profiler := pr;
  redis := EmptyString;
  eth_ips := EmptyString
|}.

Definition set_train (self : t) (v : TrainingConfig.t) : t :=
  mk v (rollout self) (policy self) (logging self) (profiler self)
     (redis self) (eth_ips self).

Definition set_policy (self : t) (v : PolicyConfig.t) : t :=
  mk (train self) (rollout self) v (logging self) (profiler self)
     (redis self) (eth_ips self).

(** [Config()] *)
Definition new : result t :=
  tr <- TrainingConfig.new ;;
  ro <- RolloutConfig.new ;;
  po <- PolicyConfig.new ;;
  lo <- LoggingConfig.new ;;
  pr <- ProfilerConfig.new ;;
  Ok (defaults tr ro po lo pr).

(** Attribute paths used by [from_dict] and [validate]. *)
Definition train_policy (self : t) : TrainPolicy :=
  TrainingConfig.train_policy (train self).

Definition set_train_policy (self : t) (v : TrainPolicy) : t :=
  set_train self (TrainingConfig.set_train_policy (train self) v).

Definition parallelism (self : t) : ParallelismConfig.t :=
  PolicyConfig.parallelism (policy self).

Definition set_parallelism (self : t) (v : ParallelismConfig.t) : t :=
  set_policy self (PolicyConfig.set_parallelism (policy self) v).
End Config.

(** ** Attribute access on the training policy *)

(** [policy.type] *)
Definition policy_type (p : TrainPolicy) : string :=
  match p with
  | SFT s => SFTDataConfig.type s
  | Grpo g => GrpoConfig.type g
  end.

(** [policy.dataset_train_split] *)
Definition policy_dataset_train_split (p : TrainPolicy) : StrOrList :=
  match p with
  | SFT s => SFTDataConfig.dataset_train_split s
  | Grpo g => GrpoConfig.dataset_train_split g
  end.

(** [policy.dataset_train_split = v] *)
Definition policy_set_dataset_train_split (p : TrainPolicy) (v : StrOrList)
  : TrainPolicy :=
  match p with
  | SFT s => SFT (SFTDataConfig.set_dataset_train_split s v)
  | Grpo g => Grpo (GrpoConfig.set_dataset_train_split g v)
  end.

(** [len(v)] *)
Definition len (v : StrOrList) : Z :=
  match v with
  | OneStr s => Z.of_nat (String.length s)
  | StrList l => Z.of_nat (List.length l)
  end.

(** ** [Config.validate]

    The body of [validate], block by block in source order. *)

(** The six leading assertions on the model name and the parallel degrees. *)
Definition check_parallelism (self : Config.t) : result unit :=
  let par := Config.parallelism self in
  assert (match PolicyConfig.model_name_or_path (Config.policy self) with
          | None => false
          | Some name => negb (name =? EmptyString)%string
          end)
         "model_name_or_path is required" ;;;
  assert (0 <? ParallelismConfig.tp_size par)
         "tp_size must be greater than 0" ;;;
  assert (0 <? ParallelismConfig.cp_size par)
         "cp_size must be greater than 0" ;;;
  assert (0 <? ParallelismConfig.pp_size par)
         "pp_size must be greater than 0" ;;;
  assert ((-1 <=? ParallelismConfig.dp_shard_size par)
          && negb (ParallelismConfig.dp_shard_size par =? 0))
         "dp_shard_size must be greater than 0 or -1 to be auto-inferred" ;;;
  assert (ParallelismConfig.dp_replicate_size par =? 1)
         "dp_replicate_size must be 1 for dynamic scaling purpose".

(** [if self.policy.parallelism.pp_size > 1: ...] *)
Definition check_pipeline (self : Config.t) : result unit :=
  let par := Config.parallelism self in
  let batch := TrainingConfig.train_batch_per_replica (Config.train self) in
  if 1 <? ParallelismConfig.pp_size par then
    assert (0 <? ParallelismConfig.pp_micro_batch_size par)
           "pp_micro_batch_size must be greater than 0" ;;;
    r <- py_mod batch (ParallelismConfig.pp_micro_batch_size par) ;;
    assert (r =? 0)
           "train_batch must be divisible by pp_micro_batch_size" ;;;
    n <- py_floordiv batch (ParallelismConfig.pp_micro_batch_size par) ;;
    r <- py_mod n (ParallelismConfig.pp_size par) ;;
    assert (r =? 0)
           "train_batch / pp_micro_batch_size must be divisible by pp_size"
  else Ok tt.

(** [if self.train.train_policy.type == "grpo": ...]; reading
    [reward_function] off an [SFTDataConfig] raises. *)
Definition check_reward_function (self : Config.t) : result Config.t :=
  if (policy_type (Config.train_policy self) =? "grpo")%string then
    match Config.train_policy self with
    | SFT _ =>
        Raise (AttributeError "reward_function")
    | Grpo g =>
        let g := match GrpoConfig.reward_function g with
                 | OneStr s => GrpoConfig.set_reward_function g (StrList [s])
                 | StrList _ => g
                 end in
        assert (0 <? len (GrpoConfig.reward_function g))
               "reward_function must be a list of reward functions" ;;;
        Ok (Config.set_train_policy self (Grpo g))
    end
  else Ok self.

(** [if isinstance(self.train.train_policy.dataset_train_split, str): ...] *)
Definition normalize_train_split (self : Config.t) : Config.t :=
  let p := Config.train_policy self in
  match policy_dataset_train_split p with
  | OneStr s =>
      Config.set_train_policy self
        (policy_set_dataset_train_split p (StrList [s]))
  | StrList _ => self
  end.

(** [if self.train.ckpt.upload_s3: ...] *)
Definition check_upload_s3 (self : Config.t) : result unit :=
  let v := CheckpointConfig.upload_s3 (TrainingConfig.ckpt (Config.train self)) in
  if truthy v then
    if negb (bool_or_str_in v ["final"; "all"]) then
      Raise (ValueError
               ("upload_s3 must be one of ['final', 'all'] or False, got "
                ++ str_of_bool_or_str v))
    else Ok tt
  else Ok tt.

(** [validate] returns nothing; the result is the state it leaves [self]
    in. *)
Definition validate (self : Config.t) : result Config.t :=
  check_parallelism self ;;;
  check_pipeline self ;;;
  self <- check_reward_function self ;;
  let self := normalize_train_split self in
  check_upload_s3 self ;;;
  Ok self.

(** ** Configurations used in the statements *)

(** The tree [Config()] builds. *)
Definition default_config : Config.t :=
  Config.defaults
    (TrainingConfig.defaults (SFT SFTDataConfig.defaults)
                             CheckpointConfig.defaults)
    (RolloutConfig.defaults RolloutParallelismConfig.defaults
                            SamplingConfig.defaults)
    (PolicyConfig.defaults ParallelismConfig.defaults)
    LoggingConfig.defaults
    ProfilerConfig.defaults.

(** The default tree with the five parallel degrees of the policy model
    replaced. *)
Definition with_degrees (tp cp pp dp_shard dp_replicate : Z) : Config.t :=
  Config.set_parallelism default_config
    (ParallelismConfig.mk 1 tp cp dp_shard pp 1 dp_replicate "allgather").

(** [self] with [pp_micro_batch_size] and [train_batch_per_replica]
    replaced. *)
Definition with_batching (self : Config.t) (micro batch : Z) : Config.t :=
  let par := Config.parallelism self in
  Config.set_train
    (Config.set_parallelism self
       (ParallelismConfig.mk
          (ParallelismConfig.n_init_replicas par)
          (ParallelismConfig.tp_size par) (ParallelismConfig.cp_size par)
          (ParallelismConfig.dp_shard_size par) (ParallelismConfig.pp_size par)
          micro
          (ParallelismConfig.dp_replicate_size par)
          (ParallelismConfig.cp_rotate_method par)))
    (TrainingConfig.set_train_batch_per_replica (Config.train self) batch).

(** The default tree with pipeline-parallel degree, micro-batch size and
    batch size replaced. *)
Definition pipeline_config (pp micro batch : Z) : Config.t :=
  with_batching (with_degrees 2 1 pp (-1) 1) micro batch.

(** [self] with [train.ckpt] replaced. *)
Definition with_ckpt (self : Config.t) (ck : CheckpointConfig.t) : Config.t :=
  Config.set_train self (TrainingConfig.set_ckpt (Config.train self) ck).

(** [self] with [train.ckpt.upload_s3] replaced. *)
Definition with_upload_s3 (self : Config.t) (v : BoolOrStr) : Config.t :=
  let ck := TrainingConfig.ckpt (Config.train self) in
  with_ckpt self
    (CheckpointConfig.mk
       (CheckpointConfig.enable_checkpoint ck) (CheckpointConfig.save_freq ck)
       (CheckpointConfig.save_mode ck) (CheckpointConfig.max_keep ck)
       (CheckpointConfig.export_safetensors ck) (CheckpointConfig.upload_hf ck)
       (CheckpointConfig.hf_repo_name ck) v
       (CheckpointConfig.s3_bucket ck) (CheckpointConfig.s3_prefix ck)).

(** [self] with [train.ckpt.save_freq] and [train.ckpt.save_mode]
    replaced. *)
Definition with_save (self : Config.t) (freq : Z) (mode : string) : Config.t :=
  let ck := TrainingConfig.ckpt (Config.train self) in
  with_ckpt self
    (CheckpointConfig.mk
       (CheckpointConfig.enable_checkpoint ck) freq mode
       (CheckpointConfig.max_keep ck)
       (CheckpointConfig.export_safetensors ck) (CheckpointConfig.upload_hf ck)
       (CheckpointConfig.hf_repo_name ck) (CheckpointConfig.upload_s3 ck)
       (CheckpointConfig.s3_bucket ck) (CheckpointConfig.s3_prefix ck)).

(** [self] with [train.async_tp_enabled] and [train.compile] replaced. *)
Definition with_async_tp (self : Config.t) (async_tp comp : bool) : Config.t :=
  Config.set_train self
    (TrainingConfig.set_compile
       (TrainingConfig.set_async_tp_enabled (Config.train self) async_tp)
       comp).

(** The messages of the three assertions of the pipeline block. *)
Definition pipeline_messages : list string :=
  [ "pp_micro_batch_size must be greater than 0";
    "train_batch must be divisible by pp_micro_batch_size";
    "train_batch / pp_micro_batch_size must be divisible by pp_size" ].

(** The condition the pipeline block asks for. *)
Definition pipeline_divisible (self : Config.t) : Prop :=
  let par := Config.parallelism self in
  let batch := TrainingConfig.train_batch_per_replica (Config.train self) in
  let micro := ParallelismConfig.pp_micro_batch_size par in
  0 < micro /\ batch mod micro = 0
  /\ (batch / micro) mod ParallelismConfig.pp_size par = 0.

(** A remote-upload value that is truthy and neither ["final"] nor
    ["all"]. *)
Definition upload_s3_invalid (v : BoolOrStr) : Prop :=
  v = UBool true
  \/ exists s, v = UStr s /\ s <> EmptyString /\ s <> "final" /\ s <> "all".

(** The reward functions as a list, a lone string counting as one entry. *)
Definition reward_list (v : StrOrList) : list string :=
  match v with
  | OneStr s => [s]
  | StrList l => l
  end.

Definition map_result {A B : Type} (f : A -> B) (c : result A) : result B :=
  match c with
  | Ok a => Ok (f a)
  | Raise e => Raise e
  end.

(** What the leading assertions of [validate] ask of the model name and the
    parallel degrees. *)
Definition degrees_ok (self : Config.t) : Prop :=
  let par := Config.parallelism self in
  (exists name, PolicyConfig.model_name_or_path (Config.policy self) = Some name
                /\ name <> EmptyString)
  /\ 0 < ParallelismConfig.tp_size par
  /\ 0 < ParallelismConfig.cp_size par
  /\ 0 < ParallelismConfig.pp_size par
  /\ (ParallelismConfig.dp_shard_size par = -1
      \/ 0 < ParallelismConfig.dp_shard_size par)
  /\ ParallelismConfig.dp_replicate_size par = 1.

(** The default tree with a reinforcement policy whose reward functions are
    [rewards], all its other fields being the defaults. *)
Definition grpo_config (rewards : StrOrList) : Config.t :=
  Config.set_train_policy default_config
    (Grpo (GrpoConfig.set_reward_function
             (GrpoConfig.defaults OverlongRewardConfig.defaults) rewards)).

(** ** Python values

    The values an override mapping is made of, and the objects [config_hash]
    may be handed: instances of dataclasses by class name and fields, a
    dataclass itself (the type object) and objects of any other class. *)

#[warnings="-register-all"]
Inductive pyval : Type :=
| VNone
| VBool (b : bool)
| VInt (n : Z)
| VFloat (f : pyfloat)
| VStr (s : string)
| VList (items : list pyval)
| VTuple (items : list pyval)
| VDict (entries : list (string * pyval))
| VData (cls : string) (fields : list (string * pyval))
| VClass (cls : string)
| VObject (cls : string).

(** A [dict] with string keys, in insertion order. *)
Definition pydict : Type := list (string * pyval).

(** [d.get(key)] *)
Fixpoint dict_get (key : string) (d : pydict) : option pyval :=
  match d with
  | [] => None
  | (k, v) :: rest => if (k =? key)%string then Some v else dict_get key rest
  end.

(** [key in d] *)
Definition dict_mem (key : string) (d : pydict) : bool :=
  match dict_get key d with
  | Some _ => true
  | None => false
  end.

(** [d[key] = v]: an existing key keeps its position, a new key goes last. *)
Fixpoint dict_set (key : string) (v : pyval) (d : pydict) : pydict :=
  match d with
  | [] => [(key, v)]
  | (k, w) :: rest =>
      if (k =? key)%string then (k, v) :: rest
      else (k, w) :: dict_set key v rest
  end.

(** [sub in s] for two strings. *)
Fixpoint contains (sub s : string) : bool :=
  String.prefix sub s
  || match s with
     | EmptyString => false
     | String _ rest => contains sub rest
     end.

(** [v == key] for a value and a string. *)
Definition eq_str (v : pyval) (key : string) : bool :=
  match v with
  | VStr s => (s =? key)%string
  | _ => false
  end.

(** [key in container] for a string [key]: key lookup in a [dict],
    substring test in a [str], element test in a [list] or [tuple]; any
    other value is not a container. *)
Definition py_in (key : string) (container : pyval) : result bool :=
  match container with
  | VDict d => Ok (dict_mem key d)
  | VStr s => Ok (contains key s)
  | VList l | VTuple l => Ok (existsb (fun v => eq_str v key) l)
  | _ => Raise TypeError
  end.

(** [any(key in container for key in keys)], left to right, stopping at the
    first hit. *)
Fixpoint any_in (keys : list string) (container : pyval) : result bool :=
  match keys with
  | [] => Ok false
  | key :: rest =>
      b <- py_in key container ;;
      if b then Ok true else any_in rest container
  end.

(** ** The clock and the output directory *)

(** What [datetime.now()] returns, to the second. *)
Record datetime : Type := mk_datetime {
  year : Z;
  month : Z;
  day : Z;
  hour : Z;
  minute : Z;
  second : Z
}.

(** The ranges of the fields of a [datetime]. *)
Definition datetime_valid (t : datetime) : Prop :=
  1 <= year t <= 9999 /\ 1 <= month t <= 12 /\ 1 <= day t <= 31
  /\ 0 <= hour t <= 23 /\ 0 <= minute t <= 59 /\ 0 <= second t <= 59.

Definition digit (n : Z) : ascii :=
  ascii_of_nat (48 + Z.to_nat (n mod 10)).

(** The last [width] decimal digits of [n]: a zero-padded field. *)
Fixpoint digits (width : nat) (n : Z) : string :=
  match width with
  | O => EmptyString
  | S w => digits w (n / 10) ++ String (digit n) EmptyString
  end.

(** [%Y] as the C library of Linux prints it, which is what CPython hands
    the format to: the year in decimal without padding, so one to three
    digits before the year 1000 and four from then to the last year of a
    [datetime], 9999.  (Other platforms pad with zeros; from the year 1000
    on all agree.) *)
Definition year_digits (y : Z) : string :=
  if y <? 10 then digits 1 y
  else if y <? 100 then digits 2 y
  else if y <? 1000 then digits 3 y
  else digits 4 y.

(** [t.strftime("%Y%m%d%H%M%S")]: the year, then two digits of each other
    field. *)
Definition strftime (t : datetime) : string :=
  year_digits (year t) ++ digits 2 (month t) ++ digits 2 (day t)
  ++ digits 2 (hour t) ++ digits 2 (minute t) ++ digits 2 (second t).

Definition starts_with_sep (s : string) : bool := String.prefix "/" s.

Fixpoint ends_with_sep (s : string) : bool :=
  match s with
  | EmptyString => false
  | String c EmptyString => (c =? "/")%char
  | String _ rest => ends_with_sep rest
  end.

(** [os.path.join(a, b)] on a POSIX system. *)
Definition path_join (a b : string) : string :=
  if starts_with_sep b then b
  else if (a =? EmptyString)%string || ends_with_sep a then a ++ b
  else a ++ "/" ++ b.

(** ** Mutation of a mapping

    A computation that reads and writes one [dict] in place and may raise:
    it takes the state of the [dict] and returns the state it leaves it in
    together with its outcome.  A write made before an exception stays. *)

Definition M (A : Type) : Type := pydict -> pydict * result A.

Definition retM {A : Type} (a : A) : M A := fun d => (d, Ok a).

Definition bindM {A B : Type} (c : M A) (k : A -> M B) : M B :=
  fun d =>
    match c d with
    | (d', Ok a) => k a d'
    | (d', Raise e) => (d', Raise e)
    end.

Notation "x <~ c ;; k" := (bindM c (fun x => k))
  (at level 61, c at next level, right associativity).

(** A computation that does not touch the mapping. *)
Definition lift {A : Type} (c : result A) : M A := fun d => (d, c).

(** The mapping itself. *)
Definition this : M pydict := fun d => (d, Ok d).

(** [d[key] = v] *)
Definition store (key : string) (v : pyval) : M unit :=
  fun d => (dict_set key v d, Ok tt).

(** [d[key]] *)
Definition load (key : string) : M pyval :=
  fun d => (d, match dict_get key d with
               | Some v => Ok v
               | None => Raise (KeyError key)
               end).

(** Run [body] on the object [d[key]], which it may mutate; anything but a
    [dict] there supports none of the operations [body] is made of. *)
Definition within {A : Type} (key : string) (body : M A) : M A :=
  fun d =>
    match dict_get key d with
    | None => (d, Raise (KeyError key))
    | Some (VDict inner) =>
        let (inner', r) := body inner in
        (dict_set key (VDict inner') d, r)
    | Some _ => (d, Raise TypeError)
    end.

(** [os.path.join(a, b)] for values: both must be strings. *)
Definition path_join_values (a b : pyval) : result pyval :=
  match a, b with
  | VStr a, VStr b => Ok (VStr (path_join a b))
  | _, _ => Raise TypeError
  end.

(** ** [Config.from_dict] *)

(** The timestamp block, on the mapping [config_data["train"]]. *)
Definition stamp_output_dir (now : datetime) : M unit :=
  train <~ this ;;
  if negb (dict_mem "timestamp" train)
     || match dict_get "timestamp" train with
        | Some v => eq_str v EmptyString
        | None => false
        end
  then
    _ <~ store "timestamp" (VStr (strftime now)) ;;
    base <~ load "output_dir" ;;
    stamp <~ load "timestamp" ;;
    joined <~ lift (path_join_values base stamp) ;;
    store "output_dir" joined
  else retM tt.

(** The keys whose presence selects [GrpoConfig]. *)
Definition discriminator_keys : list string :=
  ["temperature"; "epsilon_low"; "epsilon_high"; "kl_beta"].

(** The train-policy block, on the mapping [config_data["train"]]: it only
    reads the mapping and assigns [config.train.train_policy]. *)
Definition select_train_policy (config : Config.t) : M Config.t :=
  train <~ this ;;
  if dict_mem "train_policy" train then
    train_policy_data <~ load "train_policy" ;;
    grpo <~ lift (any_in discriminator_keys train_policy_data) ;;
    if grpo then
      policy <~ lift GrpoConfig.new ;;
      retM (Config.set_train_policy config (Grpo policy))
    else
      policy <~ lift SFTDataConfig.new ;;
      retM (Config.set_train_policy config (SFT policy))
  else retM config.

(** Everything [from_dict] does before the general update. *)
Definition prepare (now : datetime) : M Config.t :=
  config <~ lift Config.new ;;
  config_data <~ this ;;
  if dict_mem "train" config_data then
    within "train"
      (_ <~ stamp_output_dir now ;;
       select_train_policy config)
  else retM config.

Section FromDict.

(** [cosmos_reason1.utils.util.update_dataclass_with_dict] is not part of
    this file: it is a parameter.  It is handed the dataclass and the
    mapping, updates the dataclass in place (the result is the state it
    leaves it in) or raises, and is taken to read the mapping only. *)
Variable update_dataclass_with_dict : Config.t -> pydict -> result Config.t.

(** [Config.from_dict(config_data)], with the reading of the clock as an
    input: the state the caller's mapping is left in and the outcome. *)
Definition from_dict (now : datetime) : M Config.t :=
  config <~ prepare now ;;
  config_data <~ this ;;
  config <~ lift (update_dataclass_with_dict config config_data) ;;
  lift (validate config).

End FromDict.

(** ** [dataclasses.asdict] and [json.dumps] *)

(** [is_dataclass(obj)]: true of a dataclass and of its instances. *)
Definition is_dataclass (obj : pyval) : bool :=
  match obj with
  | VData _ _ | VClass _ => true
  | _ => false
  end.

(** [_asdict_inner]: instances become dicts of their fields, containers are
    rebuilt, anything else is copied. *)
Fixpoint asdict_inner (obj : pyval) : pyval :=
  match obj with
  | VData _ fields =>
      VDict (map (fun kv => match kv with (k, v) => (k, asdict_inner v) end)
                 fields)
  | VList items => VList (map asdict_inner items)
  | VTuple items => VTuple (map asdict_inner items)
  | VDict entries =>
      VDict (map (fun kv => match kv with (k, v) => (k, asdict_inner v) end)
                 entries)
  | other => other
  end.

(** [asdict(obj)]: refuses what is not an instance of a dataclass. *)
Definition asdict (obj : pyval) : result pyval :=
  match obj with
  | VData _ _ => Ok (asdict_inner obj)
  | _ => Raise TypeError
  end.

Definition dquote : ascii := ascii_of_nat 34.
Definition backslash : ascii := ascii_of_nat 92.

Definition hex_digit (n : N) : ascii :=
  match n with
  | 0%N => "0" | 1%N => "1" | 2%N => "2" | 3%N => "3"
  | 4%N => "4" | 5%N => "5" | 6%N => "6" | 7%N => "7"
  | 8%N => "8" | 9%N => "9" | 10%N => "a" | 11%N => "b"
  | 12%N => "c" | 13%N => "d" | 14%N => "e" | _ => "f"
  end%char.

(** Two lower-case hexadecimal digits of a byte. *)
Definition hex_byte (b : N) : string :=
  String (hex_digit (N.modulo (N.div b 16) 16))
         (String (hex_digit (N.modulo b 16)) EmptyString).

(** How [json.dumps] writes one character of a string: quote and backslash
    are escaped, printable ASCII is kept, the rest is written as a short
    escape or by its code. *)
Definition json_escape_char (c : ascii) : string :=
  let n := N_of_ascii c in
  if (c =? dquote)%char then String backslash (String dquote EmptyString)
  else if (c =? backslash)%char
  then String backslash (String backslash EmptyString)
  else if (n =? 8)%N then String backslash "b"
  else if (n =? 12)%N then String backslash "f"
  else if (n =? 10)%N then String backslash "n"
  else if (n =? 13)%N then String backslash "r"
  else if (n =? 9)%N then String backslash "t"
  else if ((32 <=? n) && (n <=? 126))%N then String c EmptyString
  else String backslash ("u00" ++ hex_byte n).

Fixpoint json_escape (s : string) : string :=
  match s with
  | EmptyString => EmptyString
  | String c rest => json_escape_char c ++ json_escape rest
  end.

Definition json_string (s : string) : string :=
  String dquote (json_escape s ++ String dquote EmptyString).

(** A float is written by its [repr], the three non-finite ones by the
    names JavaScript gives them. *)
Definition json_float (f : pyfloat) : string :=
  let r := float_repr f in
  if (r =? "nan")%string then "NaN"
  else if (r =? "inf")%string then "Infinity"
  else if (r =? "-inf")%string then "-Infinity"
  else r.

(** [sep.join(parts)] *)
Fixpoint join (sep : string) (parts : list string) : string :=
  match parts with
  | [] => EmptyString
  | [p] => p
  | p :: rest => p ++ sep ++ join sep rest
  end.

(** [json.dumps(obj)] with the default options: lists and tuples are
    arrays, dicts are objects in insertion order, an integer is written as
    [int.__repr__] gives it and so refused beyond the digit limit, and an
    object the encoder does not know raises [TypeError].  The encoder, like
    [asdict], recurses once for each level of nesting; the stack it needs
    is taken to be there, as memory is (see [nesting]). *)
Fixpoint json_dumps (obj : pyval) : result string :=
  match obj with
  | VNone => Ok "null"
  | VBool true => Ok "true"
  | VBool false => Ok "false"
  | VInt n => str_of_int n
  | VFloat f => Ok (json_float f)
  | VStr s => Ok (json_string s)
  | VList items | VTuple items =>
      parts <- (fix each (l : list pyval) : result (list string) :=
                  match l with
                  | [] => Ok []
                  | v :: rest =>
                      p <- json_dumps v ;;
                      ps <- each rest ;;
                      Ok (p :: ps)
                  end) items ;;
      Ok ("[" ++ join ", " parts ++ "]")
  | VDict entries =>
      parts <- (fix each (l : list (string * pyval)) : result (list string) :=
                  match l with
                  | [] => Ok []
                  | (k, v) :: rest =>
                      p <- json_dumps v ;;
                      ps <- each rest ;;
                      Ok ((json_string k ++ ": " ++ p) :: ps)
                  end) entries ;;
      Ok ("{" ++ join ", " parts ++ "}")
  | VData _ _ | VClass _ | VObject _ => Raise TypeError
  end.

(** [s.encode()]: UTF-8, one byte below 128 and two bytes up to 255. *)
Fixpoint encode (s : string) : list N :=
  match s with
  | EmptyString => []
  | String c rest =>
      let n := N_of_ascii c in
      (if (n <? 128)%N then [n]
       else [(192 + N.div n 64)%N; (128 + N.modulo n 64)%N])
      ++ encode rest
  end.

(** ** [hashlib.md5]

    MD5 (RFC 1321) on a list of bytes; words are numbers below 2^32. *)

Module MD5.
Definition mask32 : N := 4294967295.

Definition add32 (a b : N) : N := N.land (a + b) mask32.

Definition not32 (a : N) : N := N.lxor a mask32.

Definition rotl32 (x s : N) : N :=
  N.land (N.lor (N.shiftl x s) (N.shiftr x (32 - s))) mask32.

Definition shifts : list N :=
  [ 7; 12; 17; 22; 7; 12; 17; 22; 7; 12; 17; 22; 7; 12; 17; 22;
    5; 9; 14; 20; 5; 9; 14; 20; 5; 9; 14; 20; 5; 9; 14; 20;
    4; 11; 16; 23; 4; 11; 16; 23; 4; 11; 16; 23; 4; 11; 16; 23;
    6; 10; 15; 21; 6; 10; 15; 21; 6; 10; 15; 21; 6; 10; 15; 21 ]%N.

(** [floor(2^32 * abs(sin(i + 1)))] for i = 0 .. 63. *)
Definition sines : list N :=
  [ 3614090360; 3905402710; 606105819; 3250441966;
    4118548399; 1200080426; 2821735955; 4249261313;
    1770035416; 2336552879; 4294925233; 2304563134;
    1804603682; 4254626195; 2792965006; 1236535329;
    4129170786; 3225465664; 643717713; 3921069994;
    3593408605; 38016083; 3634488961; 3889429448;
    568446438; 3275163606; 4107603335; 1163531501;
    2850285829; 4243563512; 1735328473; 2368359562;
    4294588738; 2272392833; 1839030562; 4259657740;
    2763975236; 1272893353; 4139469664; 3200236656;
    681279174; 3936430074; 3572445317; 76029189;
    3654602809; 3873151461; 530742520; 3299628645;
    4096336452; 1126891415; 2878612391; 4237533241;
    1700485571; 2399980690; 4293915773; 2240044497;
    1873313359; 4264355552; 2734768916; 1309151649;
    4149444226; 3174756917; 718787259; 3951481745 ]%N.

Definition state : Type := (N * N * N * N)%type.

Definition initial : state :=
  (1732584193, 4023233417, 2562383102, 271733878)%N.

(** Sixteen little-endian words of a 64-byte block. *)
Fixpoint words (n : nat) (bytes : list N) : list N :=
  match n, bytes with
  | S n', b0 :: b1 :: b2 :: b3 :: rest =>
      (b0 + 256 * b1 + 65536 * b2 + 16777216 * b3)%N :: words n' rest
  | _, _ => []
  end.

(** One of the 64 steps on a block. *)
Definition step (w : list N) (st : state) (i : nat) : state :=
  let '(a, b, c, d) := st in
  let '(f, g) :=
    if (i <? 16)%nat then
      (N.lor (N.land b c) (N.land (not32 b) d), i)
    else if (i <? 32)%nat then
      (N.lor (N.land d b) (N.land (not32 d) c), (5 * i + 1) mod 16)%nat
    else if (i <? 48)%nat then
      (N.lxor (N.lxor b c) d, (3 * i + 5) mod 16)%nat
    else
      (N.lxor c (N.lor b (not32 d)), (7 * i) mod 16)%nat in
  let f := add32 (add32 (add32 f a) (nth i sines 0%N)) (nth g w 0%N) in
  (d, add32 b (rotl32 f (nth i shifts 0%N)), b, c).

Definition block (st : state) (bytes : list N) : state :=
  let '(a0, b0, c0, d0) := st in
  let '(a, b, c, d) := fold_left (step (words 16 bytes)) (seq 0 64) st in
  (add32 a0 a, add32 b0 b, add32 c0 c, add32 d0 d).

(** Eight little-endian bytes of a number. *)
Fixpoint le_bytes (n : nat) (x : N) : list N :=
  match n with
  | O => []
  | S n' => N.modulo x 256 :: le_bytes n' (N.div x 256)
  end.

(** The message followed by a one bit, zero bits up to 56 modulo 64 bytes,
    and its length in bits. *)
Definition pad (msg : list N) : list N :=
  let len := List.length msg in
  msg ++ [128%N]
      ++ repeat 0%N ((119 - len mod 64) mod 64)%nat
      ++ le_bytes 8 (N.modulo (8 * N.of_nat len) 18446744073709551616).

Fixpoint blocks (n : nat) (bytes : list N) (st : state) : state :=
  match n with
  | O => st
  | S n' => blocks n' (skipn 64 bytes) (block st (firstn 64 bytes))
  end.

(** [hashlib.md5(msg).digest()] *)
Definition digest (msg : list N) : list N :=
  let padded := pad msg in
  let '(a, b, c, d) := blocks (List.length padded / 64)%nat padded initial in
  le_bytes 4 a ++ le_bytes 4 b ++ le_bytes 4 c ++ le_bytes 4 d.

(** [hashlib.md5(msg).hexdigest()] *)
Definition hexdigest (msg : list N) : string :=
  concat EmptyString (map hex_byte (digest msg)).
End MD5.

(** ** [config_hash] *)

Definition config_hash (config : pyval) : result string :=
  if is_dataclass config then
    fields <- asdict config ;;
    text <- json_dumps fields ;;
    Ok (MD5.hexdigest (encode text))
  else Ok "unhashable".

(** ** The configuration tree as Python objects

    The object each record stands for: an instance of the dataclass with its
    fields in declaration order. *)

Definition of_option_str (v : option string) : pyval :=
  match v with Some s => VStr s | None => VNone end.

Definition of_option_int (v : option Z) : pyval :=
  match v with Some n => VInt n | None => VNone end.

Definition of_str_or_list (v : StrOrList) : pyval :=
  match v with OneStr s => VStr s | StrList l => VList (map VStr l) end.

Definition of_bool_or_str (v : BoolOrStr) : pyval :=
  match v with UBool b => VBool b | UStr s => VStr s end.

Definition of_float_or_int (v : FloatOrInt) : pyval :=
  match v with UFloat f => VFloat f | UInt n => VInt n end.

Definition SFTDataConfig_obj (c : SFTDataConfig.t) : pyval :=
  VData "SFTDataConfig"
    [ ("type", VStr (SFTDataConfig.type c));
      ("dataset_name", VStr (SFTDataConfig.dataset_name c));
      ("dataset_subset", of_option_str (SFTDataConfig.dataset_subset c));
      ("dataset_revision", of_option_str (SFTDataConfig.dataset_revision c));
      ("dataset_train_split",
       of_str_or_list (SFTDataConfig.dataset_train_split c));
      ("dataset_test_split", VStr (SFTDataConfig.dataset_test_split c));
      ("dataset_test_size",
       of_float_or_int (SFTDataConfig.dataset_test_size c));
      ("enable_dataset_preprocess",
       VBool (SFTDataConfig.enable_dataset_preprocess c));
      ("enable_dataset_cache", VBool (SFTDataConfig.enable_dataset_cache c));
      ("dataloader_num_workers", VInt (SFTDataConfig.dataloader_num_workers c));
      ("dataloader_prefetch_factor",
       of_option_int (SFTDataConfig.dataloader_prefetch_factor c));
      ("enable_validation", VBool (SFTDataConfig.enable_validation c));
      ("validation_freq", VInt (SFTDataConfig.validation_freq c));
      ("validation_batch_per_replica",
       VInt (SFTDataConfig.validation_batch_per_replica c));
      ("conversation_column_name",
       VStr (SFTDataConfig.conversation_column_name c));
      ("system_prompt", VStr (SFTDataConfig.system_prompt c));
      ("max_pixels", VInt (SFTDataConfig.max_pixels c));
      ("fps", VInt (SFTDataConfig.fps c));
      ("vision_asset_column_name",
       VStr (SFTDataConfig.vision_asset_column_name c)) ].

Definition CheckpointConfig_obj (c : CheckpointConfig.t) : pyval :=
  VData "CheckpointConfig"
    [ ("enable_checkpoint", VBool (CheckpointConfig.enable_checkpoint c));
      ("save_freq", VInt (CheckpointConfig.save_freq c));
      ("save_mode", VStr (CheckpointConfig.save_mode c));
      ("max_keep", VInt (CheckpointConfig.max_keep c));
      ("export_safetensors", VBool (CheckpointConfig.export_safetensors c));
      ("upload_hf", VBool (CheckpointConfig.upload_hf c));
      ("hf_repo_name", VStr (CheckpointConfig.hf_repo_name c));
      ("upload_s3", of_bool_or_str (CheckpointConfig.upload_s3 c));
      ("s3_bucket", VStr (CheckpointConfig.s3_bucket c));
      ("s3_prefix", VStr (CheckpointConfig.s3_prefix c)) ].

Definition OverlongRewardConfig_obj (c : OverlongRewardConfig.t) : pyval :=
  VData "OverlongRewardConfig"
    [ ("enable_overlong_penalty",
       VBool (OverlongRewardConfig.enable_overlong_penalty c));
      ("buffer_length", VInt (OverlongRewardConfig.buffer_length c));
      ("penalty_factor", VFloat (OverlongRewardConfig.penalty_factor c)) ].

Definition GrpoConfig_obj (c : GrpoConfig.t) : pyval :=
  VData "GrpoConfig"
    [ ("type", VStr (GrpoConfig.type c));
      ("variant", VStr (GrpoConfig.variant c));
      ("dataset_name", VStr (GrpoConfig.dataset_name c));
      ("dataset_subset", of_option_str (GrpoConfig.dataset_subset c));
      ("dataset_revision", of_option_str (GrpoConfig.dataset_revision c));
      ("dataset_train_split",
       of_str_or_list (GrpoConfig.dataset_train_split c));
      ("enable_dataset_preprocess",
       VBool (GrpoConfig.enable_dataset_preprocess c));
      ("enable_dataset_cache", VBool (GrpoConfig.enable_dataset_cache c));
      ("dataloader_num_workers", VInt (GrpoConfig.dataloader_num_workers c));
      ("dataloader_prefetch_factor",
       of_option_int (GrpoConfig.dataloader_prefetch_factor c));
      ("prompt_column_name", VStr (GrpoConfig.prompt_column_name c));
      ("choices_column_name", VStr (GrpoConfig.choices_column_name c));
      ("response_column_name", VStr (GrpoConfig.response_column_name c));
      ("system_prompt", VStr (GrpoConfig.system_prompt c));
      ("max_pixels", VInt (GrpoConfig.max_pixels c));
      ("fps", VInt (GrpoConfig.fps c));
      ("vision_asset_column_name",
       VStr (GrpoConfig.vision_asset_column_name c));
      ("reward_function", of_str_or_list (GrpoConfig.reward_function c));
      ("temperature", VFloat (GrpoConfig.temperature c));
      ("epsilon_low", VFloat (GrpoConfig.epsilon_low c));
      ("epsilon_high", VFloat (GrpoConfig.epsilon_high c));
      ("overlong_reward",
       OverlongRewardConfig_obj (GrpoConfig.overlong_reward c));
      ("kl_beta", VFloat (GrpoConfig.kl_beta c));
      ("mu_iterations", VInt (GrpoConfig.mu_iterations c));
      ("mini_batch", VInt (GrpoConfig.mini_batch c));
      ("allowed_outdated_steps", VInt (GrpoConfig.allowed_outdated_steps c)) ].

Definition ProfilerConfig_obj (c : ProfilerConfig.t) : pyval :=
  VData "ProfilerConfig"
    [ ("enable_profiler", VBool (ProfilerConfig.enable_profiler c));
      ("active_steps", VInt (ProfilerConfig.active_steps c));
      ("rank_filter", VList (map VInt (ProfilerConfig.rank_filter c))) ].

Definition TrainPolicy_obj (p : TrainPolicy) : pyval :=
  match p with
  | SFT s => SFTDataConfig_obj s
  | Grpo g => GrpoConfig_obj g
  end.

Definition TrainingConfig_obj (c : TrainingConfig.t) : pyval :=
  VData "TrainingConfig"
    [ ("train_policy", TrainPolicy_obj (TrainingConfig.train_policy c));
      ("ckpt", CheckpointConfig_obj (TrainingConfig.ckpt c));
      ("resume", of_bool_or_str (TrainingConfig.resume c));
      ("epoch", VInt (TrainingConfig.epoch c));
      ("output_dir", VStr (TrainingConfig.output_dir c));
      ("timestamp", VStr (TrainingConfig.timestamp c));
      ("epsilon", VFloat (TrainingConfig.epsilon c));
      ("optm_name", VStr (TrainingConfig.optm_name c));
      ("optm_lr", VFloat (TrainingConfig.optm_lr c));
      ("optm_impl", VStr (TrainingConfig.optm_impl c));
      ("optm_weight_decay", VFloat (TrainingConfig.optm_weight_decay c));
      ("optm_betas",
       VTuple [ VFloat (fst (TrainingConfig.optm_betas c));
                VFloat (snd (TrainingConfig.optm_betas c)) ]);
      ("optm_warmup_steps", VInt (TrainingConfig.optm_warmup_steps c));
      ("optm_grad_norm_clip", VFloat (TrainingConfig.optm_grad_norm_clip c));
      ("async_tp_enabled", VBool (TrainingConfig.async_tp_enabled c));
      ("compile", VBool (TrainingConfig.compile c));
      ("param_dtype", VStr (TrainingConfig.param_dtype c));
      ("fsdp_reduce_dtype", VStr (TrainingConfig.fsdp_reduce_dtype c));
      ("fsdp_offload", VBool (TrainingConfig.fsdp_offload c));
      ("fsdp_reshard_after_forward",
       VStr (TrainingConfig.fsdp_reshard_after_forward c));
      ("train_batch_per_replica",
       VInt (TrainingConfig.train_batch_per_replica c));
      ("sync_weight_interval", VInt (TrainingConfig.sync_weight_interval c)) ].

Definition Parallelism_fields (c : ParallelismConfig.t) : pydict :=
  [ ("n_init_replicas", VInt (ParallelismConfig.n_init_replicas c));
    ("tp_size", VInt (ParallelismConfig.tp_size c));
    ("cp_size", VInt (ParallelismConfig.cp_size c));
    ("dp_shard_size", VInt (ParallelismConfig.dp_shard_size c));
    ("pp_size", VInt (ParallelismConfig.pp_size c));
    ("pp_micro_batch_size", VInt (ParallelismConfig.pp_micro_batch_size c));
    ("dp_replicate_size", VInt (ParallelismConfig.dp_replicate_size c));
    ("cp_rotate_method", VStr (ParallelismConfig.cp_rotate_method c)) ].

Definition ParallelismConfig_obj (c : ParallelismConfig.t) : pyval :=
  VData "ParallelismConfig" (Parallelism_fields c).

Definition RolloutParallelismConfig_obj (c : RolloutParallelismConfig.t)
  : pyval :=
  VData "RolloutParallelismConfig" (Parallelism_fields c).

Definition PolicyConfig_obj (c : PolicyConfig.t) : pyval :=
  VData "PolicyConfig"
    [ ("parallelism", ParallelismConfig_obj (PolicyConfig.parallelism c));
      ("model_name_or_path",
       of_option_str (PolicyConfig.model_name_or_path c));
      ("model_max_length", VInt (PolicyConfig.model_max_length c));
      ("model_gradient_checkpointing",
       VBool (PolicyConfig.model_gradient_checkpointing c)) ].

Definition SamplingConfig_obj (c : SamplingConfig.t) : pyval :=
  VData "SamplingConfig"
    [ ("temperature", VFloat (SamplingConfig.temperature c));
      ("top_p", VFloat (SamplingConfig.top_p c));
      ("top_k", VInt (SamplingConfig.top_k c));
      ("repetition_penalty", VFloat (SamplingConfig.repetition_penalty c)) ].

Definition RolloutConfig_obj (c : RolloutConfig.t) : pyval :=
  VData "RolloutConfig"
    [ ("parallelism",
       RolloutParallelismConfig_obj (RolloutConfig.parallelism c));
      ("gpu_memory_utilization",
       VFloat (RolloutConfig.gpu_memory_utilization c));
      ("enable_chunked_prefill",
       VBool (RolloutConfig.enable_chunked_prefill c));
      ("max_response_length", VInt (RolloutConfig.max_response_length c));
      ("n_generation", VInt (RolloutConfig.n_generation c));
      ("batch_size", VInt (RolloutConfig.batch_size c));
      ("quantization", VStr (RolloutConfig.quantization c));
      ("seed", VInt (RolloutConfig.seed c));
      ("sampling_config",
       SamplingConfig_obj (RolloutConfig.sampling_config c)) ].

Definition LoggingConfig_obj (c : LoggingConfig.t) : pyval :=
  VData "LoggingConfig"
    [ ("enable_logging", VBool (LoggingConfig.enable_logging c));
      ("project_name", VStr (LoggingConfig.project_name c));
      ("experiment_name", of_option_str (LoggingConfig.experiment_name c));
      ("report_mfu", VBool (LoggingConfig.report_mfu c)) ].

Definition Config_obj (c : Config.t) : pyval :=
  VData "Config"
    [ ("train", TrainingConfig_obj (Config.train c));
      ("rollout", RolloutConfig_obj (Config.rollout c));
      ("policy", PolicyConfig_obj (Config.policy c));
      ("logging", LoggingConfig_obj (Config.logging c));
      ("profiler", ProfilerConfig_obj (Config.profiler c));
      ("redis", VStr (Config.redis c));
      ("eth_ips", VStr (Config.eth_ips c)) ].


(** ** Objects the hasher accepts *)











Fixpoint all_chars (p : ascii -> bool) (s : string) : bool :=
  match s with
  | EmptyString => true
  | String c rest => p c && all_chars p rest
  end.

(** Structural induction on values, through the lists they contain. *)
Section PyvalInduction.
Variable P : pyval -> Prop.
Hypothesis P_none : P VNone.
Hypothesis P_bool : forall b, P (VBool b).
Hypothesis P_int : forall n, P (VInt n).
Hypothesis P_float : forall f, P (VFloat f).
Hypothesis P_str : forall s, P (VStr s).
Hypothesis P_list : forall items, Forall P items -> P (VList items).
Hypothesis P_tuple : forall items, Forall P items -> P (VTuple items).
Hypothesis P_dict :
  forall entries, Forall (fun kv => P (snd kv)) entries -> P (VDict entries).
Hypothesis P_data :
  forall cls fields,
    Forall (fun kv => P (snd kv)) fields -> P (VData cls fields).
Hypothesis P_class : forall cls, P (VClass cls).
Hypothesis P_object : forall cls, P (VObject cls).

Fixpoint pyval_induction (v : pyval) : P v :=
  let items_ok :=
    fix each (l : list pyval) : Forall P l :=
      match l with
      | [] => Forall_nil P
      | x :: rest => Forall_cons x (pyval_induction x) (each rest)
      end in
  let entries_ok :=
    fix each (l : list (string * pyval)) : Forall (fun kv => P (snd kv)) l :=
      match l with
      | [] => Forall_nil _
      | (k, x) :: rest =>
          Forall_cons (k, x) (pyval_induction x : P (snd (k, x))) (each rest)
      end in
  match v with
  | VNone => P_none
  | VBool b => P_bool b
  | VInt n => P_int n
  | VFloat f => P_float f
  | VStr s => P_str s
  | VList items => P_list items (items_ok items)
  | VTuple items => P_tuple items (items_ok items)
  | VDict entries => P_dict entries (entries_ok entries)
  | VData cls fields => P_data cls fields (entries_ok fields)
  | VClass cls => P_class cls
  | VObject cls => P_object cls
  end.
End PyvalInduction.

(** ** Vocabulary of the statements about [from_dict] *)

(** The mapping mentions one of the four keys that mark a reinforcement
    policy. *)
Definition has_discriminator (policy_data : pydict) : Prop :=
  dict_mem "temperature" policy_data = true
  \/ dict_mem "epsilon_low" policy_data = true
  \/ dict_mem "epsilon_high" policy_data = true
  \/ dict_mem "kl_beta" policy_data = true.

(** The two policies the resolver instantiates. *)
Definition fresh_grpo : TrainPolicy :=
  Grpo (GrpoConfig.defaults OverlongRewardConfig.defaults).

Definition fresh_sft : TrainPolicy := SFT SFTDataConfig.defaults.

(** The timestamp entry of a training section is missing or the empty
    string. *)
Definition timestamp_unset (train : pydict) : Prop :=
  dict_get "timestamp" train = None
  \/ dict_get "timestamp" train = Some (VStr EmptyString).

(** A helper that leaves the defaults as they are, to run [from_dict] on
    inputs whose outcome is settled before or without the update. *)
Definition no_update (config : Config.t) (_ : pydict) : result Config.t :=
  Ok config.

(** A helper that merges one entry of the mapping, to run [from_dict] on
    inputs where the update matters: the reward function the mapping names
    for a reinforcement policy, [train.train_policy.reward_function] given
    as a string, is assigned to the policy of the tree; nothing else is
    merged. *)
Definition update_reward_function (config : Config.t) (config_data : pydict)
  : result Config.t :=
  match dict_get "train" config_data with
  | Some (VDict train) =>
      match dict_get "train_policy" train with
      | Some (VDict policy_data) =>
          match dict_get "reward_function" policy_data,
                Config.train_policy config with
          | Some (VStr name), Grpo g =>
              Ok (Config.set_train_policy config
                    (Grpo (GrpoConfig.set_reward_function g (OneStr name))))
          | _, _ => Ok config
          end
      | _ => Ok config
      end
  | _ => Ok config
  end.

(** A clock reading. *)
Definition noon : datetime := mk_datetime 2025 6 1 12 0 0.

(** Lexicographic combination of two comparisons. *)
Definition lex (c1 c2 : comparison) : comparison :=
  match c1 with
  | Eq => c2
  | _ => c1
  end.

(** Chronological order of two clock readings. *)
Definition datetime_compare (a b : datetime) : comparison :=
  lex (year a ?= year b)
   (lex (month a ?= month b)
     (lex (day a ?= day b)
       (lex (hour a ?= hour b)
         (lex (minute a ?= minute b) (second a ?= second b))))).

(** * Further parts of the file *)

(** ** The dtype properties of [TrainingConfig] *)

Module torch.
Inductive dtype : Type := bfloat16 | float16 | float32.
End torch.

(** [table[key]] for a dict literal with string keys. *)
Fixpoint subscript {V : Type} (table : list (string * V)) (key : string)
  : result V :=
  match table with
  | [] => Raise (KeyError key)
  | (k, v) :: rest => if (k =? key)%string then Ok v else subscript rest key
  end.

(** [TrainingConfig.param_torch_dtype] *)
Definition param_torch_dtype (self : TrainingConfig.t) : result torch.dtype :=
  subscript [ ("bfloat16", torch.bfloat16);
              ("float16", torch.float16);
              ("float32", torch.float32) ]
            (TrainingConfig.param_dtype self).

(** [TrainingConfig.fsdp_reduce_torch_dtype] *)
Definition fsdp_reduce_torch_dtype (self : TrainingConfig.t)
  : result torch.dtype :=
  subscript [ ("float32", torch.float32) ]
            (TrainingConfig.fsdp_reduce_dtype self).

(** [self] with [train.param_dtype] and [train.fsdp_reduce_dtype]
    replaced. *)
Definition with_dtypes (self : Config.t) (param reduce : string) : Config.t :=
  let tr := Config.train self in
  Config.set_train self
    (TrainingConfig.mk
       (TrainingConfig.train_policy tr) (TrainingConfig.ckpt tr)
       (TrainingConfig.resume tr) (TrainingConfig.epoch tr)
       (TrainingConfig.output_dir tr) (TrainingConfig.timestamp tr)
       (TrainingConfig.epsilon tr) (TrainingConfig.optm_name tr)
       (TrainingConfig.optm_lr tr) (TrainingConfig.optm_impl tr)
       (TrainingConfig.optm_weight_decay tr) (TrainingConfig.optm_betas tr)
       (TrainingConfig.optm_warmup_steps tr)
       (TrainingConfig.optm_grad_norm_clip tr)
       (TrainingConfig.async_tp_enabled tr) (TrainingConfig.compile tr)
       param reduce
       (TrainingConfig.fsdp_offload tr)
       (TrainingConfig.fsdp_reshard_after_forward tr)
       (TrainingConfig.train_batch_per_replica tr)
       (TrainingConfig.sync_weight_interval tr)).

(** ** [key_values] *)

(** [obj.__dict__]: the attributes of an instance, which for an instance of
    a dataclass are its fields in declaration order. *)
Definition instance_dict (obj : pyval) : pydict :=
  match obj with
  | VData _ fields => fields
  | _ => []
  end.

(** [{k: v for k, v in self.__dict__.items() if not k.startswith("_")}],
    the body shared by the five [key_values] methods. *)
Definition key_values (self : pyval) : pydict :=
  filter (fun kv => negb (String.prefix "_" (fst kv))) (instance_dict self).

(** ** Vocabulary of the statements about [validate] *)

(** The messages of the ten assertions of [validate]. *)
Definition validate_messages : list string :=
  [ "model_name_or_path is required";
    "tp_size must be greater than 0";
    "cp_size must be greater than 0";
    "pp_size must be greater than 0";
    "dp_shard_size must be greater than 0 or -1 to be auto-inferred";
    "dp_replicate_size must be 1 for dynamic scaling purpose" ]
  ++ pipeline_messages
  ++ [ "reward_function must be a list of reward functions" ].

(** What the reward block asks: a policy tagged ["grpo"] is a [GrpoConfig]
    with at least one reward function. *)
Definition reward_ok (self : Config.t) : Prop :=
  policy_type (Config.train_policy self) = "grpo" ->
  exists g, Config.train_policy self = Grpo g
            /\ reward_list (GrpoConfig.reward_function g) <> [].

(** Everything [validate] asks of a tree. *)
Definition valid_config (self : Config.t) : Prop :=
  degrees_ok self
  /\ (1 < ParallelismConfig.pp_size (Config.parallelism self) ->
      pipeline_divisible self)
  /\ reward_ok self
  /\ ~ upload_s3_invalid
         (CheckpointConfig.upload_s3 (TrainingConfig.ckpt (Config.train self))).

(** The policy with its split names as a list and, when it is tagged
    ["grpo"], its reward functions as a list. *)
Definition normal_policy (p : TrainPolicy) : TrainPolicy :=
  match p with
  | SFT s =>
      SFT (SFTDataConfig.set_dataset_train_split s
             (StrList (reward_list (SFTDataConfig.dataset_train_split s))))
  | Grpo g =>
      let g' :=
        if (GrpoConfig.type g =? "grpo")%string
        then GrpoConfig.set_reward_function g
               (StrList (reward_list (GrpoConfig.reward_function g)))
        else g in
      Grpo (GrpoConfig.set_dataset_train_split g'
              (StrList (reward_list (GrpoConfig.dataset_train_split g'))))
  end.

(** The tree [validate] leaves behind when it returns. *)
Definition normal_form (self : Config.t) : Config.t :=
  Config.set_train_policy self (normal_policy (Config.train_policy self)).

(** The tree with every section [validate] does not read replaced. *)
Definition with_other_sections
  (self : Config.t) (ro : RolloutConfig.t) (lo : LoggingConfig.t)
  (pr : ProfilerConfig.t) (rd ip : string) : Config.t :=
  Config.mk (Config.train self) ro (Config.policy self) lo pr rd ip.

(** A value is a string of decimal digits. *)
Definition is_digit_char (c : ascii) : bool :=
  ((48 <=? N_of_ascii c) && (N_of_ascii c <=? 57))%N.

(** [sub in s] as a proposition: [s] is some text, [sub], some text. *)
Definition substring (sub s : string) : Prop :=
  exists before after, s = (before ++ sub ++ after)%string.

(** What [json.dumps(asdict(obj))] can see of an object: instances as
    dicts of their fields, class names forgotten, and tuples as lists. *)
Fixpoint shape (obj : pyval) : pyval :=
  match obj with
  | VData _ fields =>
      VDict (map (fun kv => match kv with (k, v) => (k, shape v) end) fields)
  | VList items | VTuple items => VList (map shape items)
  | VDict entries =>
      VDict (map (fun kv => match kv with (k, v) => (k, shape v) end) entries)
  | other => other
  end.

(** The separator [os.path.join] puts after a base directory. *)
Definition join_separator (base : string) : string :=
  if (base =? EmptyString)%string || ends_with_sep base
  then EmptyString else "/".

(** * Properties *)

(** ** The result monad *)

Lemma bind_ok {A B : Type} (c : result A) (k : A -> result B) (a : A) :
  c = Ok a -> bind c k = k a.
Proof. intros ->. reflexivity. Qed.

Lemma bind_raise {A B : Type} (c : result A) (k : A -> result B) (e : exn) :
  c = Raise e -> bind c k = Raise e.
Proof. intros ->. reflexivity. Qed.

Lemma assert_ok (cond : bool) (msg : string) :
  assert cond msg = Ok tt <-> cond = true.
Proof. destruct cond; simpl; split; congruence. Qed.

Lemma assert_raise (cond : bool) (msg : string) (e : exn) :
  assert cond msg = Raise e -> cond = false /\ e = AssertionError msg.
Proof. destruct cond; simpl; intros H; inversion H; auto. Qed.

Lemma result_unit_cases (c : result unit) :
  c = Ok tt \/ exists e, c = Raise e.
Proof. destruct c as [[]|e]; [left | right; exists e]; reflexivity. Qed.

(** ** Construction *)

(** Every post-init hook accepts the defaults: [Config()] returns the
    default tree. *)
Lemma Config_new_default : Config.new = Ok default_config.
Proof. reflexivity. Qed.

(** ** The parallelism block of [validate] *)

Section Parallelism.
Variable self : Config.t.

Let par := Config.parallelism self.

Lemma check_parallelism_ok : check_parallelism self = Ok tt <-> degrees_ok self.
Proof.
  unfold check_parallelism, degrees_ok. fold par.
  destruct (PolicyConfig.model_name_or_path (Config.policy self)) as [name|].
  2:{ simpl. split; [discriminate | intros [[n [H _]] _]; discriminate]. }
  destruct (String.eqb_spec name EmptyString) as [->|Hn]; simpl.
  { split; [discriminate | intros [[n [H Hn]] _]; congruence]. }
  destruct (Z.ltb_spec 0 (ParallelismConfig.tp_size par)); simpl;
    [| split; [discriminate | lia]].
  destruct (Z.ltb_spec 0 (ParallelismConfig.cp_size par)); simpl;
    [| split; [discriminate | lia]].
  destruct (Z.ltb_spec 0 (ParallelismConfig.pp_size par)); simpl;
    [| split; [discriminate | lia]].
  destruct (Z.leb_spec (-1) (ParallelismConfig.dp_shard_size par)); simpl;
    [| split; [discriminate | lia]].
  destruct (Z.eqb_spec (ParallelismConfig.dp_shard_size par) 0); simpl;
    [split; [discriminate | lia] |].
  destruct (Z.eqb_spec (ParallelismConfig.dp_replicate_size par) 1); simpl;
    [| split; [discriminate | lia]].
  split; [intros _ | reflexivity].
  repeat split; try lia. exists name. split; [reflexivity | assumption].
Qed.

Lemma check_parallelism_raises (e : exn) :
  check_parallelism self = Raise e -> exists msg, e = AssertionError msg.
Proof.
  unfold check_parallelism.
  repeat match goal with
         | |- bind (assert ?c ?m) _ = _ -> _ =>
             destruct c; simpl;
             [| intros H; inversion H; eexists; reflexivity]
         | |- assert ?c ?m = _ -> _ =>
             destruct c; simpl;
             [discriminate | intros H; inversion H; eexists; reflexivity]
         end.
Qed.

Lemma check_parallelism_shard_zero :
  ParallelismConfig.dp_shard_size par = 0 ->
  exists msg, check_parallelism self = Raise (AssertionError msg).
Proof.
  intros Hz.
  destruct (result_unit_cases (check_parallelism self)) as [H | [e H]].
  - apply check_parallelism_ok in H. unfold degrees_ok in H. fold par in H. lia.
  - destruct (check_parallelism_raises e H) as [msg ->]. eauto.
Qed.

Lemma check_parallelism_replicate (n : Z) :
  ParallelismConfig.dp_replicate_size par = n -> n <> 1 ->
  exists msg, check_parallelism self = Raise (AssertionError msg).
Proof.
  intros Hz Hn.
  destruct (result_unit_cases (check_parallelism self)) as [H | [e H]].
  - apply check_parallelism_ok in H. unfold degrees_ok in H. fold par in H. lia.
  - destruct (check_parallelism_raises e H) as [msg ->]. eauto.
Qed.
End Parallelism.

(** ** The pipeline block of [validate] *)

Section Pipeline.
Variable self : Config.t.

Let par := Config.parallelism self.
Let batch := TrainingConfig.train_batch_per_replica (Config.train self).
Let micro := ParallelismConfig.pp_micro_batch_size par.
Let pp := ParallelismConfig.pp_size par.

Lemma check_pipeline_skipped : pp <= 1 -> check_pipeline self = Ok tt.
Proof.
  intros H. unfold check_pipeline. fold par. fold pp.
  destruct (Z.ltb_spec 1 pp); [lia | reflexivity].
Qed.

Lemma check_pipeline_ok :
  1 < pp -> (check_pipeline self = Ok tt <-> pipeline_divisible self).
Proof.
  intros Hpp. unfold check_pipeline, pipeline_divisible.
  fold par. fold batch. fold micro. fold pp.
  destruct (Z.ltb_spec 1 pp); [| lia].
  destruct (Z.ltb_spec 0 micro); simpl; [| split; [discriminate | lia]].
  unfold py_mod at 1.
  destruct (Z.eqb_spec micro 0); [lia |]. simpl.
  destruct (Z.eqb_spec (batch mod micro) 0); simpl;
    [| split; [discriminate | lia]].
  unfold py_floordiv. destruct (Z.eqb_spec micro 0); [lia |]. simpl.
  unfold py_mod. destruct (Z.eqb_spec pp 0); [lia |]. simpl.
  destruct (Z.eqb_spec ((batch / micro) mod pp) 0); simpl;
    [split; [lia | reflexivity] | split; [discriminate | lia]].
Qed.

Lemma check_pipeline_raises (e : exn) :
  check_pipeline self = Raise e ->
  exists msg, e = AssertionError msg /\ In msg pipeline_messages.
Proof.
  unfold check_pipeline, pipeline_messages.
  fold par. fold batch. fold micro. fold pp.
  destruct (Z.ltb_spec 1 pp); [| discriminate].
  destruct (Z.ltb_spec 0 micro); simpl.
  2:{ intros H'; inversion H'. eexists. split; [reflexivity | simpl; auto]. }
  unfold py_mod at 1.
  destruct (Z.eqb_spec micro 0); [lia |]. simpl.
  destruct (Z.eqb_spec (batch mod micro) 0); simpl.
  2:{ intros H'; inversion H'. eexists. split; [reflexivity | simpl; auto]. }
  unfold py_floordiv. destruct (Z.eqb_spec micro 0); [lia |]. simpl.
  unfold py_mod. destruct (Z.eqb_spec pp 0); [lia |]. simpl.
  destruct (Z.eqb_spec ((batch / micro) mod pp) 0); simpl; [discriminate |].
  intros H'; inversion H'. eexists. split; [reflexivity | simpl; auto].
Qed.
End Pipeline.

(** Later blocks never raise one of the pipeline messages. *)
Lemma check_reward_function_raises (self : Config.t) (e : exn) :
  check_reward_function self = Raise e ->
  e = AssertionError "reward_function must be a list of reward functions"
  \/ e = AttributeError "reward_function".
Proof.
  unfold check_reward_function.
  destruct (policy_type (Config.train_policy self) =? "grpo")%string;
    [| discriminate].
  destruct (Config.train_policy self) as [s | g].
  - intros H; inversion H; auto.
  - match goal with |- bind (assert ?c _) _ = _ -> _ => destruct c end; simpl.
    + discriminate.
    + intros H; inversion H; auto.
Qed.

Lemma check_upload_s3_raises (self : Config.t) (e : exn) :
  check_upload_s3 self = Raise e -> exists msg, e = ValueError msg.
Proof.
  unfold check_upload_s3.
  destruct (truthy _); [| discriminate].
  destruct (negb _); [| discriminate].
  intros H; inversion H. eexists; reflexivity.
Qed.

(** [validate] unfolded along its blocks. *)
Lemma validate_blocks (self : Config.t) :
  check_parallelism self = Ok tt ->
  check_pipeline self = Ok tt ->
  validate self =
    (self' <- check_reward_function self ;;
     check_upload_s3 (normalize_train_split self') ;;;
     Ok (normalize_train_split self')).
Proof. intros H1 H2. unfold validate. rewrite H1. simpl. rewrite H2. reflexivity. Qed.

Lemma validate_default_policy (self : Config.t) :
  check_parallelism self = Ok tt ->
  check_pipeline self = Ok tt ->
  Config.train self = Config.train default_config ->
  validate self = Ok self.
Proof.
  intros H1 H2 Ht. rewrite (validate_blocks self H1 H2).
  destruct self as [tr ro po lo pr rd ip]. simpl in Ht. subst tr.
  reflexivity.
Qed.

(** ** Parallel degrees over the default tree *)

Lemma with_degrees_ok (tp cp pp dp_shard dp_replicate : Z) :
  check_parallelism (with_degrees tp cp pp dp_shard dp_replicate) = Ok tt <->
  0 < tp /\ 0 < cp /\ 0 < pp /\ (dp_shard = -1 \/ 0 < dp_shard)
  /\ dp_replicate = 1.
Proof.
  rewrite check_parallelism_ok. unfold degrees_ok. simpl.
  split.
  - intros [_ H]. exact H.
  - intros H. split; [| exact H].
    eexists. split; [reflexivity | discriminate].
Qed.

Lemma with_degrees_pipeline (tp cp pp dp_shard dp_replicate : Z) :
  0 < pp ->
  (8 mod pp = 0 ->
   check_pipeline (with_degrees tp cp pp dp_shard dp_replicate) = Ok tt)
  /\ (8 mod pp <> 0 ->
      check_pipeline (with_degrees tp cp pp dp_shard dp_replicate) =
      Raise (AssertionError
               "train_batch / pp_micro_batch_size must be divisible by pp_size")).
Proof.
  intros Hpp. unfold check_pipeline. simpl.
  destruct (Z.ltb_spec 1 pp) as [H1 | H1].
  - unfold py_mod. destruct (Z.eqb_spec pp 0); [lia |]. simpl.
    change (8 / 1) with 8.
    destruct (Z.eqb_spec (8 mod pp) 0); simpl; split; intros; congruence.
  - assert (pp = 1) by lia. subst pp. split; [reflexivity |].
    intros H. exfalso. apply H. reflexivity.
Qed.

(** C3 (as amended): over the default tree, a quadruple with tp, cp, pp at
    least 1, dp_shard equal to -1 or positive and dp_replicate equal to 1
    validates exactly when pp divides the default batch size 8 (the default
    micro-batch size being 1); otherwise the pipeline block rejects it.
    Whatever the other degrees are, dp_shard = 0 and dp_replicate = 2 are
    rejected by an assertion. *)
Theorem C3_validate_degrees (tp cp pp dp_shard dp_replicate : Z) :
  (1 <= tp -> 1 <= cp -> 1 <= pp -> (dp_shard = -1 \/ 0 < dp_shard) ->
   dp_replicate = 1 ->
   (8 mod pp = 0 ->
    validate (with_degrees tp cp pp dp_shard dp_replicate) =
    Ok (with_degrees tp cp pp dp_shard dp_replicate))
   /\ (8 mod pp <> 0 ->
       validate (with_degrees tp cp pp dp_shard dp_replicate) =
       Raise (AssertionError
                "train_batch / pp_micro_batch_size must be divisible by pp_size")))
  /\ (dp_shard = 0 \/ dp_replicate = 2 ->
      exists msg,
        validate (with_degrees tp cp pp dp_shard dp_replicate) =
        Raise (AssertionError msg)).
Proof.
  split.
  - intros Htp Hcp Hpp Hds Hdr.
    assert (Hpar : check_parallelism
                     (with_degrees tp cp pp dp_shard dp_replicate) = Ok tt).
    { apply with_degrees_ok. lia. }
    destruct (with_degrees_pipeline tp cp pp dp_shard dp_replicate)
      as [Hyes Hno]; [lia |].
    split; intros Hdiv.
    + apply validate_default_policy; auto.
    + unfold validate. rewrite Hpar. simpl. rewrite (Hno Hdiv). reflexivity.
  - intros Hbad.
    assert (H : exists msg,
               check_parallelism
                 (with_degrees tp cp pp dp_shard dp_replicate) =
               Raise (AssertionError msg)).
    { destruct Hbad as [-> | ->].
      - apply check_parallelism_shard_zero. reflexivity.
      - apply (check_parallelism_replicate _ 2); [reflexivity | lia]. }
    destruct H as [msg H]. exists msg.
    unfold validate. rewrite H. reflexivity.
Qed.

Lemma C3_validate_degrees_witness :
  validate (with_degrees 2 1 4 (-1) 1) = Ok (with_degrees 2 1 4 (-1) 1)
  /\ validate (with_degrees 2 1 5 16 1) =
     Raise (AssertionError
              "train_batch / pp_micro_batch_size must be divisible by pp_size")
  /\ (exists msg,
        validate (with_degrees 2 1 1 0 1) = Raise (AssertionError msg)).
Proof.
  split; [| split].
  - destruct (C3_validate_degrees 2 1 4 (-1) 1) as [H _].
    apply H; try lia; reflexivity.
  - destruct (C3_validate_degrees 2 1 5 16 1) as [H _].
    apply H; try lia. discriminate.
  - destruct (C3_validate_degrees 2 1 1 0 1) as [_ H].
    apply H. left. reflexivity.
Defined.

(** C3 (as stated) fails: pp_size = 3 satisfies the stated conditions, all
    other fields are the defaults, and validation raises. *)
Lemma C3_counterexample :
  1 <= 2 /\ 1 <= 1 /\ 1 <= 3 /\ (-1 = -1 \/ 0 < -1) /\ 1 = 1
  /\ validate (with_degrees 2 1 3 (-1) 1) =
     Raise (AssertionError
              "train_batch / pp_micro_batch_size must be divisible by pp_size").
Proof. repeat split; lia. Qed.

(** ** The pipeline rule *)

Lemma validate_rest_raises (self : Config.t) (e : exn) :
  (self' <- check_reward_function self ;;
   check_upload_s3 (normalize_train_split self') ;;;
   Ok (normalize_train_split self')) = Raise e ->
  e = AssertionError "reward_function must be a list of reward functions"
  \/ e = AttributeError "reward_function"
  \/ exists msg, e = ValueError msg.
Proof.
  destruct (check_reward_function self) as [self' |e'] eqn:Hr; simpl.
  - destruct (check_upload_s3 (normalize_train_split self')) as [[] |e'] eqn:Hu;
      simpl; [discriminate |].
    intros H; inversion H; subst e'.
    right; right. exact (check_upload_s3_raises _ _ Hu).
  - intros H; inversion H; subst e'.
    destruct (check_reward_function_raises _ _ Hr); auto.
Qed.

Lemma check_parallelism_with_batching (self : Config.t) (micro batch : Z) :
  check_parallelism (with_batching self micro batch) = check_parallelism self.
Proof. destruct self as [tr ro [par nm ml gc] lo pr rd ip]. reflexivity. Qed.

Lemma check_upload_s3_with_batching (self : Config.t) (micro batch : Z) :
  check_upload_s3 (with_batching self micro batch) = check_upload_s3 self.
Proof. destruct self as [[] ro [par nm ml gc] lo pr rd ip]. reflexivity. Qed.

Lemma normalize_train_split_with_batching (self : Config.t) (micro batch : Z) :
  normalize_train_split (with_batching self micro batch) =
  with_batching (normalize_train_split self) micro batch.
Proof.
  destruct self as [[pol] ro [par nm ml gc] lo pr rd ip].
  unfold normalize_train_split, Config.train_policy, with_batching. simpl.
  destruct (policy_dataset_train_split pol); reflexivity.
Qed.

Lemma check_reward_function_with_batching (self : Config.t) (micro batch : Z) :
  check_reward_function (with_batching self micro batch) =
  map_result (fun c => with_batching c micro batch)
             (check_reward_function self).
Proof.
  destruct self as [[pol] ro [par nm ml gc] lo pr rd ip].
  unfold check_reward_function, Config.train_policy, with_batching. simpl.
  destruct (policy_type pol =? "grpo")%string; [| reflexivity].
  destruct pol as [s | g]; [reflexivity |].
  match goal with |- bind (assert ?c _) _ = _ => destruct c end; reflexivity.
Qed.

Lemma validate_with_batching (self : Config.t) (micro batch : Z) :
  ParallelismConfig.pp_size (Config.parallelism self) = 1 ->
  validate (with_batching self micro batch) =
  map_result (fun c => with_batching c micro batch) (validate self).
Proof.
  intros Hpp. unfold validate.
  rewrite check_parallelism_with_batching.
  destruct (check_parallelism self) as [[] | e]; [simpl | reflexivity].
  rewrite !check_pipeline_skipped.
  2:{ rewrite Hpp. lia. }
  2:{ destruct self as [tr ro [par nm ml gc] lo pr rd ip].
      simpl in *. rewrite Hpp. lia. }
  simpl. rewrite check_reward_function_with_batching.
  destruct (check_reward_function self) as [self' | e]; [simpl | reflexivity].
  rewrite normalize_train_split_with_batching, check_upload_s3_with_batching.
  destruct (check_upload_s3 (normalize_train_split self')) as [[] | e];
    reflexivity.
Qed.

(** C4: once the leading assertions hold and pp_size > 1, validation fails
    with one of the three pipeline assertions exactly when it is not the
    case that the micro-batch size is positive, divides the batch size and
    leaves a micro-batch count divisible by pp_size; batch 8, pp_size 4
    passes with micro-batch 2 and fails with micro-batch 3; with pp_size = 1
    the outcome of validation does not depend on the micro-batch size or the
    batch size. *)
Theorem C4_pipeline_rule (self : Config.t) :
  (check_parallelism self = Ok tt ->
   1 < ParallelismConfig.pp_size (Config.parallelism self) ->
   ((exists msg, In msg pipeline_messages
                 /\ validate self = Raise (AssertionError msg))
    <-> ~ pipeline_divisible self))
  /\ (ParallelismConfig.pp_size (Config.parallelism self) = 1 ->
      forall micro batch,
        validate (with_batching self micro batch) =
        map_result (fun c => with_batching c micro batch) (validate self))
  /\ validate (pipeline_config 4 2 8) = Ok (pipeline_config 4 2 8)
  /\ validate (pipeline_config 4 3 8) =
     Raise (AssertionError
              "train_batch must be divisible by pp_micro_batch_size").
Proof.
  split; [| split; [| split; reflexivity]].
  - intros Hpar Hpp. split.
    + intros [msg [Hin Hv]] Hdiv.
      apply (check_pipeline_ok self Hpp) in Hdiv.
      rewrite (validate_blocks self Hpar Hdiv) in Hv.
      apply validate_rest_raises in Hv.
      destruct Hv as [Hv | [Hv | [m Hv]]]; try discriminate.
      inversion Hv; subst msg.
      simpl in Hin. intuition discriminate.
    + intros Hdiv.
      destruct (result_unit_cases (check_pipeline self)) as [H | [e H]].
      * apply (check_pipeline_ok self Hpp) in H. contradiction.
      * destruct (check_pipeline_raises self e H) as [msg [-> Hin]].
        exists msg. split; [exact Hin |].
        unfold validate. rewrite Hpar. simpl. rewrite H. reflexivity.
  - intros Hpp micro batch. apply validate_with_batching. exact Hpp.
Qed.

Lemma C4_pipeline_rule_witness :
  (exists msg, In msg pipeline_messages
               /\ validate (pipeline_config 4 3 8) = Raise (AssertionError msg))
  /\ validate (with_batching default_config 3 7) =
     map_result (fun c => with_batching c 3 7) (validate default_config).
Proof.
  destruct (C4_pipeline_rule (pipeline_config 4 3 8)) as [H _].
  destruct (C4_pipeline_rule default_config) as [_ [H' _]].
  split.
  - apply H; [reflexivity | simpl; lia |].
    unfold pipeline_divisible. simpl. intros [_ [Hm _]]. discriminate Hm.
  - apply H'. reflexivity.
Defined.

(** ** The remote-upload rule *)

Lemma upload_s3_invalid_iff (v : BoolOrStr) :
  truthy v && negb (bool_or_str_in v ["final"; "all"]) = true
  <-> upload_s3_invalid v.
Proof.
  unfold upload_s3_invalid. destruct v as [[] | s]; simpl.
  - split; auto.
  - split; [discriminate | intros [H | [s [H _]]]; discriminate].
  - destruct (String.eqb_spec s EmptyString) as [-> | Hne]; simpl.
    { split; [discriminate |].
      intros [H | [s' [H [Hn _]]]]; [discriminate |].
      inversion H; subst s'. congruence. }
    destruct (String.eqb_spec s "final") as [-> | Hf]; simpl.
    { split; [discriminate |].
      intros [H | [s' [H [_ [Hn _]]]]]; [discriminate |].
      inversion H; subst s'. congruence. }
    destruct (String.eqb_spec s "all") as [-> | Ha]; simpl.
    { split; [discriminate |].
      intros [H | [s' [H [_ [_ Hn]]]]]; [discriminate |].
      inversion H; subst s'. congruence. }
    split; [intros _ | reflexivity].
    right. exists s. auto.
Qed.

Lemma check_upload_s3_spec (self : Config.t) :
  let v := CheckpointConfig.upload_s3 (TrainingConfig.ckpt (Config.train self)) in
  (upload_s3_invalid v ->
   check_upload_s3 self =
   Raise (ValueError
            ("upload_s3 must be one of ['final', 'all'] or False, got "
             ++ str_of_bool_or_str v)))
  /\ (~ upload_s3_invalid v -> check_upload_s3 self = Ok tt).
Proof.
  intros v. unfold check_upload_s3. fold v.
  pose proof (upload_s3_invalid_iff v) as Hiff.
  destruct (truthy v); simpl in *.
  - destruct (negb (bool_or_str_in v ["final"; "all"])); simpl.
    + split; [reflexivity |]. intros Hn. exfalso. apply Hn, Hiff. reflexivity.
    + split; [| reflexivity]. intros Hi. apply Hiff in Hi. discriminate.
  - split; [| reflexivity]. intros Hi. apply Hiff in Hi. discriminate.
Qed.

(** The blocks before the upload check leave the checkpoint section
    alone. *)
Lemma check_reward_function_ckpt (self self' : Config.t) :
  check_reward_function self = Ok self' ->
  TrainingConfig.ckpt (Config.train self') =
  TrainingConfig.ckpt (Config.train self).
Proof.
  unfold check_reward_function.
  destruct (policy_type (Config.train_policy self) =? "grpo")%string.
  - destruct (Config.train_policy self) as [s | g]; [discriminate |].
    match goal with |- bind (assert ?c _) _ = _ -> _ => destruct c end;
      simpl; [| discriminate].
    intros H; inversion H. destruct self as [[] ? ? ? ? ? ?]. reflexivity.
  - intros H; inversion H. reflexivity.
Qed.

Lemma normalize_train_split_ckpt (self : Config.t) :
  TrainingConfig.ckpt (Config.train (normalize_train_split self)) =
  TrainingConfig.ckpt (Config.train self).
Proof.
  unfold normalize_train_split.
  destruct (policy_dataset_train_split (Config.train_policy self));
    [| reflexivity].
  destruct self as [[] ? ? ? ? ? ?]. reflexivity.
Qed.

(** C5: validation raises the remote-upload error (a ValueError) exactly
    when the earlier blocks pass and upload_s3 is truthy and neither
    ["final"] nor ["all"]; over the default tree False, ["final"] and
    ["all"] pass and ["weekly"] fails. *)
Theorem C5_upload_s3_rule (self : Config.t) :
  let v := CheckpointConfig.upload_s3 (TrainingConfig.ckpt (Config.train self)) in
  ((exists msg, validate self = Raise (ValueError msg))
   <-> (is_ok (check_parallelism self) = true
        /\ is_ok (check_pipeline self) = true
        /\ is_ok (check_reward_function self) = true
        /\ upload_s3_invalid v))
  /\ (forall msg, validate self = Raise (ValueError msg) ->
      msg = "upload_s3 must be one of ['final', 'all'] or False, got "
            ++ str_of_bool_or_str v)
  /\ validate (with_upload_s3 default_config (UBool false)) =
     Ok (with_upload_s3 default_config (UBool false))
  /\ validate (with_upload_s3 default_config (UStr "final")) =
     Ok (with_upload_s3 default_config (UStr "final"))
  /\ validate (with_upload_s3 default_config (UStr "all")) =
     Ok (with_upload_s3 default_config (UStr "all"))
  /\ validate (with_upload_s3 default_config (UStr "weekly")) =
     Raise (ValueError
              "upload_s3 must be one of ['final', 'all'] or False, got weekly").
Proof.
  intros v.
  assert (Hmain : forall e, validate self = Raise e ->
            (exists msg, e = ValueError msg) ->
            is_ok (check_parallelism self) = true
            /\ is_ok (check_pipeline self) = true
            /\ is_ok (check_reward_function self) = true
            /\ upload_s3_invalid v
            /\ e = ValueError
                     ("upload_s3 must be one of ['final', 'all'] or False, got "
                      ++ str_of_bool_or_str v)).
  { intros e Hv [msg ->]. unfold validate in Hv.
    destruct (check_parallelism self) as [[] | e1] eqn:H1; simpl in Hv.
    2:{ inversion Hv; subst e1.
        destruct (check_parallelism_raises _ _ H1); discriminate. }
    destruct (check_pipeline self) as [[] | e2] eqn:H2; simpl in Hv.
    2:{ inversion Hv; subst e2.
        destruct (check_pipeline_raises _ _ H2) as [? [? _]]; discriminate. }
    destruct (check_reward_function self) as [self' | e3] eqn:H3; simpl in Hv.
    2:{ inversion Hv; subst e3.
        destruct (check_reward_function_raises _ _ H3); discriminate. }
    destruct (check_upload_s3_spec (normalize_train_split self')) as [Hy Hn].
    rewrite normalize_train_split_ckpt, (check_reward_function_ckpt _ _ H3)
      in Hy, Hn.
    fold v in Hy, Hn.
    assert (Hinv : upload_s3_invalid v).
    { pose proof (upload_s3_invalid_iff v) as Hiff.
      destruct (truthy v && negb (bool_or_str_in v ["final"; "all"])).
      - apply Hiff. reflexivity.
      - rewrite Hn in Hv; [discriminate |].
        intros Hi. apply Hiff in Hi. discriminate. }
    rewrite (Hy Hinv) in Hv. simpl in Hv. inversion Hv. auto. }
  split; [split |].
  - intros [msg Hv]. destruct (Hmain _ Hv) as [? [? [? [? _]]]]; eauto.
  - intros [H1 [H2 [H3 Hinv]]].
    destruct (check_parallelism self) as [[] |] eqn:E1; [| discriminate].
    destruct (check_pipeline self) as [[] |] eqn:E2; [| discriminate].
    destruct (check_reward_function self) as [self' |] eqn:E3; [| discriminate].
    destruct (check_upload_s3_spec (normalize_train_split self')) as [Hy _].
    rewrite normalize_train_split_ckpt, (check_reward_function_ckpt _ _ E3)
      in Hy.
    eexists. unfold validate. rewrite E1. simpl. rewrite E2. simpl.
    rewrite E3. simpl. rewrite (Hy Hinv). reflexivity.
  - split; [| repeat split].
    intros msg Hv. destruct (Hmain _ Hv) as [_ [_ [_ [_ He]]]]; eauto.
    inversion He. reflexivity.
Qed.

Lemma C5_upload_s3_rule_witness :
  exists msg,
    validate (with_upload_s3 default_config (UBool true)) =
    Raise (ValueError msg).
Proof.
  destruct (C5_upload_s3_rule (with_upload_s3 default_config (UBool true)))
    as [[_ H] _].
  apply H. repeat split. left. reflexivity.
Defined.

(** ** The reward-function rule *)





(** ** Dictionaries *)

Lemma dict_get_set_same (key : string) (v : pyval) (d : pydict) :
  dict_get key (dict_set key v d) = Some v.
Proof.
  induction d as [| [k w] rest IH]; simpl.
  - rewrite String.eqb_refl. reflexivity.
  - destruct (String.eqb_spec k key) as [-> | Hne]; simpl.
    + rewrite String.eqb_refl. reflexivity.
    + destruct (String.eqb_spec k key); [contradiction | exact IH].
Qed.

Lemma dict_get_set_other (key key' : string) (v : pyval) (d : pydict) :
  key <> key' -> dict_get key' (dict_set key v d) = dict_get key' d.
Proof.
  intros Hne. induction d as [| [k w] rest IH]; simpl.
  - destruct (String.eqb_spec key key'); [contradiction | reflexivity].
  - destruct (String.eqb_spec k key) as [-> | Hk]; simpl.
    + destruct (String.eqb_spec key key'); [contradiction | reflexivity].
    + destruct (String.eqb_spec k key'); [reflexivity | exact IH].
Qed.

Lemma dict_set_same (key : string) (v : pyval) (d : pydict) :
  dict_get key d = Some v -> dict_set key v d = d.
Proof.
  induction d as [| [k w] rest IH]; simpl; [discriminate |].
  destruct (String.eqb_spec k key) as [-> | Hk].
  - intros H; inversion H. reflexivity.
  - intros H. rewrite (IH H). reflexivity.
Qed.

Lemma dict_set_twice (key : string) (v w : pyval) (d : pydict) :
  dict_set key v (dict_set key w d) = dict_set key v d.
Proof.
  induction d as [| [k x] rest IH]; simpl.
  - rewrite String.eqb_refl. reflexivity.
  - destruct (String.eqb_spec k key) as [-> | Hk]; simpl.
    + rewrite String.eqb_refl. reflexivity.
    + destruct (String.eqb_spec k key); [contradiction |]. rewrite IH.
      reflexivity.
Qed.

Lemma dict_mem_get (key : string) (d : pydict) :
  dict_mem key d = true <-> dict_get key d <> None.
Proof.
  unfold dict_mem. destruct (dict_get key d); split; congruence.
Qed.

Lemma dict_mem_set_other (key key' : string) (v : pyval) (d : pydict) :
  key <> key' -> dict_mem key' (dict_set key v d) = dict_mem key' d.
Proof.
  intros H. unfold dict_mem. rewrite dict_get_set_other by exact H.
  reflexivity.
Qed.

(** ** The resolver of the training policy *)

Lemma any_in_discriminators (policy_data : pydict) :
  (has_discriminator policy_data ->
   any_in discriminator_keys (VDict policy_data) = Ok true)
  /\ (~ has_discriminator policy_data ->
      any_in discriminator_keys (VDict policy_data) = Ok false).
Proof.
  unfold has_discriminator, discriminator_keys. simpl.
  destruct (dict_mem "temperature" policy_data); simpl; [tauto |].
  destruct (dict_mem "epsilon_low" policy_data); simpl; [tauto |].
  destruct (dict_mem "epsilon_high" policy_data); simpl; [tauto |].
  destruct (dict_mem "kl_beta" policy_data); simpl; [tauto |].
  split; [| reflexivity].
  intros [H | [H | [H | H]]]; discriminate.
Qed.

(** ** The timestamp block *)

Lemma timestamp_unset_test (train : pydict) :
  negb (dict_mem "timestamp" train)
  || match dict_get "timestamp" train with
     | Some v => eq_str v EmptyString
     | None => false
     end = true
  <-> timestamp_unset train.
Proof.
  unfold timestamp_unset, dict_mem.
  destruct (dict_get "timestamp" train) as [v |]; simpl.
  - destruct v; simpl;
      try (split; [discriminate | intros [H | H]; discriminate]).
    destruct (String.eqb_spec s EmptyString) as [-> | Hne].
    + split; auto.
    + split; [discriminate | intros [H | H]; congruence].
  - split; auto.
Qed.

Section Stamp.
Variable now : datetime.
Variable train : pydict.

Let stamped : pydict := dict_set "timestamp" (VStr (strftime now)) train.

Lemma stamp_kept :
  ~ timestamp_unset train -> stamp_output_dir now train = (train, Ok tt).
Proof.
  intros H. unfold stamp_output_dir, bindM, this.
  pose proof (timestamp_unset_test train) as Ht.
  destruct (negb (dict_mem "timestamp" train) || _).
  - exfalso. apply H, Ht. reflexivity.
  - reflexivity.
Qed.

Lemma stamp_unset :
  timestamp_unset train ->
  stamp_output_dir now train =
  match dict_get "output_dir" train with
  | None => (stamped, Raise (KeyError "output_dir"))
  | Some (VStr base) =>
      (dict_set "output_dir" (VStr (path_join base (strftime now))) stamped,
       Ok tt)
  | Some _ => (stamped, Raise TypeError)
  end.
Proof.
  intros H. unfold stamp_output_dir, bindM, this.
  apply timestamp_unset_test in H. rewrite H.
  unfold store, load, lift. fold stamped.
  assert (Hout : dict_get "output_dir" stamped = dict_get "output_dir" train).
  { apply dict_get_set_other. discriminate. }
  assert (Hts : dict_get "timestamp" stamped = Some (VStr (strftime now))).
  { apply dict_get_set_same. }
  rewrite Hout, Hts.
  destruct (dict_get "output_dir" train) as [v |]; [| reflexivity].
  destruct v; reflexivity.
Qed.

(** Whatever the block does, the section ends up with a timestamp that is
    not the empty string. *)
Lemma strftime_not_empty : strftime now <> EmptyString.
Proof.
  unfold strftime, year_digits.
  destruct (_ <? 10); [| destruct (_ <? 100); [| destruct (_ <? 1000)]];
    cbn [digits append]; discriminate.
Qed.
End Stamp.

(** From the year 1000 on the year takes four digits and the timestamp
    fourteen. *)
Lemma year_digits_four (y : Z) : 1000 <= y -> year_digits y = digits 4 y.
Proof.
  intros H. unfold year_digits.
  destruct (Z.ltb_spec y 10); [lia |].
  destruct (Z.ltb_spec y 100); [lia |].
  destruct (Z.ltb_spec y 1000); [lia | reflexivity].
Qed.

Lemma strftime_length (now : datetime) :
  1000 <= year now -> String.length (strftime now) = 14%nat.
Proof.
  intros H. unfold strftime. rewrite (year_digits_four _ H). reflexivity.
Qed.

Lemma stamp_sets_timestamp
  (now : datetime) (train train' : pydict) (r : result unit) :
  stamp_output_dir now train = (train', r) ->
  ~ timestamp_unset train'
  /\ (timestamp_unset train ->
      dict_get "timestamp" train' = Some (VStr (strftime now))).
Proof.
  intros H.
  assert (Hstamped :
    forall d, dict_get "timestamp" d = Some (VStr (strftime now)) ->
              ~ timestamp_unset d).
  { intros d Hd [Hu | Hu]; rewrite Hd in Hu; [discriminate |].
    injection Hu as Hs. exact (strftime_not_empty now Hs). }
  destruct (timestamp_unset_test train) as [_ Hdec].
  destruct (negb (dict_mem "timestamp" train)
            || match dict_get "timestamp" train with
               | Some v => eq_str v EmptyString
               | None => false
               end) eqn:Hc.
  - apply timestamp_unset_test in Hc.
    rewrite (stamp_unset now train Hc) in H.
    assert (Hts : dict_get "timestamp" train' = Some (VStr (strftime now))).
    { destruct (dict_get "output_dir" train) as [v |].
      - destruct v; inversion H; subst; try apply dict_get_set_same.
        rewrite dict_get_set_other by discriminate. apply dict_get_set_same.
      - inversion H; subst. apply dict_get_set_same. }
    split; [apply Hstamped; exact Hts | intros _; exact Hts].
  - assert (Hn : ~ timestamp_unset train).
    { intros Hu. apply Hdec in Hu. congruence. }
    rewrite (stamp_kept now train Hn) in H. inversion H; subst.
    split; [exact Hn | contradiction].
Qed.

(** A second run of the block, at any later time, changes nothing. *)
Lemma stamp_again
  (now later : datetime) (train train' : pydict) (r : result unit) :
  stamp_output_dir now train = (train', r) ->
  stamp_output_dir later train' = (train', Ok tt).
Proof.
  intros H. apply stamp_kept.
  exact (proj1 (stamp_sets_timestamp now train train' r H)).
Qed.

(** The block leaves every other entry of the section alone. *)
Lemma stamp_frame
  (now : datetime) (train train' : pydict) (r : result unit) (key : string) :
  stamp_output_dir now train = (train', r) ->
  key <> "timestamp" -> key <> "output_dir" ->
  dict_get key train' = dict_get key train.
Proof.
  intros H Ht Ho.
  destruct (timestamp_unset_test train) as [_ Hdec].
  destruct (negb (dict_mem "timestamp" train)
            || match dict_get "timestamp" train with
               | Some v => eq_str v EmptyString
               | None => false
               end) eqn:Hc.
  - apply timestamp_unset_test in Hc.
    rewrite (stamp_unset now train Hc) in H.
    destruct (dict_get "output_dir" train) as [v |].
    + destruct v; inversion H; subst;
        repeat rewrite dict_get_set_other by congruence; reflexivity.
    + inversion H; subst. rewrite dict_get_set_other by congruence.
      reflexivity.
  - assert (Hn : ~ timestamp_unset train).
    { intros Hu. apply Hdec in Hu. congruence. }
    rewrite (stamp_kept now train Hn) in H. inversion H; subst. reflexivity.
Qed.

(** ** The resolver reads the mapping *)

Lemma select_train_policy_reads (config : Config.t) (train : pydict) :
  fst (select_train_policy config train) = train.
Proof.
  cbv beta iota delta
    [select_train_policy bindM this load lift retM dict_mem].
  destruct (dict_get "train_policy" train) as [v |] eqn:E;
    cbv beta iota; rewrite ?E; cbv beta iota; [| reflexivity].
  destruct (any_in discriminator_keys v) as [[] | e]; reflexivity.
Qed.

Lemma select_train_policy_depends
  (config : Config.t) (train train' : pydict) :
  dict_get "train_policy" train = dict_get "train_policy" train' ->
  snd (select_train_policy config train) =
  snd (select_train_policy config train').
Proof.
  intros H.
  cbv beta iota delta
    [select_train_policy bindM this load lift retM dict_mem].
  rewrite <- H.
  destruct (dict_get "train_policy" train) as [v |] eqn:E;
    cbv beta iota; rewrite <- ?H, ?E; cbv beta iota; [| reflexivity].
  destruct (any_in discriminator_keys v) as [[] | e]; reflexivity.
Qed.

(** ** [prepare], the part of [from_dict] before the update *)

Lemma prepare_unfold (now : datetime) (config_data : pydict) :
  prepare now config_data =
  if dict_mem "train" config_data then
    within "train"
      (_ <~ stamp_output_dir now ;; select_train_policy default_config)
      config_data
  else (config_data, Ok default_config).
Proof.
  unfold prepare, bindM, lift, this. simpl.
  destruct (dict_mem "train" config_data); reflexivity.
Qed.

Lemma prepare_no_train (now : datetime) (config_data : pydict) :
  dict_mem "train" config_data = false ->
  prepare now config_data = (config_data, Ok default_config).
Proof. intros H. rewrite prepare_unfold, H. reflexivity. Qed.

Lemma prepare_not_dict (now : datetime) (config_data : pydict) (v : pyval) :
  dict_get "train" config_data = Some v ->
  (forall train, v <> VDict train) ->
  prepare now config_data = (config_data, Raise TypeError).
Proof.
  intros H Hv. rewrite prepare_unfold. unfold dict_mem, within. rewrite H.
  destruct v; try reflexivity. exfalso. exact (Hv _ eq_refl).
Qed.

Lemma prepare_train (now : datetime) (config_data train : pydict) :
  dict_get "train" config_data = Some (VDict train) ->
  prepare now config_data =
  match stamp_output_dir now train with
  | (train', Ok _) =>
      (dict_set "train" (VDict train') config_data,
       snd (select_train_policy default_config train'))
  | (train', Raise e) =>
      (dict_set "train" (VDict train') config_data, Raise e)
  end.
Proof.
  intros H. rewrite prepare_unfold. unfold dict_mem, within. rewrite H.
  unfold bindM.
  destruct (stamp_output_dir now train) as [train' [[] | e]]; [| reflexivity].
  pose proof (select_train_policy_reads default_config train') as Hr.
  destruct (select_train_policy default_config train') as [t r].
  simpl in *. subst t. reflexivity.
Qed.

(** ** Timestamps sort like the times they stand for *)

Lemma compare_div_mod (x y : Z) :
  (x ?= y) = lex (x / 10 ?= y / 10) (x mod 10 ?= y mod 10).
Proof.
  pose proof (Z.div_mod x 10) as Hx. pose proof (Z.div_mod y 10) as Hy.
  pose proof (Z.mod_pos_bound x 10) as Bx.
  pose proof (Z.mod_pos_bound y 10) as By.
  destruct (Z.compare_spec (x / 10) (y / 10)); simpl.
  - destruct (Z.compare_spec (x mod 10) (y mod 10)).
    + apply Z.compare_eq_iff. lia.
    + apply Z.compare_lt_iff. lia.
    + apply Z.compare_gt_iff. lia.
  - apply Z.compare_lt_iff. lia.
  - apply Z.compare_gt_iff. lia.
Qed.

Lemma compare_digit (x y : Z) :
  Ascii.compare (digit x) (digit y) = (x mod 10 ?= y mod 10).
Proof.
  unfold digit.
  pose proof (Z.mod_pos_bound x 10) as Bx.
  pose proof (Z.mod_pos_bound y 10) as By.
  assert (Hx : x mod 10 = 0 \/ x mod 10 = 1 \/ x mod 10 = 2 \/ x mod 10 = 3
               \/ x mod 10 = 4 \/ x mod 10 = 5 \/ x mod 10 = 6
               \/ x mod 10 = 7 \/ x mod 10 = 8 \/ x mod 10 = 9) by lia.
  assert (Hy : y mod 10 = 0 \/ y mod 10 = 1 \/ y mod 10 = 2 \/ y mod 10 = 3
               \/ y mod 10 = 4 \/ y mod 10 = 5 \/ y mod 10 = 6
               \/ y mod 10 = 7 \/ y mod 10 = 8 \/ y mod 10 = 9) by lia.
  repeat (destruct Hx as [Hx | Hx]); rewrite Hx;
    repeat (destruct Hy as [Hy | Hy]); rewrite Hy; reflexivity.
Qed.

Lemma lex_assoc (a b c : comparison) : lex (lex a b) c = lex a (lex b c).
Proof. destruct a; reflexivity. Qed.

Lemma append_assoc (s t u : string) : ((s ++ t) ++ u = s ++ (t ++ u))%string.
Proof. induction s as [| c s IH]; simpl; [| rewrite IH]; reflexivity. Qed.

Lemma append_empty (s : string) : (s ++ EmptyString = s)%string.
Proof. induction s as [| c s IH]; simpl; [| rewrite IH]; reflexivity. Qed.

Lemma compare_cons (c1 c2 : ascii) (s t : string) :
  String.compare (String c1 s) (String c2 t) =
  lex (Ascii.compare c1 c2) (String.compare s t).
Proof. simpl. destruct (Ascii.compare c1 c2); reflexivity. Qed.

(** Two zero-padded fields of the same width compare like the numbers they
    print, then like what follows them. *)
Lemma compare_digits (width : nat) :
  forall (x y : Z) (s t : string),
    0 <= x < 10 ^ Z.of_nat width ->
    0 <= y < 10 ^ Z.of_nat width ->
    String.compare (digits width x ++ s) (digits width y ++ t) =
    lex (x ?= y) (String.compare s t).
Proof.
  induction width as [| w IH]; intros x y s t Hx Hy.
  - simpl in *. assert (x = 0) by lia. assert (y = 0) by lia. subst.
    reflexivity.
  - assert (Hpow : 10 ^ Z.of_nat (S w) = 10 * 10 ^ Z.of_nat w).
    { rewrite Nat2Z.inj_succ, Z.pow_succ_r by lia. reflexivity. }
    rewrite Hpow in Hx, Hy.
    assert (Hx' : 0 <= x / 10 < 10 ^ Z.of_nat w).
    { split; [apply Z.div_pos; lia | apply Z.div_lt_upper_bound; lia]. }
    assert (Hy' : 0 <= y / 10 < 10 ^ Z.of_nat w).
    { split; [apply Z.div_pos; lia | apply Z.div_lt_upper_bound; lia]. }
    simpl digits. rewrite !append_assoc. simpl append.
    rewrite (IH (x / 10) (y / 10) _ _ Hx' Hy').
    rewrite compare_cons, compare_digit.
    rewrite (compare_div_mod x y), lex_assoc. reflexivity.
Qed.

(** The timestamps of two clock readings from the year 1000 on compare, as
    strings, like the readings: later readings give greater strings. *)
Lemma strftime_sortable (a b : datetime) :
  datetime_valid a -> datetime_valid b ->
  1000 <= year a -> 1000 <= year b ->
  String.compare (strftime a) (strftime b) = datetime_compare a b.
Proof.
  intros [Hy [Hm [Hd [Hh [Hmi Hs]]]]] [Hy' [Hm' [Hd' [Hh' [Hmi' Hs']]]]] Ya Yb.
  unfold strftime, datetime_compare.
  rewrite (year_digits_four _ Ya), (year_digits_four _ Yb).
  rewrite <- (append_empty (digits 2 (second a))).
  rewrite <- (append_empty (digits 2 (second b))).
  rewrite (compare_digits 4) by (simpl; lia).
  do 5 (rewrite (compare_digits 2) by (simpl; lia)).
  change (String.compare EmptyString EmptyString) with Eq.
  destruct (second a ?= second b); reflexivity.
Qed.

(** ** The resolver inside [from_dict] *)

Lemma select_train_policy_dict
  (config : Config.t) (train policy_data : pydict) :
  dict_get "train_policy" train = Some (VDict policy_data) ->
  (has_discriminator policy_data ->
   select_train_policy config train =
   (train, Ok (Config.set_train_policy config fresh_grpo)))
  /\ (~ has_discriminator policy_data ->
      select_train_policy config train =
      (train, Ok (Config.set_train_policy config fresh_sft))).
Proof.
  intros Hget.
  destruct (any_in_discriminators policy_data) as [Hyes Hno].
  unfold select_train_policy, bindM, this, load, lift, dict_mem.
  rewrite Hget. cbv beta iota. rewrite Hget. cbv beta iota.
  split; intros H.
  - rewrite (Hyes H). reflexivity.
  - rewrite (Hno H). reflexivity.
Qed.

(** ** [from_dict] *)

Section FromDictFacts.
Variable update : Config.t -> pydict -> result Config.t.
Variable now : datetime.

Lemma from_dict_unfold (config_data : pydict) :
  from_dict update now config_data =
  match prepare now config_data with
  | (config_data', Ok config) =>
      (config_data', config' <- update config config_data' ;; validate config')
  | (config_data', Raise e) => (config_data', Raise e)
  end.
Proof.
  unfold from_dict, bindM, this, lift.
  destruct (prepare now config_data) as [d [config | e]]; [| reflexivity].
  destruct (update config d); reflexivity.
Qed.

(** The state the mapping is left in is settled before the update. *)
Lemma from_dict_mapping (config_data : pydict) :
  fst (from_dict update now config_data) = fst (prepare now config_data).
Proof.
  rewrite from_dict_unfold.
  destruct (prepare now config_data) as [d [config | e]]; reflexivity.
Qed.

(** A training section with no timestamp and a base directory: both
    entries are written, then the update and the validation run. *)
Lemma from_dict_stamps (config_data train : pydict) (base : string) :
  dict_get "train" config_data = Some (VDict train) ->
  timestamp_unset train ->
  dict_get "output_dir" train = Some (VStr base) ->
  let train' :=
    dict_set "output_dir" (VStr (path_join base (strftime now)))
      (dict_set "timestamp" (VStr (strftime now)) train) in
  let config_data' := dict_set "train" (VDict train') config_data in
  from_dict update now config_data =
  (config_data',
   config <- snd (select_train_policy default_config train') ;;
   config <- update config config_data' ;;
   validate config).
Proof.
  intros Ht Hu Ho train' config_data'.
  rewrite from_dict_unfold, (prepare_train now config_data train Ht).
  rewrite (stamp_unset now train Hu), Ho. fold train'. fold config_data'.
  destruct (snd (select_train_policy default_config train')); reflexivity.
Qed.

(** A training section that carries a timestamp: nothing is written. *)
Lemma from_dict_stamped (config_data train : pydict) :
  dict_get "train" config_data = Some (VDict train) ->
  ~ timestamp_unset train ->
  from_dict update now config_data =
  (config_data,
   config <- snd (select_train_policy default_config train) ;;
   config <- update config config_data ;;
   validate config).
Proof.
  intros Ht Hu.
  rewrite from_dict_unfold, (prepare_train now config_data train Ht).
  rewrite (stamp_kept now train Hu), (dict_set_same _ _ _ Ht).
  destruct (snd (select_train_policy default_config train)); reflexivity.
Qed.

(** No training section: nothing is written and no timestamp is made. *)
Lemma from_dict_no_train (config_data : pydict) :
  dict_mem "train" config_data = false ->
  from_dict update now config_data =
  (config_data, config <- update default_config config_data ;; validate config).
Proof.
  intros H. rewrite from_dict_unfold, (prepare_no_train now config_data H).
  reflexivity.
Qed.
End FromDictFacts.

(** Merging a second time, at any later time, the mapping the first merge
    left behind: the mapping stays as it is and the outcome is the one of
    the first merge. *)
Lemma from_dict_again
  (update : Config.t -> pydict -> result Config.t) (now later : datetime)
  (config_data config_data' : pydict) (config : Config.t) :
  prepare now config_data = (config_data', Ok config) ->
  from_dict update later config_data' = from_dict update now config_data.
Proof.
  intros H. rewrite (from_dict_unfold update now config_data), H.
  destruct (dict_get "train" config_data) as [v |] eqn:Ht.
  - destruct v;
      try (rewrite (prepare_not_dict now config_data _ Ht) in H;
           [discriminate | intros t; discriminate]).
    rename entries into train.
    rewrite (prepare_train now config_data train Ht) in H.
    destruct (stamp_output_dir now train) as [train' [[] | e]] eqn:Hs;
      [| discriminate].
    inversion H as [[Hd Hc]].
    assert (Ht' : dict_get "train"
                    (dict_set "train" (VDict train') config_data)
                  = Some (VDict train')) by apply dict_get_set_same.
    rewrite from_dict_unfold, (prepare_train later _ train' Ht').
    rewrite (stamp_again now later train train' _ Hs).
    rewrite dict_set_twice, Hc. reflexivity.
  - assert (Hm : dict_mem "train" config_data = false).
    { unfold dict_mem. rewrite Ht. reflexivity. }
    rewrite (prepare_no_train now config_data Hm) in H.
    inversion H; subst.
    rewrite from_dict_unfold, (prepare_no_train later config_data' Hm).
    reflexivity.
Qed.





(** C2 (where the code departs from it): on a training section whose
    timestamp is missing or empty and which has no [output_dir] entry,
    [from_dict] writes the timestamp into the mapping and then raises
    [KeyError] on reading [config_data["train"]["output_dir"]], whatever the
    update helper and the clock are: no output directory is derived, the
    default base directory of the tree is not consulted. *)
Theorem C2_missing_output_dir
  (update : Config.t -> pydict -> result Config.t) (now : datetime)
  (config_data train : pydict) :
  dict_get "train" config_data = Some (VDict train) ->
  timestamp_unset train ->
  dict_get "output_dir" train = None ->
  from_dict update now config_data =
  (dict_set "train"
     (VDict (dict_set "timestamp" (VStr (strftime now)) train)) config_data,
   Raise (KeyError "output_dir")).
Proof.
  intros Ht Hu Ho.
  rewrite from_dict_unfold, (prepare_train now config_data train Ht).
  rewrite (stamp_unset now train Hu), Ho. reflexivity.
Qed.

Lemma C2_missing_output_dir_witness :
  from_dict no_update noon [("train", VDict [])] =
  ([("train", VDict [("timestamp", VStr "20250601120000")])],
   Raise (KeyError "output_dir"))
  /\ from_dict no_update noon
       [("train",
         VDict [("train_policy",
                 VDict [("temperature", VFloat (Float "0.7"))])])] =
     ([("train",
        VDict [("train_policy",
                VDict [("temperature", VFloat (Float "0.7"))]);
               ("timestamp", VStr "20250601120000")])],
      Raise (KeyError "output_dir")).
Proof.
  split.
  - apply (C2_missing_output_dir no_update noon [("train", VDict [])] []);
      [reflexivity | left; reflexivity | reflexivity].
  - apply (C2_missing_output_dir no_update noon
             [("train",
               VDict [("train_policy",
                       VDict [("temperature", VFloat (Float "0.7"))])])]
             [("train_policy",
               VDict [("temperature", VFloat (Float "0.7"))])]);
      [reflexivity | left; reflexivity | reflexivity].
Defined.

(** After such a failed call the mapping carries the timestamp: a second
    call skips the timestamp block, does not raise [KeyError] and goes on
    to the update with the output directory never derived. *)
Lemma from_dict_after_missing_output_dir
  (update : Config.t -> pydict -> result Config.t) (now later : datetime)
  (config_data train : pydict) :
  dict_get "train" config_data = Some (VDict train) ->
  timestamp_unset train ->
  dict_get "output_dir" train = None ->
  let train' := dict_set "timestamp" (VStr (strftime now)) train in
  let config_data' := dict_set "train" (VDict train') config_data in
  from_dict update later config_data' =
  (config_data',
   config <- snd (select_train_policy default_config train') ;;
   config <- update config config_data' ;;
   validate config).
Proof.
  intros Ht Hu Ho train' config_data'.
  apply from_dict_stamped.
  - apply dict_get_set_same.
  - assert (Hs : stamp_output_dir now train =
                 (train', Raise (KeyError "output_dir"))).
    { rewrite (stamp_unset now train Hu), Ho. reflexivity. }
    exact (proj1 (stamp_sets_timestamp now train train' _ Hs)).
Qed.

(** C10 (where the code departs from it): [from_dict] writes into the
    mapping it is given, before it updates and validates and so whatever
    their outcome.  When the mapping has a training section whose timestamp
    is missing or empty, the section is left with the synthesized
    timestamp.  When the section has a string [output_dir], that entry is
    replaced by the joined directory and nothing else changes.  When it
    has no [output_dir], only the timestamp is written: no directory is
    derived, the section is left without one and the call ends in
    [KeyError].  A mapping without a training section is left as it
    was. *)
Theorem C10_mapping_mutation
  (update : Config.t -> pydict -> result Config.t) (now : datetime)
  (config_data : pydict) :
  (forall train,
     dict_get "train" config_data = Some (VDict train) ->
     timestamp_unset train ->
     exists train',
       fst (from_dict update now config_data) =
       dict_set "train" (VDict train') config_data
       /\ dict_get "timestamp" train' = Some (VStr (strftime now))
       /\ (forall base,
             dict_get "output_dir" train = Some (VStr base) ->
             train' =
             dict_set "output_dir" (VStr (path_join base (strftime now)))
               (dict_set "timestamp" (VStr (strftime now)) train))
       /\ (dict_get "output_dir" train = None ->
           train' = dict_set "timestamp" (VStr (strftime now)) train
           /\ dict_get "output_dir" train' = None
           /\ snd (from_dict update now config_data) =
              Raise (KeyError "output_dir")))
  /\ (dict_mem "train" config_data = false ->
      fst (from_dict update now config_data) = config_data).
Proof.
  split.
  - intros train Ht Hu.
    rewrite from_dict_unfold, (prepare_train now config_data train Ht).
    destruct (stamp_output_dir now train) as [train' r] eqn:Hs.
    exists train'. split; [destruct r as [[] | e]; [| reflexivity] |].
    { destruct (snd (select_train_policy default_config train'));
        reflexivity. }
    split; [| split].
    + exact (proj2 (stamp_sets_timestamp now train train' r Hs) Hu).
    + intros base Ho. rewrite (stamp_unset now train Hu), Ho in Hs.
      inversion Hs. reflexivity.
    + intros Ho. rewrite (stamp_unset now train Hu), Ho in Hs.
      inversion Hs as [[Ht' Hr]]. split; [reflexivity |].
      split; [| reflexivity].
      rewrite dict_get_set_other by discriminate. exact Ho.
  - intros H. rewrite (from_dict_no_train update now config_data H).
    reflexivity.
Qed.

Lemma C10_mapping_mutation_witness :
  fst (from_dict no_update noon
         [("train", VDict [("output_dir", VStr "./outputs")])]) =
  [("train", VDict [("output_dir", VStr "./outputs/20250601120000");
                    ("timestamp", VStr "20250601120000")])]
  /\ from_dict no_update noon [("train", VDict [])] =
     ([("train", VDict [("timestamp", VStr "20250601120000")])],
      Raise (KeyError "output_dir"))
  /\ fst (from_dict no_update noon [("policy", VDict [])]) =
     [("policy", VDict [])].
Proof.
  split; [| split].
  - destruct (C10_mapping_mutation no_update noon
                [("train", VDict [("output_dir", VStr "./outputs")])])
      as [H _].
    destruct (H [("output_dir", VStr "./outputs")] eq_refl
                (or_introl eq_refl)) as [train' [Hm [_ [Ho _]]]].
    rewrite Hm, (Ho "./outputs" eq_refl). reflexivity.
  - destruct (C10_mapping_mutation no_update noon [("train", VDict [])])
      as [H _].
    destruct (H [] eq_refl (or_introl eq_refl)) as [train' [Hm [_ [_ Ho]]]].
    destruct (Ho eq_refl) as [Ht' [_ Hr]].
    rewrite (surjective_pairing (from_dict no_update noon [("train", VDict [])])).
    rewrite Hm, Hr, Ht'. reflexivity.
  - destruct (C10_mapping_mutation no_update noon [("policy", VDict [])])
      as [_ H].
    apply H. reflexivity.
Defined.

(** ** What [validate] does not look at *)

Section ValidateFrame.
Variable f : Config.t -> Config.t.
Hypothesis f_policy : forall s, Config.policy (f s) = Config.policy s.
Hypothesis f_batch :
  forall s, TrainingConfig.train_batch_per_replica (Config.train (f s)) =
            TrainingConfig.train_batch_per_replica (Config.train s).
Hypothesis f_train_policy :
  forall s, Config.train_policy (f s) = Config.train_policy s.
Hypothesis f_upload :
  forall s,
    CheckpointConfig.upload_s3 (TrainingConfig.ckpt (Config.train (f s))) =
    CheckpointConfig.upload_s3 (TrainingConfig.ckpt (Config.train s)).
Hypothesis f_set :
  forall s p, f (Config.set_train_policy s p) = Config.set_train_policy (f s) p.

(** A change [f] of the tree that keeps the fields [validate] reads and
    commutes with the assignment of the training policy does not change
    the outcome of [validate]. *)
Lemma validate_frame (self : Config.t) :
  validate (f self) = map_result f (validate self).
Proof.
  unfold validate.
  assert (H1 : check_parallelism (f self) = check_parallelism self).
  { unfold check_parallelism, Config.parallelism. rewrite f_policy.
    reflexivity. }
  assert (H2 : check_pipeline (f self) = check_pipeline self).
  { unfold check_pipeline, Config.parallelism. rewrite f_policy, f_batch.
    reflexivity. }
  assert (H3 : check_reward_function (f self) =
               map_result f (check_reward_function self)).
  { unfold check_reward_function. rewrite f_train_policy.
    destruct (policy_type (Config.train_policy self) =? "grpo")%string;
      [| reflexivity].
    destruct (Config.train_policy self) as [s | g]; [reflexivity |].
    match goal with |- bind (assert ?c _) _ = _ => destruct c end; simpl;
      [rewrite f_set |]; reflexivity. }
  assert (H4 : forall s, normalize_train_split (f s) =
                         f (normalize_train_split s)).
  { intros s. unfold normalize_train_split. rewrite f_train_policy.
    destruct (policy_dataset_train_split (Config.train_policy s));
      [rewrite f_set |]; reflexivity. }
  assert (H5 : forall s, check_upload_s3 (f s) = check_upload_s3 s).
  { intros s. unfold check_upload_s3. rewrite f_upload. reflexivity. }
  rewrite H1, H2, H3.
  destruct (check_parallelism self) as [[] | e]; [simpl | reflexivity].
  destruct (check_pipeline self) as [[] | e]; [simpl | reflexivity].
  destruct (check_reward_function self) as [self' | e]; [simpl | reflexivity].
  rewrite H4, H5.
  destruct (check_upload_s3 (normalize_train_split self')) as [[] | e];
    reflexivity.
Qed.
End ValidateFrame.

Lemma validate_with_async_tp (self : Config.t) (async_tp comp : bool) :
  validate (with_async_tp self async_tp comp) =
  map_result (fun c => with_async_tp c async_tp comp) (validate self).
Proof.
  apply (validate_frame (fun c => with_async_tp c async_tp comp));
    intros [[] ? ? ? ? ? ?]; reflexivity.
Qed.

Lemma validate_with_save (self : Config.t) (freq : Z) (mode : string) :
  validate (with_save self freq mode) =
  map_result (fun c => with_save c freq mode) (validate self).
Proof.
  apply (validate_frame (fun c => with_save c freq mode));
    intros [[? []] ? ? ? ? ? ?]; reflexivity.
Qed.

(** What the post-init hook of the training section checks. *)
Lemma TrainingConfig_post_init_async (self : TrainingConfig.t) :
  is_ok (CheckpointConfig.post_init (TrainingConfig.ckpt self)) = true ->
  (TrainingConfig.post_init self =
   Raise (ValueError
            "Async tensor parallelism requires torch.compile to be enabled")
   <-> TrainingConfig.async_tp_enabled self = true
       /\ TrainingConfig.compile self = false).
Proof.
  unfold TrainingConfig.post_init.
  destruct (CheckpointConfig.post_init (TrainingConfig.ckpt self));
    [intros _; simpl | discriminate].
  destruct (TrainingConfig.async_tp_enabled self),
           (TrainingConfig.compile self); simpl;
    split; try discriminate; try tauto; intros [? ?]; discriminate.
Qed.

(** What the post-init hook of the checkpoint section checks. *)
Lemma CheckpointConfig_post_init_ok (self : CheckpointConfig.t) :
  CheckpointConfig.post_init self = Ok self
  <-> (CheckpointConfig.save_mode self = "async"
       \/ CheckpointConfig.save_mode self = "sync")
      /\ 0 < CheckpointConfig.save_freq self.
Proof.
  unfold CheckpointConfig.post_init. simpl.
  destruct (String.eqb_spec (CheckpointConfig.save_mode self) "async") as [Ha | Ha];
    [| destruct (String.eqb_spec (CheckpointConfig.save_mode self) "sync")
         as [Hs | Hs]]; simpl.
  3:{ split; [discriminate | intros [[H | H] _]; contradiction]. }
  all: destruct (Z.leb_spec (CheckpointConfig.save_freq self) 0);
    [unfold str_of_int; destruct (int_fits _); simpl |];
    split; try discriminate; try lia; auto.
Qed.

Lemma CheckpointConfig_post_init_raises (self : CheckpointConfig.t) (e : exn) :
  CheckpointConfig.post_init self = Raise e -> exists msg, e = ValueError msg.
Proof.
  unfold CheckpointConfig.post_init.
  destruct (negb _); [intros H; inversion H; eauto |].
  destruct (_ <=? _); [| discriminate].
  unfold str_of_int. destruct (int_fits _); simpl;
    intros H; inversion H; eauto.
Qed.

Lemma TrainingConfig_post_init_runs_ckpt (self : TrainingConfig.t) (e : exn) :
  CheckpointConfig.post_init (TrainingConfig.ckpt self) = Raise e ->
  TrainingConfig.post_init self = Raise e.
Proof. intros H. unfold TrainingConfig.post_init. rewrite H. reflexivity. Qed.

(** C6 (as amended): the rule is in the post-init hook of the training
    section, not in [validate].  Once the checkpoint hook passes, the hook
    raises a [ValueError] exactly when async tensor parallelism is on and
    compilation is off, and returns otherwise, with both flags on in
    particular; the outcome of [validate] is the same whatever the two
    flags are. *)
Theorem C6_async_tp_rule (self : Config.t) (async_tp comp : bool) :
  (is_ok (CheckpointConfig.post_init
            (TrainingConfig.ckpt (Config.train self))) = true ->
   TrainingConfig.post_init
     (Config.train (with_async_tp self async_tp comp)) =
   if async_tp && negb comp
   then Raise (ValueError
                 "Async tensor parallelism requires torch.compile to be enabled")
   else Ok (Config.train (with_async_tp self async_tp comp)))
  /\ validate (with_async_tp self async_tp comp) =
     map_result (fun c => with_async_tp c async_tp comp) (validate self).
Proof.
  split; [| apply validate_with_async_tp].
  destruct self as [[] ? ? ? ? ? ?]. unfold TrainingConfig.post_init. simpl.
  destruct (CheckpointConfig.post_init ckpt); [intros _ | discriminate].
  destruct async_tp, comp; reflexivity.
Qed.

Lemma C6_async_tp_rule_witness :
  TrainingConfig.post_init
    (Config.train (with_async_tp default_config true false)) =
  Raise (ValueError
           "Async tensor parallelism requires torch.compile to be enabled")
  /\ TrainingConfig.post_init
       (Config.train (with_async_tp default_config true true)) =
     Ok (Config.train (with_async_tp default_config true true)).
Proof.
  split.
  - apply (C6_async_tp_rule default_config true false). reflexivity.
  - apply (C6_async_tp_rule default_config true true). reflexivity.
Defined.

(** C6 (as stated) fails: the default tree with async tensor parallelism on
    and compilation off passes [validate]. *)
Lemma C6_counterexample :
  TrainingConfig.async_tp_enabled
    (Config.train (with_async_tp default_config true false)) = true
  /\ TrainingConfig.compile
       (Config.train (with_async_tp default_config true false)) = false
  /\ validate (with_async_tp default_config true false) =
     Ok (with_async_tp default_config true false).
Proof. repeat split. Qed.

(** C9 (as amended): the rule is in the post-init hook of the checkpoint
    section, not in [validate].  The hook accepts exactly a save mode
    ["async"] or ["sync"] with a positive save frequency and raises a
    [ValueError] otherwise, and the hook of the training section runs it
    first; the outcome of [validate] is the same whatever the two fields
    are. *)
Theorem C9_save_rule (self : Config.t) (freq : Z) (mode : string) :
  let ck := TrainingConfig.ckpt (Config.train (with_save self freq mode)) in
  (CheckpointConfig.post_init ck = Ok ck
   <-> (mode = "async" \/ mode = "sync") /\ 0 < freq)
  /\ (~ ((mode = "async" \/ mode = "sync") /\ 0 < freq) ->
      exists msg,
        CheckpointConfig.post_init ck = Raise (ValueError msg)
        /\ TrainingConfig.post_init
             (Config.train (with_save self freq mode)) =
           Raise (ValueError msg))
  /\ validate (with_save self freq mode) =
     map_result (fun c => with_save c freq mode) (validate self).
Proof.
  intros ck.
  assert (Hok : CheckpointConfig.post_init ck = Ok ck
                <-> (mode = "async" \/ mode = "sync") /\ 0 < freq).
  { rewrite CheckpointConfig_post_init_ok.
    destruct self as [[? []] ? ? ? ? ? ?]. reflexivity. }
  split; [exact Hok |]. split; [| apply validate_with_save].
  intros Hbad.
  destruct (CheckpointConfig.post_init ck) as [ck' | e] eqn:Hp.
  - exfalso. apply Hbad, Hok. f_equal.
    unfold CheckpointConfig.post_init in Hp.
    destruct (negb _); [discriminate |].
    destruct (_ <=? _);
      [unfold str_of_int in Hp; destruct (int_fits _); discriminate |].
    inversion Hp. reflexivity.
  - destruct (CheckpointConfig_post_init_raises ck e Hp) as [msg ->].
    exists msg. split; [reflexivity |].
    apply TrainingConfig_post_init_runs_ckpt. exact Hp.
Qed.

Lemma C9_save_rule_witness :
  (exists msg,
     CheckpointConfig.post_init
       (TrainingConfig.ckpt (Config.train (with_save default_config 0 "async")))
     = Raise (ValueError msg))
  /\ CheckpointConfig.post_init
       (TrainingConfig.ckpt (Config.train (with_save default_config 5 "sync")))
     = Ok (TrainingConfig.ckpt (Config.train (with_save default_config 5 "sync"))).
Proof.
  split.
  - destruct (C9_save_rule default_config 0 "async") as [_ [H _]].
    destruct H as [msg [H _]]; [intros [_ H]; discriminate H |].
    exists msg. exact H.
  - apply (C9_save_rule default_config 5 "sync"). split; [right |]; reflexivity.
Defined.

(** C9 (as stated) fails: the default tree with a save frequency of 0, and
    the default tree with a save mode ["weekly"], pass [validate]. *)
Lemma C9_counterexample :
  validate (with_save default_config 0 "async") =
  Ok (with_save default_config 0 "async")
  /\ validate (with_save default_config 20 "weekly") =
     Ok (with_save default_config 20 "weekly").
Proof. split; reflexivity. Qed.

(** ** The JSON encoder *)









(** ** [asdict] *)






(** ** The digest *)




(** Test vectors of RFC 1321. *)
Lemma md5_test_vectors :
  MD5.hexdigest (encode EmptyString) = "d41d8cd98f00b204e9800998ecf8427e"
  /\ MD5.hexdigest (encode "abc") = "900150983cd24fb0d6963f7d28e17f72"
  /\ MD5.hexdigest (encode "message digest") =
     "f96b697d7cb7938d525a2f31aaf161d0".
Proof. repeat split; vm_compute; reflexivity. Qed.

(** ** [config_hash] *)



(** The conversion refuses an integer by its size, whatever its sign. *)
Lemma int_fits_spec (n : Z) :
  int_fits n = true <-> - int_limit < n < int_limit.
Proof.
  unfold int_fits. rewrite Z.ltb_lt.
  generalize int_limit. intros limit. lia.
Qed.




(** * Further properties *)

(** ** What [validate] accepts and what it returns *)

Lemma reward_block_result (self : Config.t) :
  (reward_ok self ->
   map_result normalize_train_split (check_reward_function self) =
   Ok (normal_form self))
  /\ (~ reward_ok self -> exists e, check_reward_function self = Raise e).
Proof.
  unfold reward_ok, check_reward_function, normal_form, normalize_train_split.
  destruct self as [[pol ? ? ? ? ? ? ? ? ? ? ? ? ? ? ? ? ? ? ? ? ?] ? ? ? ? ? ?].
  unfold Config.train_policy, Config.set_train_policy. simpl.
  destruct pol as [s | g].
  - destruct s as [ty ? ? ? split ? ? ? ? ? ? ? ? ? ? ? ? ? ?]. simpl.
    destruct (String.eqb_spec ty "grpo") as [-> | Hty].
    + split.
      * intros H. destruct (H eq_refl) as [g [Hg _]]. discriminate Hg.
      * intros _. eexists. reflexivity.
    + split.
      * intros _. destruct split; reflexivity.
      * intros H. exfalso. apply H. intros Heq. contradiction.
  - destruct g as [ty ? ? ? ? split ? ? ? ? ? ? ? ? ? ? ? rf ? ? ? ? ? ? ? ?].
    simpl.
    destruct (String.eqb_spec ty "grpo") as [-> | Hty].
    + destruct rf as [r | [| r rs]]; simpl.
      * split; [intros _; destruct split; reflexivity |].
        intros H. exfalso. apply H. intros _.
        eexists. split; [reflexivity | discriminate].
      * split; [| intros _; eexists; reflexivity].
        intros H. destruct (H eq_refl) as [g [Hg Hne]].
        inversion Hg; subst g. simpl in Hne. congruence.
      * split; [intros _; destruct split; reflexivity |].
        intros H. exfalso. apply H. intros _.
        eexists. split; [reflexivity | discriminate].
    + split.
      * intros _. destruct split; reflexivity.
      * intros H. exfalso. apply H. intros Heq. contradiction.
Qed.

Lemma normal_form_upload_s3 (self : Config.t) :
  CheckpointConfig.upload_s3
    (TrainingConfig.ckpt (Config.train (normal_form self))) =
  CheckpointConfig.upload_s3 (TrainingConfig.ckpt (Config.train self)).
Proof. destruct self as [[] ? ? ? ? ? ?]. reflexivity. Qed.

Lemma validate_accepts (self : Config.t) :
  (validate self = Ok (normal_form self) <-> valid_config self)
  /\ (forall self', validate self = Ok self' -> self' = normal_form self).
Proof.
  assert (Hfwd : forall self', validate self = Ok self' ->
                 self' = normal_form self /\ valid_config self).
  { intros self' Hv. unfold validate in Hv.
    destruct (check_parallelism self) as [[] | e] eqn:H1; [| discriminate].
    destruct (check_pipeline self) as [[] | e] eqn:H2; [| discriminate].
    simpl in Hv.
    destruct (reward_block_result self) as [Hyes Hno].
    destruct (check_reward_function self) as [s1 | e] eqn:H3; [| discriminate].
    simpl in Hv.
    destruct (check_upload_s3 (normalize_train_split s1)) as [[] | e] eqn:H4;
      [| discriminate].
    simpl in Hv. inversion Hv; subst self'. clear Hv.
    assert (Hr : reward_ok self).
    { apply Decidable.not_not.
      - unfold Decidable.decidable, reward_ok.
        destruct (String.eqb_spec
                    (policy_type (Config.train_policy self)) "grpo")
          as [Ht | Ht]; [| left; intros; contradiction].
        destruct (Config.train_policy self) as [s | g].
        + right. intros H. destruct (H Ht) as [g [Hg _]]. discriminate.
        + destruct (reward_list (GrpoConfig.reward_function g)) eqn:Hl.
          * right. intros H. destruct (H Ht) as [g' [Hg Hne]].
            inversion Hg; subst g'. contradiction.
          * left. intros _. exists g. split; [reflexivity | congruence].
      - intros Hn. destruct (Hno Hn) as [e He]. discriminate. }
    pose proof (Hyes Hr) as Hn. simpl in Hn. inversion Hn as [Hnf].
    split; [reflexivity |].
    split; [| split; [| split]].
    - apply check_parallelism_ok. exact H1.
    - intros Hpp. apply (check_pipeline_ok self Hpp). exact H2.
    - exact Hr.
    - intros Hbad.
      destruct (check_upload_s3_spec (normalize_train_split s1)) as [Hy _].
      rewrite Hnf, normal_form_upload_s3 in Hy.
      rewrite Hnf in H4. rewrite (Hy Hbad) in H4. discriminate. }
  split; [split |].
  - intros Hv. exact (proj2 (Hfwd _ Hv)).
  - intros [Hd [Hp [Hr Hu]]]. unfold validate.
    apply check_parallelism_ok in Hd. rewrite Hd. simpl.
    assert (H2 : check_pipeline self = Ok tt).
    { destruct (Z.ltb_spec 1 (ParallelismConfig.pp_size
                                (Config.parallelism self))) as [Hpp | Hpp].
      - apply (check_pipeline_ok self Hpp). exact (Hp Hpp).
      - apply check_pipeline_skipped. exact Hpp. }
    rewrite H2. simpl.
    destruct (reward_block_result self) as [Hyes _].
    pose proof (Hyes Hr) as Hn.
    destruct (check_reward_function self) as [s1 | e]; [| discriminate].
    simpl in *. inversion Hn as [Hnf]. rewrite Hnf.
    destruct (check_upload_s3_spec (normal_form self)) as [_ Hok].
    rewrite normal_form_upload_s3 in Hok. rewrite (Hok Hu). reflexivity.
  - intros self' Hv. exact (proj1 (Hfwd _ Hv)).
Qed.

(** X1: [validate] returns exactly on the trees that meet its four groups
    of conditions, and what it then leaves behind is the tree with the
    split names, and the reward functions of a policy tagged ["grpo"],
    turned into lists, everything else as it was. *)
Theorem X1_validate_accepts (self : Config.t) :
  (validate self = Ok (normal_form self) <-> valid_config self)
  /\ (forall self', validate self = Ok self' -> self' = normal_form self).
Proof. exact (validate_accepts self). Qed.

Lemma X1_validate_accepts_witness :
  validate (grpo_config (OneStr "format")) =
  Ok (normal_form (grpo_config (OneStr "format")))
  /\ normal_form (grpo_config (OneStr "format")) =
     grpo_config (StrList ["format"]).
Proof.
  split; [| reflexivity].
  apply (X1_validate_accepts (grpo_config (OneStr "format"))).
  split; [| split; [| split]].
  - apply check_parallelism_ok. reflexivity.
  - simpl. lia.
  - intros _. eexists. split; [reflexivity | discriminate].
  - intros H. apply upload_s3_invalid_iff in H. discriminate.
Defined.

(** X2: whatever the tree, [validate] fails in one of three ways only: one
    of its ten assertions, the [AttributeError] of reading reward functions
    off a supervised policy, or the [ValueError] of the upload rule.  The
    modulo and the floor division of the pipeline block never divide by
    zero. *)
Theorem X2_validate_errors (self : Config.t) (e : exn) :
  validate self = Raise e ->
  (exists msg, e = AssertionError msg /\ In msg validate_messages)
  \/ e = AttributeError "reward_function"
  \/ e = ValueError
           ("upload_s3 must be one of ['final', 'all'] or False, got "
            ++ str_of_bool_or_str
                 (CheckpointConfig.upload_s3
                    (TrainingConfig.ckpt (Config.train self)))).
Proof.
  intros Hv. unfold validate in Hv.
  destruct (check_parallelism self) as [[] | e1] eqn:H1.
  2:{ simpl in Hv. inversion Hv; subst e1. left.
      unfold check_parallelism in H1. unfold validate_messages.
      repeat match type of H1 with
             | bind (assert ?c ?m) _ = _ =>
                 destruct c; simpl in H1;
                 [| inversion H1; eexists; split;
                    [reflexivity | simpl; tauto]]
             | assert ?c ?m = _ =>
                 destruct c; simpl in H1;
                 [discriminate
                 | inversion H1; eexists; split;
                   [reflexivity | simpl; tauto]]
             end. }
  destruct (check_pipeline self) as [[] | e2] eqn:H2.
  2:{ simpl in Hv. inversion Hv; subst e2. left.
      destruct (check_pipeline_raises self e H2) as [msg [-> Hin]].
      exists msg. split; [reflexivity |].
      unfold validate_messages. apply in_or_app. right.
      apply in_or_app. left. exact Hin. }
  simpl in Hv.
  destruct (check_reward_function self) as [s1 | e3] eqn:H3.
  2:{ simpl in Hv. inversion Hv; subst e3.
      destruct (check_reward_function_raises self e H3) as [-> | ->].
      - left. eexists. split; [reflexivity |].
        unfold validate_messages, pipeline_messages. simpl. tauto.
      - right. left. reflexivity. }
  simpl in Hv.
  destruct (check_upload_s3 (normalize_train_split s1)) as [[] | e4] eqn:H4;
    simpl in Hv; [discriminate |].
  inversion Hv; subst e4. right. right.
  unfold check_upload_s3 in H4.
  rewrite normalize_train_split_ckpt, (check_reward_function_ckpt _ _ H3)
    in H4.
  destruct (truthy _); [| discriminate].
  destruct (negb _); [| discriminate].
  inversion H4. reflexivity.
Qed.

Lemma X2_validate_errors_witness :
  (exists msg,
     AssertionError
       "train_batch / pp_micro_batch_size must be divisible by pp_size" =
     AssertionError msg /\ In msg validate_messages)
  \/ AssertionError
       "train_batch / pp_micro_batch_size must be divisible by pp_size" =
     AttributeError "reward_function"
  \/ AssertionError
       "train_batch / pp_micro_batch_size must be divisible by pp_size" =
     ValueError
       ("upload_s3 must be one of ['final', 'all'] or False, got "
        ++ str_of_bool_or_str
             (CheckpointConfig.upload_s3
                (TrainingConfig.ckpt
                   (Config.train (with_degrees 2 1 3 (-1) 1))))).
Proof. apply (X2_validate_errors (with_degrees 2 1 3 (-1) 1)). reflexivity. Defined.

(** ** Validating twice *)

Lemma normal_form_idempotent (self : Config.t) :
  normal_form (normal_form self) = normal_form self.
Proof.
  destruct self as [[pol ? ? ? ? ? ? ? ? ? ? ? ? ? ? ? ? ? ? ? ? ?] ? ? ? ? ? ?].
  unfold normal_form, Config.train_policy, Config.set_train_policy. simpl.
  destruct pol as [s | g]; [destruct s | destruct g]; simpl.
  - match goal with |- context [reward_list ?v] => destruct v end;
      reflexivity.
  - destruct (type =? "grpo")%string eqn:Ht; simpl; rewrite ?Ht; simpl;
      repeat match goal with
             | |- context [reward_list ?v] =>
                 is_var v; destruct v; simpl
             end; reflexivity.
Qed.

Lemma valid_config_normal_form (self : Config.t) :
  valid_config self -> valid_config (normal_form self).
Proof.
  intros [Hd [Hp [Hr Hu]]].
  assert (Hpol : Config.policy (normal_form self) = Config.policy self).
  { destruct self as [[] ? ? ? ? ? ?]. reflexivity. }
  assert (Hb : TrainingConfig.train_batch_per_replica
                 (Config.train (normal_form self)) =
               TrainingConfig.train_batch_per_replica (Config.train self)).
  { destruct self as [[] ? ? ? ? ? ?]. reflexivity. }
  split; [| split; [| split]].
  - unfold degrees_ok, Config.parallelism in *. rewrite Hpol. exact Hd.
  - unfold pipeline_divisible, Config.parallelism in *. rewrite Hpol, Hb.
    exact Hp.
  - unfold reward_ok in *.
    destruct self as [[pol ? ? ? ? ? ? ? ? ? ? ? ? ? ? ? ? ? ? ? ? ?] ? ? ? ? ? ?].
    unfold normal_form, Config.train_policy, Config.set_train_policy in *.
    simpl in *.
    destruct pol as [s | g]; [destruct s | destruct g]; simpl in *.
    + intros Ht. destruct (Hr Ht) as [g [Hg _]]. discriminate.
    + destruct (String.eqb_spec type "grpo") as [Ht | Ht]; simpl;
        [| intros; contradiction].
      intros _. destruct (Hr Ht) as [g [Hg Hne]].
      inversion Hg; subst g. simpl in Hne.
      eexists. split; [reflexivity |]. simpl.
      destruct reward_function; simpl in *; assumption.
  - rewrite normal_form_upload_s3. exact Hu.
Qed.

(** X3: [validate] is idempotent: a tree it returned passes it again and
    comes back unchanged. *)
Theorem X3_validate_idempotent (self self' : Config.t) :
  validate self = Ok self' -> validate self' = Ok self'.
Proof.
  intros Hv.
  destruct (validate_accepts self) as [Hiff Hnf].
  pose proof (Hnf _ Hv) as ->.
  destruct (validate_accepts (normal_form self)) as [Hiff' _].
  rewrite normal_form_idempotent in Hiff'.
  apply Hiff', valid_config_normal_form, Hiff. exact Hv.
Qed.

Lemma X3_validate_idempotent_witness :
  validate (grpo_config (StrList ["format"])) =
  Ok (grpo_config (StrList ["format"])).
Proof.
  apply (X3_validate_idempotent (grpo_config (OneStr "format"))).
  reflexivity.
Defined.

(** ** Sections and fields [validate] never reads *)

(** X4: [validate] reads nothing of the rollout, logging and profiler
    sections nor of [redis] and [eth_ips]: replacing them changes neither
    whether it fails nor how, so the parallel degrees of the rollout engine
    are never checked. *)
Theorem X4_validate_ignores_sections
  (self : Config.t) (ro : RolloutConfig.t) (lo : LoggingConfig.t)
  (pr : ProfilerConfig.t) (rd ip : string) :
  validate (with_other_sections self ro lo pr rd ip) =
  map_result (fun c => with_other_sections c ro lo pr rd ip) (validate self).
Proof.
  apply (validate_frame (fun c => with_other_sections c ro lo pr rd ip));
    intros [? ? ? ? ? ? ?]; reflexivity.
Qed.

Lemma subscript_dtype (param : string) :
  (param = "bfloat16" \/ param = "float16" \/ param = "float32" ->
   exists d,
     subscript [ ("bfloat16", torch.bfloat16); ("float16", torch.float16);
                 ("float32", torch.float32) ] param = Ok d)
  /\ (~ (param = "bfloat16" \/ param = "float16" \/ param = "float32") ->
      subscript [ ("bfloat16", torch.bfloat16); ("float16", torch.float16);
                  ("float32", torch.float32) ] param = Raise (KeyError param)).
Proof.
  cbn [subscript].
  destruct (String.eqb_spec "bfloat16" param);
    [split; [eauto | intros H; exfalso; apply H; auto] |].
  destruct (String.eqb_spec "float16" param);
    [split; [eauto | intros H; exfalso; apply H; auto] |].
  destruct (String.eqb_spec "float32" param);
    [split; [eauto | intros H; exfalso; apply H; auto] |].
  split; [| reflexivity].
  intros [H | [H | H]]; congruence.
Qed.

(** X5: the dtype properties of the training section are lookups in fixed
    tables: [param_torch_dtype] returns for the three names bfloat16,
    float16 and float32 and raises [KeyError] for any other,
    [fsdp_reduce_torch_dtype] returns for float32 only; [validate] does not
    look at the two names, so a tree with a name outside the tables passes
    it and fails at the lookup. *)
Theorem X5_dtype_lookup (self : Config.t) (param reduce : string) :
  let tr := Config.train (with_dtypes self param reduce) in
  (param = "bfloat16" \/ param = "float16" \/ param = "float32" ->
   exists d, param_torch_dtype tr = Ok d)
  /\ (~ (param = "bfloat16" \/ param = "float16" \/ param = "float32") ->
      param_torch_dtype tr = Raise (KeyError param))
  /\ (reduce = "float32" -> fsdp_reduce_torch_dtype tr = Ok torch.float32)
  /\ (reduce <> "float32" ->
      fsdp_reduce_torch_dtype tr = Raise (KeyError reduce))
  /\ validate (with_dtypes self param reduce) =
     map_result (fun c => with_dtypes c param reduce) (validate self).
Proof.
  intros tr.
  assert (Hp : TrainingConfig.param_dtype tr = param).
  { destruct self as [[] ? ? ? ? ? ?]. reflexivity. }
  assert (Hr : TrainingConfig.fsdp_reduce_dtype tr = reduce).
  { destruct self as [[] ? ? ? ? ? ?]. reflexivity. }
  unfold param_torch_dtype, fsdp_reduce_torch_dtype. rewrite Hp, Hr.
  destruct (subscript_dtype param) as [Hyes Hno].
  split; [exact Hyes |]. split; [exact Hno |].
  split; [intros ->; reflexivity |].
  split.
  - intros Hne. cbn [subscript].
    destruct (String.eqb_spec "float32" reduce); [congruence | reflexivity].
  - apply (validate_frame (fun c => with_dtypes c param reduce));
      intros [[] ? ? ? ? ? ?]; reflexivity.
Qed.

Lemma X5_dtype_lookup_witness :
  (exists d,
     param_torch_dtype
       (Config.train (with_dtypes default_config "float16" "float32")) = Ok d)
  /\ param_torch_dtype
       (Config.train (with_dtypes default_config "fp8" "bfloat16")) =
     Raise (KeyError "fp8")
  /\ fsdp_reduce_torch_dtype
       (Config.train (with_dtypes default_config "fp8" "bfloat16")) =
     Raise (KeyError "bfloat16")
  /\ validate (with_dtypes default_config "fp8" "bfloat16") =
     Ok (with_dtypes default_config "fp8" "bfloat16").
Proof.
  split; [| split; [| split]].
  - apply (X5_dtype_lookup default_config "float16" "float32"). auto.
  - apply (X5_dtype_lookup default_config "fp8" "bfloat16").
    intros [H | [H | H]]; discriminate.
  - apply (X5_dtype_lookup default_config "fp8" "bfloat16"). discriminate.
  - destruct (X5_dtype_lookup default_config "fp8" "bfloat16")
      as [_ [_ [_ [_ H]]]].
    rewrite H. reflexivity.
Defined.

(** ** The post-init hooks of the two policies *)

(** X6: the hook of [SFTDataConfig] never raises; it leaves a positive
    number of loader workers and its prefetch factor as they are, turns any
    other number into 0 with no prefetch factor, touches no other field,
    and running it again changes nothing. *)
Theorem X6_sft_post_init (self : SFTDataConfig.t) :
  exists self',
    SFTDataConfig.post_init self = Ok self'
    /\ 0 <= SFTDataConfig.dataloader_num_workers self'
    /\ (SFTDataConfig.dataloader_num_workers self <= 0 ->
        SFTDataConfig.dataloader_num_workers self' = 0)
    /\ (SFTDataConfig.dataloader_num_workers self' = 0 ->
        SFTDataConfig.dataloader_prefetch_factor self' = None)
    /\ (0 < SFTDataConfig.dataloader_num_workers self -> self' = self)
    /\ self' = SFTDataConfig.set_dataloader self
                 (SFTDataConfig.dataloader_num_workers self')
                 (SFTDataConfig.dataloader_prefetch_factor self')
    /\ SFTDataConfig.post_init self' = Ok self'.
Proof.
  unfold SFTDataConfig.post_init.
  destruct (Z.leb_spec (SFTDataConfig.dataloader_num_workers self) 0).
  - eexists. split; [reflexivity |]. destruct self. simpl in *.
    repeat split; try lia; reflexivity.
  - exists self. split; [reflexivity |].
    destruct (Z.leb_spec (SFTDataConfig.dataloader_num_workers self) 0);
      [lia |].
    destruct self. simpl in *. repeat split; try lia; reflexivity.
Qed.

(** X7: the hook of [GrpoConfig] returns exactly when the variant is
    ["grpo"] or ["dapo"] and raises its assertion otherwise; when it
    returns it has normalized the loader workers as the hook of
    [SFTDataConfig] does, and running it again changes nothing. *)
Theorem X7_grpo_post_init (self : GrpoConfig.t) :
  (~ (GrpoConfig.variant self = "grpo" \/ GrpoConfig.variant self = "dapo") ->
   GrpoConfig.post_init self =
   Raise (AssertionError "variant must be one of ['grpo', 'dapo']"))
  /\ (GrpoConfig.variant self = "grpo" \/ GrpoConfig.variant self = "dapo" ->
      exists self',
        GrpoConfig.post_init self = Ok self'
        /\ 0 <= GrpoConfig.dataloader_num_workers self'
        /\ (GrpoConfig.dataloader_num_workers self <= 0 ->
            GrpoConfig.dataloader_num_workers self' = 0)
        /\ (GrpoConfig.dataloader_num_workers self' = 0 ->
            GrpoConfig.dataloader_prefetch_factor self' = None)
        /\ (0 < GrpoConfig.dataloader_num_workers self -> self' = self)
        /\ self' = GrpoConfig.set_dataloader self
                     (GrpoConfig.dataloader_num_workers self')
                     (GrpoConfig.dataloader_prefetch_factor self')
        /\ GrpoConfig.post_init self' = Ok self').
Proof.
  unfold GrpoConfig.post_init. simpl.
  destruct (String.eqb_spec (GrpoConfig.variant self) "grpo") as [Hg | Hg];
    [| destruct (String.eqb_spec (GrpoConfig.variant self) "dapo")
         as [Hd | Hd]]; simpl.
  3:{ split; [reflexivity | intros [H | H]; contradiction]. }
  all: split; [intros H; exfalso; apply H; auto | intros _].
  all: destruct (Z.leb_spec (GrpoConfig.dataloader_num_workers self) 0).
  all: try (eexists; split; [reflexivity |]; destruct self; simpl in *;
            try rewrite Hg; try rewrite Hd; simpl;
            repeat split; try lia; reflexivity).
  all: exists self; split; [reflexivity |];
    try rewrite Hg; try rewrite Hd; simpl;
    destruct (Z.leb_spec (GrpoConfig.dataloader_num_workers self) 0);
      [lia |];
    destruct self; simpl in *; repeat split; try lia; reflexivity.
Qed.

Lemma X7_grpo_post_init_witness :
  GrpoConfig.post_init
    (GrpoConfig.mk "grpo" "ppo" EmptyString None None (StrList []) false false
       3 (Some 2) EmptyString EmptyString EmptyString EmptyString 1 2
       EmptyString (StrList []) (Float "0.9") (Float "0.2") (Float "0.2")
       OverlongRewardConfig.defaults (Float "0.0") 1 2 10) =
  Raise (AssertionError "variant must be one of ['grpo', 'dapo']")
  /\ exists self',
       GrpoConfig.post_init
         (GrpoConfig.mk "grpo" "dapo" EmptyString None None (StrList []) false
            false (-3) (Some 2) EmptyString EmptyString EmptyString
            EmptyString 1 2 EmptyString (StrList []) (Float "0.9")
            (Float "0.2") (Float "0.2") OverlongRewardConfig.defaults
            (Float "0.0") 1 2 10) = Ok self'
       /\ GrpoConfig.dataloader_num_workers self' = 0
       /\ GrpoConfig.dataloader_prefetch_factor self' = None.
Proof.
  split.
  - apply X7_grpo_post_init. intros [H | H]; discriminate.
  - destruct (X7_grpo_post_init
                (GrpoConfig.mk "grpo" "dapo" EmptyString None None (StrList [])
                   false false (-3) (Some 2) EmptyString EmptyString
                   EmptyString EmptyString 1 2 EmptyString (StrList [])
                   (Float "0.9") (Float "0.2") (Float "0.2")
                   OverlongRewardConfig.defaults (Float "0.0") 1 2 10))
      as [_ H].
    destruct H as [self' [Hp _]]; [right; reflexivity |].
    exists self'. split; [exact Hp |].
    inversion Hp. split; reflexivity.
Defined.

(** ** [key_values] *)

(** X8: [key_values] returns exactly the attributes of the instance whose
    names do not start with an underscore, with the values they hold; on
    the five classes that define it no field is dropped, and the result is
    shallow: the training section of a [Config] comes back as the instance
    itself, so that, unlike [asdict], the result is not JSON
    serializable. *)
Theorem X8_key_values :
  (forall obj k v,
     In (k, v) (key_values obj)
     <-> In (k, v) (instance_dict obj) /\ String.prefix "_" k = false)
  /\ (forall c, key_values (Config_obj c) = instance_dict (Config_obj c))
  /\ (forall c, key_values (TrainingConfig_obj c) =
                instance_dict (TrainingConfig_obj c))
  /\ (forall c, key_values (ParallelismConfig_obj c) =
                instance_dict (ParallelismConfig_obj c))
  /\ (forall c, key_values (PolicyConfig_obj c) =
                instance_dict (PolicyConfig_obj c))
  /\ (forall c, key_values (RolloutConfig_obj c) =
                instance_dict (RolloutConfig_obj c))
  /\ (forall c, dict_get "train" (key_values (Config_obj c)) =
                Some (TrainingConfig_obj (Config.train c)))
  /\ (forall c, json_dumps (VDict (key_values (Config_obj c))) =
                Raise TypeError).
Proof.
  split.
  { intros obj k v. unfold key_values. rewrite filter_In. simpl.
    destruct (String.prefix "_" k); simpl; intuition congruence. }
  repeat split; intros c; reflexivity.
Qed.

(** ** The timestamp and the directory derived from it *)

Lemma digit_is_digit (n : Z) : is_digit_char (digit n) = true.
Proof.
  unfold digit.
  pose proof (Z.mod_pos_bound n 10) as B.
  assert (H : n mod 10 = 0 \/ n mod 10 = 1 \/ n mod 10 = 2 \/ n mod 10 = 3
              \/ n mod 10 = 4 \/ n mod 10 = 5 \/ n mod 10 = 6
              \/ n mod 10 = 7 \/ n mod 10 = 8 \/ n mod 10 = 9) by lia.
  repeat (destruct H as [H | H]); rewrite H; reflexivity.
Qed.

Lemma all_chars_app (p : ascii -> bool) (s t : string) :
  all_chars p (s ++ t) = all_chars p s && all_chars p t.
Proof.
  induction s as [| c s IH]; simpl; [reflexivity |].
  rewrite IH. destruct (p c); reflexivity.
Qed.

Lemma digits_are_digits (width : nat) (n : Z) :
  all_chars is_digit_char (digits width n) = true.
Proof.
  revert n. induction width as [| w IH]; intros n; [reflexivity |].
  cbn [digits]. rewrite all_chars_app, IH. cbn [all_chars andb].
  rewrite digit_is_digit. reflexivity.
Qed.

Lemma strftime_digits (now : datetime) :
  all_chars is_digit_char (strftime now) = true.
Proof.
  unfold strftime, year_digits.
  destruct (_ <? 10); [| destruct (_ <? 100); [| destruct (_ <? 1000)]];
    rewrite !all_chars_app, !digits_are_digits; reflexivity.
Qed.

Lemma digits_not_absolute (s : string) :
  all_chars is_digit_char s = true -> starts_with_sep s = false.
Proof.
  destruct s as [| c rest]; [reflexivity |].
  simpl. intros H. apply andb_true_iff in H. destruct H as [Hc _].
  unfold starts_with_sep. cbn [String.prefix].
  destruct (ascii_dec "/"%char c) as [<- | Hne]; [discriminate Hc |].
  reflexivity.
Qed.

Lemma path_join_digits (base stamp : string) :
  all_chars is_digit_char stamp = true ->
  path_join base stamp = (base ++ join_separator base ++ stamp)%string.
Proof.
  intros H. unfold path_join, join_separator.
  rewrite (digits_not_absolute stamp H).
  destruct ((base =? EmptyString)%string || ends_with_sep base); reflexivity.
Qed.

(** X9: the timestamp [from_dict] writes is made of decimal digits only,
    fourteen of them when the year of the clock has four digits, so
    joining never discards the base directory: on a training section with
    no timestamp and a string [output_dir], the entry [from_dict] leaves in
    the mapping is the base, a slash unless the base is empty or ends with
    one, and the timestamp. *)
Theorem X9_stamped_directory
  (update : Config.t -> pydict -> result Config.t) (now : datetime)
  (config_data train : pydict) (base : string) :
  dict_get "train" config_data = Some (VDict train) ->
  timestamp_unset train ->
  dict_get "output_dir" train = Some (VStr base) ->
  (1000 <= year now <= 9999 -> String.length (strftime now) = 14%nat)
  /\ all_chars is_digit_char (strftime now) = true
  /\ exists train',
       dict_get "train" (fst (from_dict update now config_data)) =
       Some (VDict train')
       /\ dict_get "timestamp" train' = Some (VStr (strftime now))
       /\ dict_get "output_dir" train' =
          Some (VStr (base ++ join_separator base ++ strftime now)).
Proof.
  intros Ht Hu Ho.
  split; [intros [Hy _]; apply strftime_length; exact Hy |].
  split; [apply strftime_digits |].
  rewrite (from_dict_stamps update now config_data train base Ht Hu Ho).
  cbn [fst]. eexists. split; [apply dict_get_set_same |].
  split.
  - rewrite dict_get_set_other by discriminate. apply dict_get_set_same.
  - rewrite dict_get_set_same.
    rewrite (path_join_digits base _ (strftime_digits now)). reflexivity.
Qed.

Lemma X9_stamped_directory_witness :
  String.length (strftime noon) = 14%nat
  /\ exists train',
       dict_get "train"
         (fst (from_dict no_update noon
                 [("train", VDict [("output_dir", VStr "runs/")])])) =
       Some (VDict train')
       /\ dict_get "timestamp" train' = Some (VStr "20250601120000")
       /\ dict_get "output_dir" train' = Some (VStr "runs/20250601120000").
Proof.
  destruct (X9_stamped_directory no_update noon
              [("train", VDict [("output_dir", VStr "runs/")])]
              [("output_dir", VStr "runs/")] "runs/"
              eq_refl (or_introl eq_refl) eq_refl) as [Hl [_ H]].
  split; [apply Hl; simpl; lia | exact H].
Defined.

(** X10: timestamps sort like the times they stand for: for two readings
    of the clock with fields in range, from the year 1000 on, the strings
    [from_dict] makes of them compare as the readings do, so a later run
    gets a greater timestamp.  (Before the year 1000 the year is printed
    with fewer digits and the order of the strings is not that of the
    readings.) *)
Theorem X10_timestamps_sort (a b : datetime) :
  datetime_valid a -> datetime_valid b ->
  1000 <= year a -> 1000 <= year b ->
  String.compare (strftime a) (strftime b) = datetime_compare a b
  /\ (datetime_compare a b = Lt ->
      String.ltb (strftime a) (strftime b) = true)
  /\ (strftime a = strftime b -> a = b).
Proof.
  intros Ha Hb Ya Yb. pose proof (strftime_sortable a b Ha Hb Ya Yb) as Hc.
  split; [exact Hc |]. split.
  - intros Hlt. unfold String.ltb. rewrite Hc, Hlt. reflexivity.
  - intros Heq.
    assert (He : datetime_compare a b = Eq).
    { rewrite <- Hc, Heq.
      clear. induction (strftime b) as [| c s IH]; simpl; [reflexivity |].
      unfold Ascii.compare. rewrite N.compare_refl. exact IH. }
    clear Heq Hc Ha Hb Ya Yb.
    destruct a, b. unfold datetime_compare, lex in He.
    cbn [year month day hour minute second] in He.
    repeat match type of He with
           | match (?x ?= ?y) with _ => _ end = Eq =>
               destruct (Z.compare_spec x y); try discriminate; subst
           | (?x ?= ?y) = Eq => apply Z.compare_eq in He; subst
           end.
    reflexivity.
Qed.

Lemma X10_timestamps_sort_witness :
  String.ltb (strftime noon) (strftime (mk_datetime 2025 6 1 12 0 1)) = true
  /\ String.ltb (strftime (mk_datetime 1000 1 1 0 0 0))
                (strftime (mk_datetime 999 12 31 23 59 59)) = true.
Proof.
  split; [| reflexivity].
  apply (X10_timestamps_sort noon (mk_datetime 2025 6 1 12 0 1)).
  - unfold datetime_valid. simpl. lia.
  - unfold datetime_valid. simpl. lia.
  - simpl. lia.
  - simpl. lia.
  - reflexivity.
Defined.

(** ** Merging again, and what a merge leaves alone *)

(** X11: merging is idempotent on the mapping it leaves behind: when
    [from_dict] returns a tree, calling it again on the same mapping object,
    at any later time, leaves the mapping as it is and returns the same
    tree; the timestamp is made once. *)
Theorem X11_second_merge
  (update : Config.t -> pydict -> result Config.t) (now later : datetime)
  (config_data config_data' : pydict) (config : Config.t) :
  from_dict update now config_data = (config_data', Ok config) ->
  from_dict update later config_data' = (config_data', Ok config).
Proof.
  intros H. pose proof H as H0.
  rewrite from_dict_unfold in H0.
  destruct (prepare now config_data) as [d [c | e]] eqn:Hp;
    [| discriminate].
  assert (d = config_data') by (inversion H0; reflexivity). subst d.
  rewrite (from_dict_again update now later config_data config_data' c Hp).
  exact H.
Qed.

Lemma X11_second_merge_witness :
  from_dict no_update (mk_datetime 2031 1 2 3 4 5)
    [("train", VDict [("output_dir", VStr "./outputs/20250601120000");
                      ("timestamp", VStr "20250601120000")])] =
  ([("train", VDict [("output_dir", VStr "./outputs/20250601120000");
                     ("timestamp", VStr "20250601120000")])],
   Ok default_config).
Proof.
  apply (X11_second_merge no_update noon (mk_datetime 2031 1 2 3 4 5)
           [("train", VDict [("output_dir", VStr "./outputs")])]).
  reflexivity.
Defined.

(** X12: a training section that already carries a timestamp other than
    the empty string is left alone: [from_dict] writes nothing into the
    mapping, the output directory is taken as given, and the outcome is
    that of the update and the validation on the untouched mapping. *)
Theorem X12_timestamp_kept
  (update : Config.t -> pydict -> result Config.t) (now : datetime)
  (config_data train : pydict) (stamp : pyval) :
  dict_get "train" config_data = Some (VDict train) ->
  dict_get "timestamp" train = Some stamp ->
  stamp <> VStr EmptyString ->
  from_dict update now config_data =
  (config_data,
   config <- snd (select_train_policy default_config train) ;;
   config <- update config config_data ;;
   validate config).
Proof.
  intros Ht Hs Hne. apply from_dict_stamped; [exact Ht |].
  intros [Hu | Hu]; rewrite Hs in Hu; [discriminate |].
  inversion Hu. contradiction.
Qed.

Lemma X12_timestamp_kept_witness :
  from_dict no_update noon
    [("train", VDict [("timestamp", VStr "run-7")])] =
  ([("train", VDict [("timestamp", VStr "run-7")])], Ok default_config).
Proof.
  rewrite (X12_timestamp_kept no_update noon
             [("train", VDict [("timestamp", VStr "run-7")])]
             [("timestamp", VStr "run-7")] (VStr "run-7")
             eq_refl eq_refl); [reflexivity | discriminate].
Defined.

(** X13: a training section that is not a mapping makes [from_dict] raise
    [TypeError] before anything is written, updated or validated. *)
Theorem X13_train_not_a_mapping
  (update : Config.t -> pydict -> result Config.t) (now : datetime)
  (config_data : pydict) (section : pyval) :
  dict_get "train" config_data = Some section ->
  (forall train, section <> VDict train) ->
  from_dict update now config_data = (config_data, Raise TypeError).
Proof.
  intros Ht Hn.
  rewrite from_dict_unfold, (prepare_not_dict now config_data section Ht Hn).
  reflexivity.
Qed.

Lemma X13_train_not_a_mapping_witness :
  from_dict no_update noon [("train", VStr "grpo")] =
  ([("train", VStr "grpo")], Raise TypeError).
Proof.
  apply (X13_train_not_a_mapping no_update noon
           [("train", VStr "grpo")] (VStr "grpo") eq_refl).
  intros train. discriminate.
Defined.

Lemma prepare_frame (now : datetime) (config_data : pydict) :
  (forall key, key <> "train" ->
     dict_get key (fst (prepare now config_data)) = dict_get key config_data)
  /\ (forall train,
        dict_get "train" config_data = Some (VDict train) ->
        exists train',
          dict_get "train" (fst (prepare now config_data)) =
          Some (VDict train')
          /\ forall key, key <> "timestamp" -> key <> "output_dir" ->
                         dict_get key train' = dict_get key train).
Proof.
  destruct (dict_get "train" config_data) as [v |] eqn:Ht.
  - destruct v;
      try (rewrite (prepare_not_dict now config_data _ Ht)
             by (intros t; discriminate);
           split; [reflexivity | intros t Hd; discriminate Hd]).
    rename entries into train.
    rewrite (prepare_train now config_data train Ht).
    destruct (stamp_output_dir now train) as [train' r] eqn:Hs.
    assert (Hfst : fst (match r with
                        | Ok _ =>
                            (dict_set "train" (VDict train') config_data,
                             snd (select_train_policy default_config train'))
                        | Raise e =>
                            (dict_set "train" (VDict train') config_data,
                             Raise e)
                        end) = dict_set "train" (VDict train') config_data).
    { destruct r; reflexivity. }
    rewrite Hfst. split.
    + intros key Hk. apply dict_get_set_other. congruence.
    + intros t Hd. inversion Hd; subst t. exists train'.
      split; [apply dict_get_set_same |].
      intros key Hk1 Hk2. exact (stamp_frame now train train' r key Hs Hk1 Hk2).
  - assert (Hm : dict_mem "train" config_data = false).
    { unfold dict_mem. rewrite Ht. reflexivity. }
    rewrite (prepare_no_train now config_data Hm).
    split; [reflexivity | intros t Hd; discriminate Hd].
Qed.

(** X14: of the mapping it is given, [from_dict] can change two entries
    only, the timestamp and the output directory of the training section:
    every other section, and every other entry of the training section,
    is after the call what it was before, whatever the outcome. *)
Theorem X14_mapping_frame
  (update : Config.t -> pydict -> result Config.t) (now : datetime)
  (config_data : pydict) :
  (forall key, key <> "train" ->
     dict_get key (fst (from_dict update now config_data)) =
     dict_get key config_data)
  /\ (forall train,
        dict_get "train" config_data = Some (VDict train) ->
        exists train',
          dict_get "train" (fst (from_dict update now config_data)) =
          Some (VDict train')
          /\ forall key, key <> "timestamp" -> key <> "output_dir" ->
                         dict_get key train' = dict_get key train).
Proof. rewrite from_dict_mapping. apply prepare_frame. Qed.

Lemma X14_mapping_frame_witness :
  exists train',
    dict_get "train"
      (fst (from_dict no_update noon
              [("train", VDict [("epoch", VInt 3)])])) = Some (VDict train')
    /\ dict_get "epoch" train' = Some (VInt 3).
Proof.
  destruct (X14_mapping_frame no_update noon
              [("train", VDict [("epoch", VInt 3)])]) as [_ H].
  destruct (H [("epoch", VInt 3)] eq_refl) as [train' [Ht Hk]].
  exists train'. split; [exact Ht |].
  rewrite (Hk "epoch"); [reflexivity | discriminate | discriminate].
Defined.

(** ** The resolver on a train-policy entry that is not a mapping *)

Lemma prefix_append (sub s : string) :
  String.prefix sub s = true <-> exists after, s = (sub ++ after)%string.
Proof.
  revert s. induction sub as [| c sub IH]; intros s.
  - split; [intros _; exists s; reflexivity |].
    intros _. destruct s; reflexivity.
  - destruct s as [| d s]; simpl.
    + split; [discriminate | intros [after H]; discriminate].
    + destruct (ascii_dec c d) as [<- | Hne].
      * rewrite IH. split; intros [after H]; exists after.
        -- rewrite H. reflexivity.
        -- inversion H. reflexivity.
      * split; [discriminate |]. intros [after H]. inversion H. congruence.
Qed.

Lemma contains_substring (sub s : string) :
  contains sub s = true <-> substring sub s.
Proof.
  unfold substring. induction s as [| d s IH].
  - cbn [contains]. rewrite orb_false_r, prefix_append. split.
    + intros [after H]. exists EmptyString, after. exact H.
    + intros [before [after H]].
      destruct before; [exists after; exact H | discriminate].
  - cbn [contains]. rewrite orb_true_iff, prefix_append, IH. split.
    + intros [[after H] | [before [after H]]].
      * exists EmptyString, after. exact H.
      * exists (String d before), after. rewrite H. reflexivity.
    + intros [before [after H]]. destruct before as [| c before].
      * left. exists after. exact H.
      * right. inversion H. exists before, after. reflexivity.
Qed.

Lemma any_in_str (keys : list string) (s : string) :
  any_in keys (VStr s) = Ok (existsb (fun key => contains key s) keys).
Proof.
  induction keys as [| key rest IH]; [reflexivity |].
  cbn [any_in py_in bind existsb]. rewrite IH.
  destruct (contains key s); reflexivity.
Qed.

Lemma any_in_list (keys : list string) (items : list pyval) :
  any_in keys (VList items) =
  Ok (existsb (fun key => existsb (fun v => eq_str v key) items) keys).
Proof.
  induction keys as [| key rest IH]; [reflexivity |].
  cbn [any_in py_in bind existsb]. rewrite IH.
  destruct (existsb (fun v => eq_str v key) items); reflexivity.
Qed.

Lemma select_train_policy_value
  (config : Config.t) (train : pydict) (v : pyval) :
  dict_get "train_policy" train = Some v ->
  snd (select_train_policy config train) =
  (grpo <- any_in discriminator_keys v ;;
   Ok (Config.set_train_policy config (if grpo then fresh_grpo else fresh_sft))).
Proof.
  intros H.
  cbv beta iota delta
    [select_train_policy bindM this load lift retM dict_mem].
  rewrite H. cbv beta iota. rewrite H. cbv beta iota.
  destruct (any_in discriminator_keys v) as [[] | e]; reflexivity.
Qed.

(** X15: the resolver tests the keys with Python's [in], whatever the
    train-policy entry is.  On a string it is a substring test: a value
    that contains one of the four key names as text selects [GrpoConfig].
    On a list it is an element test.  On [None], a boolean or a number the
    test raises [TypeError]. *)
Theorem X15_resolver_membership
  (config : Config.t) (train : pydict) (v : pyval) :
  dict_get "train_policy" train = Some v ->
  (forall s, v = VStr s ->
     ((exists key, In key discriminator_keys /\ substring key s) ->
      snd (select_train_policy config train) =
      Ok (Config.set_train_policy config fresh_grpo))
     /\ (~ (exists key, In key discriminator_keys /\ substring key s) ->
         snd (select_train_policy config train) =
         Ok (Config.set_train_policy config fresh_sft)))
  /\ (forall items, v = VList items ->
        ((exists key, In key discriminator_keys /\ In (VStr key) items) ->
         snd (select_train_policy config train) =
         Ok (Config.set_train_policy config fresh_grpo))
        /\ (~ (exists key, In key discriminator_keys /\ In (VStr key) items) ->
            snd (select_train_policy config train) =
            Ok (Config.set_train_policy config fresh_sft)))
  /\ ((v = VNone \/ (exists b, v = VBool b) \/ (exists n, v = VInt n)
       \/ (exists f, v = VFloat f)) ->
      snd (select_train_policy config train) = Raise TypeError).
Proof.
  intros Hget. rewrite (select_train_policy_value config train v Hget).
  split; [| split].
  - intros s ->. rewrite any_in_str.
    destruct (existsb (fun key => contains key s) discriminator_keys) eqn:He.
    + split; [reflexivity |]. intros Hn. exfalso. apply Hn.
      apply existsb_exists in He. destruct He as [key [Hin Hc]].
      exists key. split; [exact Hin | apply contains_substring; exact Hc].
    + split; [| reflexivity]. intros [key [Hin Hs]].
      assert (Ht : existsb (fun key => contains key s) discriminator_keys
                   = true).
      { apply existsb_exists. exists key.
        split; [exact Hin | apply contains_substring; exact Hs]. }
      congruence.
  - intros items ->. rewrite any_in_list.
    assert (Hmem : forall key,
              existsb (fun v => eq_str v key) items = true
              <-> In (VStr key) items).
    { intros key. rewrite existsb_exists. split.
      - intros [x [Hin Hx]]. destruct x; simpl in Hx; try discriminate.
        apply String.eqb_eq in Hx. subst. exact Hin.
      - intros Hin. exists (VStr key). split; [exact Hin |].
        simpl. apply String.eqb_refl. }
    destruct (existsb (fun key => existsb (fun v => eq_str v key) items)
                      discriminator_keys) eqn:He.
    + split; [reflexivity |]. intros Hn. exfalso. apply Hn.
      apply existsb_exists in He. destruct He as [key [Hin Hc]].
      exists key. split; [exact Hin | apply Hmem; exact Hc].
    + split; [| reflexivity]. intros [key [Hin Hs]].
      assert (Ht : existsb (fun key => existsb (fun v => eq_str v key) items)
                           discriminator_keys = true).
      { apply existsb_exists. exists key.
        split; [exact Hin | apply Hmem; exact Hs]. }
      congruence.
  - intros [-> | [[b ->] | [[n ->] | [f ->]]]]; reflexivity.
Qed.

Lemma X15_resolver_membership_witness :
  snd (select_train_policy default_config
         [("train_policy", VStr "low temperature run")]) =
  Ok (Config.set_train_policy default_config fresh_grpo)
  /\ snd (select_train_policy default_config [("train_policy", VInt 1)]) =
     Raise TypeError.
Proof.
  destruct (X15_resolver_membership default_config
              [("train_policy", VStr "low temperature run")]
              (VStr "low temperature run") eq_refl) as [Hs _].
  destruct (X15_resolver_membership default_config
              [("train_policy", VInt 1)] (VInt 1) eq_refl) as [_ [_ Hn]].
  split.
  - apply (Hs _ eq_refl). exists "temperature". split; [left; reflexivity |].
    exists "low ", " run". reflexivity.
  - apply Hn. right. right. left. exists 1. reflexivity.
Defined.

(** ** The four keys and the two classes *)

(** X16: each of the four keys names a field of [GrpoConfig] and no field
    of [SFTDataConfig], so a key of a supervised policy never selects the
    reinforcement class; the converse fails: [reward_function] is a field
    of [GrpoConfig] only and a sub-mapping that mentions it alone is
    resolved as supervised. *)
Theorem X16_discriminators_and_fields
  (g : GrpoConfig.t) (s : SFTDataConfig.t) :
  (forall key, In key discriminator_keys ->
     dict_mem key (instance_dict (GrpoConfig_obj g)) = true
     /\ dict_mem key (instance_dict (SFTDataConfig_obj s)) = false)
  /\ dict_mem "reward_function" (instance_dict (GrpoConfig_obj g)) = true
  /\ dict_mem "reward_function" (instance_dict (SFTDataConfig_obj s)) = false
  /\ (forall config train rewards,
        dict_get "train_policy" train =
        Some (VDict [("reward_function", rewards)]) ->
        select_train_policy config train =
        (train, Ok (Config.set_train_policy config fresh_sft))).
Proof.
  split; [| split; [reflexivity | split; [reflexivity |]]].
  - intros key [<- | [<- | [<- | [<- | []]]]]; split; reflexivity.
  - intros config train rewards Hget.
    apply (select_train_policy_dict config train _ Hget).
    intros [H | [H | [H | H]]]; discriminate.
Qed.

Lemma X16_discriminators_and_fields_witness :
  select_train_policy default_config
    [("train_policy", VDict [("reward_function", VList [VStr "format"])])] =
  ([("train_policy", VDict [("reward_function", VList [VStr "format"])])],
   Ok (Config.set_train_policy default_config fresh_sft)).
Proof.
  destruct (X16_discriminators_and_fields
              (GrpoConfig.defaults OverlongRewardConfig.defaults)
              SFTDataConfig.defaults) as [_ [_ [_ H]]].
  apply (H default_config
           [("train_policy",
             VDict [("reward_function", VList [VStr "format"])])]
           (VList [VStr "format"]) eq_refl).
Defined.

(** ** What the hash can tell apart *)

Lemma json_dumps_shape (obj : pyval) :
  json_dumps (asdict_inner obj) = json_dumps (shape obj).
Proof.
  induction obj as [ | b | n | f | s | items IH | items IH | entries IH
                     | cls fields IH | cls | cls ] using pyval_induction;
    try reflexivity; cbn [asdict_inner shape json_dumps]; f_equal.
  - induction IH as [| v rest Hv _ IHrest]; [reflexivity |].
    cbn [map]. rewrite Hv, IHrest. reflexivity.
  - induction IH as [| v rest Hv _ IHrest]; [reflexivity |].
    cbn [map]. rewrite Hv, IHrest. reflexivity.
  - induction IH as [| [k v] rest Hv _ IHrest]; [reflexivity |].
    cbn [map snd] in *. rewrite Hv, IHrest. reflexivity.
  - induction IH as [| [k v] rest Hv _ IHrest]; [reflexivity |].
    cbn [map snd] in *. rewrite Hv, IHrest. reflexivity.
Qed.

Lemma config_hash_shape (cls : string) (fields : pydict) :
  config_hash (VData cls fields) =
  (text <- json_dumps (shape (VData cls fields)) ;;
   Ok (MD5.hexdigest (encode text))).
Proof. rewrite <- json_dumps_shape. reflexivity. Qed.

(** X17: the hash of an instance depends only on the names and values of
    its fields, in order, nested instances counting as dicts of their
    fields and tuples as lists: two instances of the same shape get the
    same outcome from [config_hash], in particular instances of different
    classes with equal fields, such as the parallelism sections of the
    policy model and of the rollout engine. *)
Theorem X17_hash_depends_on_shape
  (cls cls' : string) (fields fields' : pydict) :
  shape (VData cls fields) = shape (VData cls' fields') ->
  config_hash (VData cls fields) = config_hash (VData cls' fields').
Proof. intros H. rewrite !config_hash_shape, H. reflexivity. Qed.

Lemma X17_hash_depends_on_shape_witness :
  config_hash (ParallelismConfig_obj ParallelismConfig.defaults) =
  config_hash (RolloutParallelismConfig_obj RolloutParallelismConfig.defaults)
  /\ config_hash
       (VData "TrainingConfig"
          [("optm_betas", VTuple [VFloat (Float "0.9"); VFloat (Float "0.999")])])
     = config_hash
         (VData "Overrides"
            [("optm_betas", VList [VFloat (Float "0.9"); VFloat (Float "0.999")])]).
Proof.
  split.
  - apply X17_hash_depends_on_shape. reflexivity.
  - apply X17_hash_depends_on_shape. reflexivity.
Defined.

(** ** The tree handed to the update, and the tree returned *)

Lemma select_train_policy_outcomes (config : Config.t) (train : pydict) :
  forall config',
    snd (select_train_policy config train) = Ok config' ->
    config' = config
    \/ config' = Config.set_train_policy config fresh_grpo
    \/ config' = Config.set_train_policy config fresh_sft.
Proof.
  intros config'.
  destruct (dict_get "train_policy" train) as [v |] eqn:Hget.
  - rewrite (select_train_policy_value config train v Hget).
    destruct (any_in discriminator_keys v) as [[] | e]; simpl;
      intros H; inversion H; auto.
  - cbv beta iota delta
      [select_train_policy bindM this load lift retM dict_mem].
    rewrite Hget. cbv beta iota. intros H; inversion H; auto.
Qed.

(** X18: before the general update, [from_dict] itself changes nothing of
    the default tree but the training policy: the tree it hands on is the
    default tree, or the default tree with a fresh [GrpoConfig]; the
    timestamp and the output directory it wrote into the mapping reach the
    tree through the update only. *)
Theorem X18_tree_before_update
  (now : datetime) (config_data config_data' : pydict) (config : Config.t) :
  prepare now config_data = (config_data', Ok config) ->
  (config = default_config
   \/ config = Config.set_train_policy default_config fresh_grpo)
  /\ TrainingConfig.timestamp (Config.train config) = EmptyString
  /\ TrainingConfig.output_dir (Config.train config) = "./outputs".
Proof.
  intros H.
  assert (Hc : config = default_config
               \/ config = Config.set_train_policy default_config fresh_grpo).
  { destruct (dict_get "train" config_data) as [v |] eqn:Ht.
    - destruct v;
        try (rewrite (prepare_not_dict now config_data _ Ht) in H
               by (intros t; discriminate);
             discriminate H).
      rewrite (prepare_train now config_data entries Ht) in H.
      destruct (stamp_output_dir now entries) as [train' [[] | e]];
        [| discriminate H].
      inversion H as [[Hd Hs]].
      destruct (select_train_policy_outcomes default_config train' config Hs)
        as [-> | [-> | ->]]; auto.
    - assert (Hm : dict_mem "train" config_data = false).
      { unfold dict_mem. rewrite Ht. reflexivity. }
      rewrite (prepare_no_train now config_data Hm) in H.
      inversion H. auto. }
  split; [exact Hc |]. destruct Hc as [-> | ->]; split; reflexivity.
Qed.

Lemma X18_tree_before_update_witness :
  TrainingConfig.timestamp
    (Config.train (Config.set_train_policy default_config fresh_grpo)) =
  EmptyString.
Proof.
  apply (X18_tree_before_update noon
           [("train",
             VDict [("output_dir", VStr "./outputs");
                    ("train_policy", VDict [("kl_beta", VFloat (Float "0.1"))])])]
           [("train",
             VDict [("output_dir", VStr "./outputs/20250601120000");
                    ("train_policy", VDict [("kl_beta", VFloat (Float "0.1"))]);
                    ("timestamp", VStr "20250601120000")])]).
  reflexivity.
Defined.

(** X19: every tree [from_dict] returns has passed [validate]: it meets
    all its conditions, its split names, and the reward functions of a
    policy tagged ["grpo"], are lists, and validating it again returns it
    unchanged. *)
Theorem X19_returned_tree_is_valid
  (update : Config.t -> pydict -> result Config.t) (now : datetime)
  (config_data config_data' : pydict) (config : Config.t) :
  from_dict update now config_data = (config_data', Ok config) ->
  valid_config config
  /\ normal_form config = config
  /\ validate config = Ok config.
Proof.
  intros H. rewrite from_dict_unfold in H.
  destruct (prepare now config_data) as [d [c | e]]; [| discriminate H].
  destruct (update c d) as [merged | e]; [| discriminate H].
  simpl in H. inversion H as [[Hd Hv]]. rewrite Hv.
  destruct (validate_accepts merged) as [Hiff Hnf].
  pose proof (Hnf _ Hv) as ->.
  assert (Hvalid : valid_config (normal_form merged)).
  { apply valid_config_normal_form, Hiff. exact Hv. }
  split; [exact Hvalid |]. split; [apply normal_form_idempotent |].
  destruct (validate_accepts (normal_form merged)) as [Hiff' _].
  rewrite normal_form_idempotent in Hiff'. apply Hiff'. exact Hvalid.
Qed.

Lemma X19_returned_tree_is_valid_witness :
  let config :=
    normal_form
      (Config.set_train_policy default_config
         (Grpo (GrpoConfig.set_reward_function
                  (GrpoConfig.defaults OverlongRewardConfig.defaults)
                  (OneStr "single_choice")))) in
  snd (from_dict update_reward_function noon
         [("train",
           VDict [("output_dir", VStr "./outputs");
                  ("train_policy",
                   VDict [("kl_beta", VFloat (Float "0.1"));
                          ("reward_function", VStr "single_choice")])])]) =
  Ok config
  /\ (exists g,
        Config.train_policy config = Grpo g
        /\ GrpoConfig.reward_function g = StrList ["single_choice"])
  /\ valid_config config
  /\ normal_form config = config
  /\ validate config = Ok config.
Proof.
  intros config.
  split; [vm_compute; reflexivity |].
  split; [eexists; split; reflexivity |].
  apply (X19_returned_tree_is_valid update_reward_function noon
           [("train",
             VDict [("output_dir", VStr "./outputs");
                    ("train_policy",
                     VDict [("kl_beta", VFloat (Float "0.1"));
                            ("reward_function", VStr "single_choice")])])]
           [("train",
             VDict [("output_dir", VStr "./outputs/20250601120000");
                    ("train_policy",
                     VDict [("kl_beta", VFloat (Float "0.1"));
                            ("reward_function", VStr "single_choice")]);
                    ("timestamp", VStr "20250601120000")])]
           config).
  vm_compute. reflexivity.
Defined.

(** ** The pipeline rule as one divisibility *)

(** X20: with a pipeline-parallel degree above 1 and a positive micro-batch
    size, the pipeline block of [validate] passes exactly when the batch
    size is a multiple of the degree times the micro-batch size. *)
Theorem X20_pipeline_product (self : Config.t) :
  let par := Config.parallelism self in
  let batch := TrainingConfig.train_batch_per_replica (Config.train self) in
  1 < ParallelismConfig.pp_size par ->
  0 < ParallelismConfig.pp_micro_batch_size par ->
  (check_pipeline self = Ok tt
   <-> batch mod (ParallelismConfig.pp_size par
                  * ParallelismConfig.pp_micro_batch_size par) = 0).
Proof.
  intros par batch Hpp Hm.
  rewrite (check_pipeline_ok self Hpp). unfold pipeline_divisible.
  fold par. fold batch.
  set (pp := ParallelismConfig.pp_size par) in *.
  set (micro := ParallelismConfig.pp_micro_batch_size par) in *.
  split.
  - intros [_ [H1 H2]].
    apply Z.mod_divide in H1; [| lia]. destruct H1 as [q Hq].
    assert (Hdiv : batch / micro = q).
    { rewrite Hq. apply Z.div_mul. lia. }
    rewrite Hdiv in H2.
    apply Z.mod_divide in H2; [| lia]. destruct H2 as [r Hr].
    apply Z.mod_divide; [lia |]. exists r. rewrite Hq, Hr. ring.
  - intros H. apply Z.mod_divide in H; [| lia]. destruct H as [r Hr].
    split; [exact Hm |].
    assert (Hb : batch = (r * pp) * micro) by (rewrite Hr; ring).
    split.
    + rewrite Hb. apply Z.mod_mul. lia.
    + rewrite Hb, Z.div_mul by lia. apply Z.mod_mul. lia.
Qed.

Lemma X20_pipeline_product_witness :
  check_pipeline (pipeline_config 4 2 24) = Ok tt.
Proof.
  apply (X20_pipeline_product (pipeline_config 4 2 24)); simpl; try lia.
  reflexivity.
Defined.
